(** * ReadyTraderGo auto-traders [autotrader_ac_3.py] and [autotrader_ac_4.py]

    A shallow embedding of the two [AutoTrader] classes: the trader object is
    a record, every callback is a function from the record and the callback's
    arguments to the new record and the list of commands it sent to the
    exchange, and a Python exception is a [Raise] result.  Python integers
    are [Z], [//] is [Z.div] (floor division), the two id sets are [gset Z]
    and the four price histories are lists that grow at the end. *)

From stdpp Require Import base decidable numbers list gmap.

#[local] Open Scope Z_scope.
#[local] Set Warnings "-clear-no-such-hyp".

(** ** What the callbacks exchange with the outside *)

(** Modelled from the spec: the enumerations [Instrument], [Side] and
    [Lifespan] are imported from the package [ready_trader_go], which is not
    part of the sources at hand; the spec names a two-instrument pair (the
    tracked ETF and the reference future) and the sides Buy and Sell. *)
Inductive Instrument := FUTURE | ETF.
Inductive Side := BID | ASK.
Inductive Lifespan := FILL_AND_KILL | GOOD_FOR_DAY.

#[global] Instance Instrument_eq_dec : EqDecision Instrument.
Proof. solve_decision. Defined.
#[global] Instance Side_eq_dec : EqDecision Side.
Proof. solve_decision. Defined.
#[global] Instance Lifespan_eq_dec : EqDecision Lifespan.
Proof. solve_decision. Defined.

(** Modelled from the spec: [MINIMUM_BID] and [MAXIMUM_ASK] are imported from
    [ready_trader_go] as well; the spec only calls them the two fixed extreme
    prices, so they stay abstract. *)
Class ExchangeLimits := { MINIMUM_BID : Z; MAXIMUM_ASK : Z }.

(** The four [send_*] methods of [BaseAutoTrader], as the trace a callback
    leaves behind. *)
Inductive Command :=
| send_amend_order (client_order_id volume : Z)
| send_cancel_order (client_order_id : Z)
| send_hedge_order (client_order_id : Z) (side : Side) (price volume : Z)
| send_insert_order (client_order_id : Z) (side : Side) (price volume : Z)
                    (lifespan : Lifespan).

#[global] Instance Command_eq_dec : EqDecision Command.
Proof. solve_decision. Defined.

(** One constructor per [on_*_message] callback, with the callback's
    arguments. *)
Inductive Event :=
| ErrorMessage (client_order_id : Z) (error_message : list Byte.byte)
| HedgeFilledMessage (client_order_id price volume : Z)
| OrderFilledMessage (client_order_id price volume : Z)
| OrderStatusMessage (client_order_id fill_volume remaining_volume fees : Z)
| TradeTicksMessage (instrument : Instrument) (sequence_number : Z)
    (ask_prices ask_volumes bid_prices bid_volumes : list Z)
| OrderBookUpdateMessage (instrument : Instrument) (sequence_number : Z)
    (ask_prices ask_volumes bid_prices bid_volumes : list Z).

(** ** Exceptions *)

Inductive Exception :=
| IndexError | ZeroDivisionError | OverflowError | UnboundLocalError
| UnicodeDecodeError.

Inductive result (A : Type) :=
| Ok (a : A)
| Raise (e : Exception).
Arguments Ok {A} a.
Arguments Raise {A} e.

#[global] Instance result_ret : MRet result := @Ok.
#[global] Instance result_bind : MBind result := λ A B f m,
  match m with Ok a => f a | Raise e => Raise e end.

(** ** Constants shared by the two files *)

Definition LOT_SIZE : Z := 10.
Definition POSITION_LIMIT : Z := 100.
Definition TICK_SIZE_IN_CENTS : Z := 100.

Definition MIN_BID_NEAREST_TICK `{ExchangeLimits} : Z :=
  (MINIMUM_BID + TICK_SIZE_IN_CENTS) `div` TICK_SIZE_IN_CENTS * TICK_SIZE_IN_CENTS.
Definition MAX_ASK_NEAREST_TICK `{ExchangeLimits} : Z :=
  MAXIMUM_ASK `div` TICK_SIZE_IN_CENTS * TICK_SIZE_IN_CENTS.

(** ** Python list reads *)

(** [l[0]] *)
Definition item_first (l : list Z) : result Z :=
  match l with x :: _ => Ok x | [] => Raise IndexError end.

(** [l[-1]] *)
Definition item_last (l : list Z) : result Z :=
  match last l with Some x => Ok x | None => Raise IndexError end.

(** ** [bytes.decode()]

    Without arguments it decodes UTF-8 and is strict: it raises
    [UnicodeDecodeError] unless the bytes are a sequence of well-formed
    UTF-8 code points, which excludes overlong forms, surrogates and code
    points above U+10FFFF.  The two files decode only to fill a log line, so
    the text itself is dropped and only the raising is kept. *)
Definition byte_value (b : Byte.byte) : Z := Z.of_N (Byte.to_N b).

Definition byte_between (lo hi : Z) (b : Byte.byte) : bool :=
  bool_decide (lo ≤ byte_value b ≤ hi).

Fixpoint utf8_well_formed (bs : list Byte.byte) : bool :=
  match bs with
  | [] => true
  | b0 :: bs1 =>
      let v := byte_value b0 in
      if bool_decide (v ≤ 127) then utf8_well_formed bs1
      else if bool_decide (194 ≤ v ≤ 223) then
        match bs1 with
        | b1 :: bs2 => byte_between 128 191 b1 && utf8_well_formed bs2
        | _ => false
        end
      else if bool_decide (224 ≤ v ≤ 239) then
        match bs1 with
        | b1 :: b2 :: bs3 =>
            byte_between (if bool_decide (v = 224) then 160 else 128)
                         (if bool_decide (v = 237) then 159 else 191) b1
            && byte_between 128 191 b2 && utf8_well_formed bs3
        | _ => false
        end
      else if bool_decide (240 ≤ v ≤ 244) then
        match bs1 with
        | b1 :: b2 :: b3 :: bs4 =>
            byte_between (if bool_decide (v = 240) then 144 else 128)
                         (if bool_decide (v = 244) then 143 else 191) b1
            && byte_between 128 191 b2 && byte_between 128 191 b3
            && utf8_well_formed bs4
        | _ => false
        end
      else false
  end.

Definition decode (bs : list Byte.byte) : result unit :=
  if utf8_well_formed bs then Ok () else Raise UnicodeDecodeError.

(** ** Python true division of two integers

    [a / b] raises [ZeroDivisionError] when [b] is zero and [OverflowError]
    when the correctly rounded quotient is no float, which is from the
    midpoint between the largest float and [2^1024] on.  The quotient itself
    is a float; the callbacks below never read it, so only the raising is
    kept. *)
Definition FLOAT_OVERFLOW : Z := 2 ^ 1024 - 2 ^ 970.

Definition true_divide (a b : Z) : result unit :=
  if bool_decide (b = 0) then Raise ZeroDivisionError
  else if bool_decide (FLOAT_OVERFLOW * Z.abs b ≤ Z.abs a) then Raise OverflowError
  else Ok ().

(** ** [autotrader_ac_3.py] *)

Module AC3.

(** The attributes [__init__] sets.  [order_ids] is the value the next
    [next(self.order_ids)] returns ([itertools.count(1)]). *)
Record AutoTrader := {
  order_ids : Z;
  bids : gset Z;
  asks : gset Z;
  ask_id : Z;
  ask_price : Z;
  bid_id : Z;
  bid_price : Z;
  position : Z;
  bid_price_history_of_etf : list Z;
  ask_price_history_of_etf : list Z;
  bid_price_history_of_future : list Z;
  ask_price_history_of_future : list Z
}.

Definition init : AutoTrader := {|
  order_ids := 1; bids := ∅; asks := ∅;
  ask_id := 0; ask_price := 0; bid_id := 0; bid_price := 0; position := 0;
  bid_price_history_of_etf := []; ask_price_history_of_etf := [];
  bid_price_history_of_future := []; ask_price_history_of_future := []
|}.

(** Attribute assignments. *)
Definition set_order_ids (v : Z) (self : AutoTrader) : AutoTrader :=
  {| order_ids := v; bids := bids self; asks := asks self;
     ask_id := ask_id self; ask_price := ask_price self;
     bid_id := bid_id self; bid_price := bid_price self;
     position := position self;
     bid_price_history_of_etf := bid_price_history_of_etf self;
     ask_price_history_of_etf := ask_price_history_of_etf self;
     bid_price_history_of_future := bid_price_history_of_future self;
     ask_price_history_of_future := ask_price_history_of_future self |}.

Definition set_bids (v : gset Z) (self : AutoTrader) : AutoTrader :=
  {| order_ids := order_ids self; bids := v; asks := asks self;
     ask_id := ask_id self; ask_price := ask_price self;
     bid_id := bid_id self; bid_price := bid_price self;
     position := position self;
     bid_price_history_of_etf := bid_price_history_of_etf self;
     ask_price_history_of_etf := ask_price_history_of_etf self;
     bid_price_history_of_future := bid_price_history_of_future self;
     ask_price_history_of_future := ask_price_history_of_future self |}.

Definition set_asks (v : gset Z) (self : AutoTrader) : AutoTrader :=
  {| order_ids := order_ids self; bids := bids self; asks := v;
     ask_id := ask_id self; ask_price := ask_price self;
     bid_id := bid_id self; bid_price := bid_price self;
     position := position self;
     bid_price_history_of_etf := bid_price_history_of_etf self;
     ask_price_history_of_etf := ask_price_history_of_etf self;
     bid_price_history_of_future := bid_price_history_of_future self;
     ask_price_history_of_future := ask_price_history_of_future self |}.

Definition set_ask_id (v : Z) (self : AutoTrader) : AutoTrader :=
  {| order_ids := order_ids self; bids := bids self; asks := asks self;
     ask_id := v; ask_price := ask_price self;
     bid_id := bid_id self; bid_price := bid_price self;
     position := position self;
     bid_price_history_of_etf := bid_price_history_of_etf self;
     ask_price_history_of_etf := ask_price_history_of_etf self;
     bid_price_history_of_future := bid_price_history_of_future self;
     ask_price_history_of_future := ask_price_history_of_future self |}.

Definition set_bid_id (v : Z) (self : AutoTrader) : AutoTrader :=
  {| order_ids := order_ids self; bids := bids self; asks := asks self;
     ask_id := ask_id self; ask_price := ask_price self;
     bid_id := v; bid_price := bid_price self;
     position := position self;
     bid_price_history_of_etf := bid_price_history_of_etf self;
     ask_price_history_of_etf := ask_price_history_of_etf self;
     bid_price_history_of_future := bid_price_history_of_future self;
     ask_price_history_of_future := ask_price_history_of_future self |}.

Definition set_position (v : Z) (self : AutoTrader) : AutoTrader :=
  {| order_ids := order_ids self; bids := bids self; asks := asks self;
     ask_id := ask_id self; ask_price := ask_price self;
     bid_id := bid_id self; bid_price := bid_price self;
     position := v;
     bid_price_history_of_etf := bid_price_history_of_etf self;
     ask_price_history_of_etf := ask_price_history_of_etf self;
     bid_price_history_of_future := bid_price_history_of_future self;
     ask_price_history_of_future := ask_price_history_of_future self |}.

(** The two [append] calls on the ETF histories, and the two on the
    future's. *)
Definition append_etf (bid ask : Z) (self : AutoTrader) : AutoTrader :=
  {| order_ids := order_ids self; bids := bids self; asks := asks self;
     ask_id := ask_id self; ask_price := ask_price self;
     bid_id := bid_id self; bid_price := bid_price self;
     position := position self;
     bid_price_history_of_etf := bid_price_history_of_etf self ++ [bid];
     ask_price_history_of_etf := ask_price_history_of_etf self ++ [ask];
     bid_price_history_of_future := bid_price_history_of_future self;
     ask_price_history_of_future := ask_price_history_of_future self |}.

Definition append_future (bid ask : Z) (self : AutoTrader) : AutoTrader :=
  {| order_ids := order_ids self; bids := bids self; asks := asks self;
     ask_id := ask_id self; ask_price := ask_price self;
     bid_id := bid_id self; bid_price := bid_price self;
     position := position self;
     bid_price_history_of_etf := bid_price_history_of_etf self;
     ask_price_history_of_etf := ask_price_history_of_etf self;
     bid_price_history_of_future := bid_price_history_of_future self ++ [bid];
     ask_price_history_of_future := ask_price_history_of_future self ++ [ask] |}.

Section Callbacks.
Context `{ExchangeLimits}.

(** The calls on [self.logger] leave the trader as it is and are left out
    of every callback; what is kept is the one argument of such a call that
    can raise, the decoding of [error_message]. *)

Definition on_order_status_message (self : AutoTrader)
    (client_order_id fill_volume remaining_volume fees : Z)
    : AutoTrader * list Command :=
  if bool_decide (remaining_volume = 0) then
    let self :=
      if bool_decide (client_order_id = bid_id self) then set_bid_id 0 self
      else if bool_decide (client_order_id = ask_id self) then set_ask_id 0 self
      else self in
    (* It could be either a bid or an ask *)
    let self := set_bids (bids self ∖ {[client_order_id]}) self in
    let self := set_asks (asks self ∖ {[client_order_id]}) self in
    (self, [])
  else (self, []).

Definition on_error_message (self : AutoTrader) (client_order_id : Z)
    (error_message : list Byte.byte) : result (AutoTrader * list Command) :=
  (* the argument of the logger call *)
  _ ← decode error_message;
  if bool_decide (client_order_id ≠ 0)
     && (bool_decide (client_order_id ∈ bids self)
         || bool_decide (client_order_id ∈ asks self))
  then mret (on_order_status_message self client_order_id 0 0 0)
  else mret (self, []).

Definition on_hedge_filled_message (self : AutoTrader)
    (client_order_id price volume : Z) : AutoTrader * list Command :=
  (self, []).

Definition on_order_filled_message (self : AutoTrader)
    (client_order_id price volume : Z) : AutoTrader * list Command :=
  if bool_decide (client_order_id ∈ bids self) then
    let self := set_position (position self + volume) self in
    let id := order_ids self in
    let self := set_order_ids (id + 1) self in
    (self, [send_hedge_order id ASK MIN_BID_NEAREST_TICK volume])
  else if bool_decide (client_order_id ∈ asks self) then
    let self := set_position (position self - volume) self in
    let id := order_ids self in
    let self := set_order_ids (id + 1) self in
    (self, [send_hedge_order id BID MAX_ASK_NEAREST_TICK volume])
  else (self, []).

Definition on_trade_ticks_message (self : AutoTrader)
    (instrument : Instrument) (sequence_number : Z)
    (ask_prices ask_volumes bid_prices bid_volumes : list Z)
    : AutoTrader * list Command :=
  (self, []).

(** Reading a local variable that an [if]/[elif] chain may have left
    unassigned. *)
Definition read_local (v : option Z) : result Z :=
  match v with Some x => Ok x | None => Raise UnboundLocalError end.

(** The body of [if midpoint_price_of_etf > midpoint_price_of_future:],
    under the comment [# sell etf]. *)
Definition sell_etf (self : AutoTrader) (instrument : Instrument)
    (ask_prices : list Z) (multiplier : Z) (is_positive_position : bool)
    : result (AutoTrader * list Command) :=
  if bool_decide (instrument = ETF) then
    let '(self, cancelled) :=
      if bool_decide (ask_id self ≠ 0)
      then (set_ask_id 0 self, [send_cancel_order (ask_id self)])
      else (self, []) in
    if bool_decide (ask_id self = 0)
       && bool_decide (position self > - POSITION_LIMIT + LOT_SIZE) then
      (* determine volume *)
      let volume :=
        if is_positive_position
           && bool_decide (position self - LOT_SIZE * multiplier >= -100)
        then Some (LOT_SIZE * multiplier)
        else if is_positive_position
           && bool_decide (position self - LOT_SIZE * multiplier ≤ -100)
        then Some (100 + position self)
        else if negb is_positive_position
           && bool_decide (position self - LOT_SIZE * multiplier >= -100)
        then Some (LOT_SIZE * multiplier)
        else if negb is_positive_position
           && bool_decide (position self - LOT_SIZE * multiplier ≤ -100)
        then Some (100 + position self)
        else None in
      (* send order *)
      let self := set_ask_id (order_ids self)
                    (set_order_ids (order_ids self + 1) self) in
      price ← item_first ask_prices;
      volume ← read_local volume;
      let sent := send_insert_order (ask_id self) ASK price volume GOOD_FOR_DAY in
      let self := set_asks (asks self ∪ {[ask_id self]}) self in
      mret (self, cancelled ++ [sent])
    else mret (self, cancelled)
  else mret (self, []).

(** The body of [if midpoint_price_of_etf < midpoint_price_of_future:],
    under the comment [# buy etf]. *)
Definition buy_etf (self : AutoTrader) (instrument : Instrument)
    (bid_prices : list Z) (multiplier : Z) (is_positive_position : bool)
    : result (AutoTrader * list Command) :=
  if bool_decide (instrument = ETF) then
    let '(self, cancelled) :=
      if bool_decide (bid_id self ≠ 0)
      then (set_bid_id 0 self, [send_cancel_order (bid_id self)])
      else (self, []) in
    if bool_decide (bid_id self = 0)
       && bool_decide (position self < POSITION_LIMIT - LOT_SIZE) then
      (* determine volume *)
      let volume :=
        if is_positive_position
           && bool_decide (position self + LOT_SIZE * multiplier ≤ 100)
        then Some (LOT_SIZE * multiplier)
        else if is_positive_position
           && bool_decide (position self + LOT_SIZE * multiplier > 100)
        then Some (100 - position self)
        else if negb is_positive_position
           && bool_decide (position self + LOT_SIZE * multiplier ≤ 100)
        then Some (LOT_SIZE * multiplier)
        else if negb is_positive_position
           && bool_decide (position self + LOT_SIZE * multiplier >= 100)
        then Some (100 - position self)
        else None in
      (* send order *)
      let volume :=
        Some (if bool_decide (LOT_SIZE * multiplier + position self ≤ 100)
              then LOT_SIZE * multiplier else 100 - position self) in
      let self := set_bid_id (order_ids self)
                    (set_order_ids (order_ids self + 1) self) in
      price ← item_first bid_prices;
      volume ← read_local volume;
      let sent := send_insert_order (bid_id self) BID price volume GOOD_FOR_DAY in
      let self := set_bids (bids self ∪ {[bid_id self]}) self in
      mret (self, cancelled ++ [sent])
    else mret (self, cancelled)
  else mret (self, []).

Definition on_order_book_update_message (self : AutoTrader)
    (instrument : Instrument) (sequence_number : Z)
    (ask_prices ask_volumes bid_prices bid_volumes : list Z)
    : result (AutoTrader * list Command) :=
  (* price history updates *)
  self ← (if bool_decide (instrument = ETF) then
            bid ← item_first bid_prices;
            ask ← item_first ask_prices;
            mret (append_etf bid ask self)
          else mret self);
  self ← (if bool_decide (instrument = FUTURE) then
            bid ← item_first bid_prices;
            ask ← item_first ask_prices;
            mret (append_future bid ask self)
          else mret self);
  (* calculations *)
  if bool_decide (length (bid_price_history_of_etf self)
                  = length (bid_price_history_of_future self)) then
    bid_etf ← item_last (bid_price_history_of_etf self);
    ask_etf ← item_last (ask_price_history_of_etf self);
    let midpoint_price_of_etf := (bid_etf + ask_etf) `div` 2 in
    bid_future ← item_last (bid_price_history_of_future self);
    ask_future ← item_last (ask_price_history_of_future self);
    let midpoint_price_of_future := (bid_future + ask_future) `div` 2 in
    (* order execution *)
    let multiplier :=
      Z.abs (midpoint_price_of_etf - midpoint_price_of_future)
        `div` TICK_SIZE_IN_CENTS + 1 in
    let is_positive_position := bool_decide (position self >= 0) in
    '(self, sent_sell) ←
      (if bool_decide (midpoint_price_of_etf > midpoint_price_of_future)
       then sell_etf self instrument ask_prices multiplier is_positive_position
       else mret (self, []));
    '(self, sent_buy) ←
      (if bool_decide (midpoint_price_of_etf < midpoint_price_of_future)
       then buy_etf self instrument bid_prices multiplier is_positive_position
       else mret (self, []));
    mret (self, sent_sell ++ sent_buy)
  else mret (self, []).

(** The dispatch of one inbound message to its callback. *)
Definition handle (self : AutoTrader) (ev : Event)
    : result (AutoTrader * list Command) :=
  match ev with
  | ErrorMessage id msg => on_error_message self id msg
  | HedgeFilledMessage id price volume =>
      Ok (on_hedge_filled_message self id price volume)
  | OrderFilledMessage id price volume =>
      Ok (on_order_filled_message self id price volume)
  | OrderStatusMessage id fill_volume remaining_volume fees =>
      Ok (on_order_status_message self id fill_volume remaining_volume fees)
  | TradeTicksMessage i n ap av bp bv =>
      Ok (on_trade_ticks_message self i n ap av bp bv)
  | OrderBookUpdateMessage i n ap av bp bv =>
      on_order_book_update_message self i n ap av bp bv
  end.

(** Messages are handled one at a time, each to completion; an uncaught
    exception ends the run. *)
Fixpoint run (self : AutoTrader) (evs : list Event)
    : result (AutoTrader * list Command) :=
  match evs with
  | [] => Ok (self, [])
  | ev :: evs =>
      '(self, sent) ← handle self ev;
      '(self, sent') ← run self evs;
      mret (self, sent ++ sent')
  end.

(** The traders the exchange can bring about. *)
Inductive reachable : AutoTrader → Prop :=
| reachable_init : reachable init
| reachable_step self ev self' sent :
    reachable self → handle self ev = Ok (self', sent) → reachable self'.

(** The trader a run from [init] leaves behind ([init] itself when the run
    raised). *)
Definition after (evs : list Event) : AutoTrader :=
  match run init evs with Ok (self, _) => self | Raise _ => init end.

End Callbacks.

End AC3.

(** ** [autotrader_ac_4.py] *)

Module AC4.

(** The attributes [__init__] sets; [position_orders] is the one the file
    adds, commented there as the total ETF position in active orders. *)
Record AutoTrader := {
  order_ids : Z;
  bids : gset Z;
  asks : gset Z;
  ask_id : Z;
  ask_price : Z;
  bid_id : Z;
  bid_price : Z;
  position : Z;
  bid_price_history_of_etf : list Z;
  ask_price_history_of_etf : list Z;
  bid_price_history_of_future : list Z;
  ask_price_history_of_future : list Z;
  position_orders : Z
}.

Definition init : AutoTrader := {|
  order_ids := 1; bids := ∅; asks := ∅;
  ask_id := 0; ask_price := 0; bid_id := 0; bid_price := 0; position := 0;
  bid_price_history_of_etf := []; ask_price_history_of_etf := [];
  bid_price_history_of_future := []; ask_price_history_of_future := [];
  position_orders := 0
|}.

(** Attribute assignments. *)
Definition set_order_ids (v : Z) (self : AutoTrader) : AutoTrader :=
  {| order_ids := v; bids := bids self; asks := asks self;
     ask_id := ask_id self; ask_price := ask_price self;
     bid_id := bid_id self; bid_price := bid_price self;
     position := position self;
     bid_price_history_of_etf := bid_price_history_of_etf self;
     ask_price_history_of_etf := ask_price_history_of_etf self;
     bid_price_history_of_future := bid_price_history_of_future self;
     ask_price_history_of_future := ask_price_history_of_future self;
     position_orders := position_orders self |}.

Definition set_bids (v : gset Z) (self : AutoTrader) : AutoTrader :=
  {| order_ids := order_ids self; bids := v; asks := asks self;
     ask_id := ask_id self; ask_price := ask_price self;
     bid_id := bid_id self; bid_price := bid_price self;
     position := position self;
     bid_price_history_of_etf := bid_price_history_of_etf self;
     ask_price_history_of_etf := ask_price_history_of_etf self;
     bid_price_history_of_future := bid_price_history_of_future self;
     ask_price_history_of_future := ask_price_history_of_future self;
     position_orders := position_orders self |}.

Definition set_asks (v : gset Z) (self : AutoTrader) : AutoTrader :=
  {| order_ids := order_ids self; bids := bids self; asks := v;
     ask_id := ask_id self; ask_price := ask_price self;
     bid_id := bid_id self; bid_price := bid_price self;
     position := position self;
     bid_price_history_of_etf := bid_price_history_of_etf self;
     ask_price_history_of_etf := ask_price_history_of_etf self;
     bid_price_history_of_future := bid_price_history_of_future self;
     ask_price_history_of_future := ask_price_history_of_future self;
     position_orders := position_orders self |}.

Definition set_ask_id (v : Z) (self : AutoTrader) : AutoTrader :=
  {| order_ids := order_ids self; bids := bids self; asks := asks self;
     ask_id := v; ask_price := ask_price self;
     bid_id := bid_id self; bid_price := bid_price self;
     position := position self;
     bid_price_history_of_etf := bid_price_history_of_etf self;
     ask_price_history_of_etf := ask_price_history_of_etf self;
     bid_price_history_of_future := bid_price_history_of_future self;
     ask_price_history_of_future := ask_price_history_of_future self;
     position_orders := position_orders self |}.

Definition set_bid_id (v : Z) (self : AutoTrader) : AutoTrader :=
  {| order_ids := order_ids self; bids := bids self; asks := asks self;
     ask_id := ask_id self; ask_price := ask_price self;
     bid_id := v; bid_price := bid_price self;
     position := position self;
     bid_price_history_of_etf := bid_price_history_of_etf self;
     ask_price_history_of_etf := ask_price_history_of_etf self;
     bid_price_history_of_future := bid_price_history_of_future self;
     ask_price_history_of_future := ask_price_history_of_future self;
     position_orders := position_orders self |}.

Definition set_position (v : Z) (self : AutoTrader) : AutoTrader :=
  {| order_ids := order_ids self; bids := bids self; asks := asks self;
     ask_id := ask_id self; ask_price := ask_price self;
     bid_id := bid_id self; bid_price := bid_price self;
     position := v;
     bid_price_history_of_etf := bid_price_history_of_etf self;
     ask_price_history_of_etf := ask_price_history_of_etf self;
     bid_price_history_of_future := bid_price_history_of_future self;
     ask_price_history_of_future := ask_price_history_of_future self;
     position_orders := position_orders self |}.

Definition set_position_orders (v : Z) (self : AutoTrader) : AutoTrader :=
  {| order_ids := order_ids self; bids := bids self; asks := asks self;
     ask_id := ask_id self; ask_price := ask_price self;
     bid_id := bid_id self; bid_price := bid_price self;
     position := position self;
     bid_price_history_of_etf := bid_price_history_of_etf self;
     ask_price_history_of_etf := ask_price_history_of_etf self;
     bid_price_history_of_future := bid_price_history_of_future self;
     ask_price_history_of_future := ask_price_history_of_future self;
     position_orders := v |}.

(** The two [append] calls on the ETF histories, and the two on the
    future's. *)
Definition append_etf (bid ask : Z) (self : AutoTrader) : AutoTrader :=
  {| order_ids := order_ids self; bids := bids self; asks := asks self;
     ask_id := ask_id self; ask_price := ask_price self;
     bid_id := bid_id self; bid_price := bid_price self;
     position := position self;
     bid_price_history_of_etf := bid_price_history_of_etf self ++ [bid];
     ask_price_history_of_etf := ask_price_history_of_etf self ++ [ask];
     bid_price_history_of_future := bid_price_history_of_future self;
     ask_price_history_of_future := ask_price_history_of_future self;
     position_orders := position_orders self |}.

Definition append_future (bid ask : Z) (self : AutoTrader) : AutoTrader :=
  {| order_ids := order_ids self; bids := bids self; asks := asks self;
     ask_id := ask_id self; ask_price := ask_price self;
     bid_id := bid_id self; bid_price := bid_price self;
     position := position self;
     bid_price_history_of_etf := bid_price_history_of_etf self;
     ask_price_history_of_etf := ask_price_history_of_etf self;
     bid_price_history_of_future := bid_price_history_of_future self ++ [bid];
     ask_price_history_of_future := ask_price_history_of_future self ++ [ask];
     position_orders := position_orders self |}.

Section Callbacks.
Context `{ExchangeLimits}.

(** The calls on [self.logger] leave the trader as it is and are left out
    of every callback; what is kept is the one argument of such a call that
    can raise, the decoding of [error_message]. *)

Definition on_order_status_message (self : AutoTrader)
    (client_order_id fill_volume remaining_volume fees : Z)
    : AutoTrader * list Command :=
  let self :=
    if bool_decide (client_order_id = bid_id self)
    then set_position_orders (position_orders self - fill_volume) self
    else if bool_decide (client_order_id = ask_id self)
    then set_position_orders (position_orders self + fill_volume) self
    else self in
  if bool_decide (remaining_volume = 0) then
    let self :=
      if bool_decide (client_order_id = bid_id self) then set_bid_id 0 self
      else if bool_decide (client_order_id = ask_id self) then set_ask_id 0 self
      else self in
    (* It could be either a bid or an ask *)
    let self := set_bids (bids self ∖ {[client_order_id]}) self in
    let self := set_asks (asks self ∖ {[client_order_id]}) self in
    (self, [])
  else (self, []).

Definition on_error_message (self : AutoTrader) (client_order_id : Z)
    (error_message : list Byte.byte) : result (AutoTrader * list Command) :=
  (* the argument of the logger call *)
  _ ← decode error_message;
  if bool_decide (client_order_id ≠ 0)
     && (bool_decide (client_order_id ∈ bids self)
         || bool_decide (client_order_id ∈ asks self))
  then mret (on_order_status_message self client_order_id 0 0 0)
  else mret (self, []).

Definition on_hedge_filled_message (self : AutoTrader)
    (client_order_id price volume : Z) : AutoTrader * list Command :=
  (self, []).

Definition on_order_filled_message (self : AutoTrader)
    (client_order_id price volume : Z) : AutoTrader * list Command :=
  if bool_decide (client_order_id ∈ bids self) then
    let self := set_position (position self + volume) self in
    let self := set_position_orders (position_orders self - volume) self in
    let id := order_ids self in
    let self := set_order_ids (id + 1) self in
    (self, [send_hedge_order id ASK MIN_BID_NEAREST_TICK volume])
  else if bool_decide (client_order_id ∈ asks self) then
    let self := set_position (position self - volume) self in
    let self := set_position_orders (position_orders self + volume) self in
    let id := order_ids self in
    let self := set_order_ids (id + 1) self in
    (self, [send_hedge_order id BID MAX_ASK_NEAREST_TICK volume])
  else (self, []).

Definition on_trade_ticks_message (self : AutoTrader)
    (instrument : Instrument) (sequence_number : Z)
    (ask_prices ask_volumes bid_prices bid_volumes : list Z)
    : AutoTrader * list Command :=
  (self, []).

(** The comparison
    [(midpoint_price_of_etf/midpoint_price_of_future-1)/0.003546 > 1 - (self.position_orders/100)]
    and its mirror image with [<] and [-1]: the left operand is evaluated
    first, then the right one.  Either of the two integer divisions can
    raise; the float operations around them cannot, and the outcome only
    feeds [in_long_etf_position] and [in_short_etf_position], which nothing
    reads. *)
Definition adjusted_threshold_comparison
    (midpoint_price_of_etf midpoint_price_of_future position_orders : Z)
    : result unit :=
  _ ← true_divide midpoint_price_of_etf midpoint_price_of_future;
  _ ← true_divide position_orders 100;
  mret ().

Definition on_order_book_update_message (self : AutoTrader)
    (instrument : Instrument) (sequence_number : Z)
    (ask_prices ask_volumes bid_prices bid_volumes : list Z)
    : result (AutoTrader * list Command) :=
  (* price history updates *)
  self ← (if bool_decide (instrument = ETF) then
            bid ← item_first bid_prices;
            ask ← item_first ask_prices;
            mret (append_etf bid ask self)
          else mret self);
  self ← (if bool_decide (instrument = FUTURE) then
            bid ← item_first bid_prices;
            ask ← item_first ask_prices;
            mret (append_future bid ask self)
          else mret self);
  (* the strategy after this applies to etf *)
  if bool_decide (instrument = FUTURE) then mret (self, []) else
  let is_latest_info :=
    bool_decide (length (bid_price_history_of_etf self)
                 = length (bid_price_history_of_future self)) in
  if negb is_latest_info then mret (self, []) else
  (* define key vars *)
  bid_etf ← item_last (bid_price_history_of_etf self);
  ask_etf ← item_last (ask_price_history_of_etf self);
  let midpoint_price_of_etf := (bid_etf + ask_etf) `div` 2 in
  bid_future ← item_last (bid_price_history_of_future self);
  ask_future ← item_last (ask_price_history_of_future self);
  let midpoint_price_of_future := (bid_future + ask_future) `div` 2 in
  let multiplier :=
    Z.abs (midpoint_price_of_etf - midpoint_price_of_future)
      `div` TICK_SIZE_IN_CENTS + 1 in
  let have_an_active_ask := bool_decide (ask_id self ≠ 0) in
  let have_an_active_bid := bool_decide (bid_id self ≠ 0) in
  (* sell logic *)
  let significant_etf_overpricing :=
    bool_decide (midpoint_price_of_etf > midpoint_price_of_future) in
  _ ← (* in_long_etf_position *)
      (if bool_decide (position_orders self >= 0)
       then adjusted_threshold_comparison midpoint_price_of_etf
              midpoint_price_of_future (position_orders self)
       else mret ());
  let should_sell := significant_etf_overpricing in
  (* buy logic *)
  let significant_etf_underpricing :=
    bool_decide (midpoint_price_of_etf < midpoint_price_of_future) in
  _ ← (* in_short_etf_position *)
      (if bool_decide (position_orders self < 0)
       then adjusted_threshold_comparison midpoint_price_of_etf
              midpoint_price_of_future (position_orders self)
       else mret ());
  let should_buy := significant_etf_underpricing in
  (* decision-making for etf-future-midpoint-price-arbitrage *)
  let '(self, cancelled_ask) :=
    if have_an_active_ask
    then (set_ask_id 0 self, [send_cancel_order (ask_id self)])
    else (self, []) in
  let '(self, cancelled_bid) :=
    if have_an_active_bid
    then (set_bid_id 0 self, [send_cancel_order (bid_id self)])
    else (self, []) in
  let is_within_limit_after_sell :=
    bool_decide (position self > - POSITION_LIMIT + LOT_SIZE) in
  let is_within_limit_after_buy :=
    bool_decide (position self < POSITION_LIMIT - LOT_SIZE) in
  '(self, sent_sell) ←
    (if should_sell && is_within_limit_after_sell then
       let volume :=
         if bool_decide (position self - LOT_SIZE * multiplier >= -100)
         then LOT_SIZE * multiplier else 100 + position self in
       (* execute !! *)
       let self := set_ask_id (order_ids self)
                     (set_order_ids (order_ids self + 1) self) in
       price ← item_last (ask_price_history_of_etf self);
       let sent := send_insert_order (ask_id self) ASK price volume GOOD_FOR_DAY in
       let self := set_asks (asks self ∪ {[ask_id self]}) self in
       mret (self, [sent])
     else mret (self, []));
  '(self, sent_buy) ←
    (if should_buy && is_within_limit_after_buy then
       let volume :=
         if bool_decide (position self + LOT_SIZE * multiplier ≤ 100)
         then LOT_SIZE * multiplier else 100 - position self in
       (* execute !! *)
       let self := set_bid_id (order_ids self)
                     (set_order_ids (order_ids self + 1) self) in
       price ← item_last (bid_price_history_of_etf self);
       let sent := send_insert_order (bid_id self) BID price volume GOOD_FOR_DAY in
       let self := set_bids (bids self ∪ {[bid_id self]}) self in
       mret (self, [sent])
     else mret (self, []));
  mret (self, cancelled_ask ++ cancelled_bid ++ sent_sell ++ sent_buy).

(** The dispatch of one inbound message to its callback. *)
Definition handle (self : AutoTrader) (ev : Event)
    : result (AutoTrader * list Command) :=
  match ev with
  | ErrorMessage id msg => on_error_message self id msg
  | HedgeFilledMessage id price volume =>
      Ok (on_hedge_filled_message self id price volume)
  | OrderFilledMessage id price volume =>
      Ok (on_order_filled_message self id price volume)
  | OrderStatusMessage id fill_volume remaining_volume fees =>
      Ok (on_order_status_message self id fill_volume remaining_volume fees)
  | TradeTicksMessage i n ap av bp bv =>
      Ok (on_trade_ticks_message self i n ap av bp bv)
  | OrderBookUpdateMessage i n ap av bp bv =>
      on_order_book_update_message self i n ap av bp bv
  end.

(** Messages are handled one at a time, each to completion; an uncaught
    exception ends the run. *)
Fixpoint run (self : AutoTrader) (evs : list Event)
    : result (AutoTrader * list Command) :=
  match evs with
  | [] => Ok (self, [])
  | ev :: evs =>
      '(self, sent) ← handle self ev;
      '(self, sent') ← run self evs;
      mret (self, sent ++ sent')
  end.

(** The traders the exchange can bring about. *)
Inductive reachable : AutoTrader → Prop :=
| reachable_init : reachable init
| reachable_step self ev self' sent :
    reachable self → handle self ev = Ok (self', sent) → reachable self'.

(** The trader a run from [init] leaves behind ([init] itself when the run
    raised). *)
Definition after (evs : list Event) : AutoTrader :=
  match run init evs with Ok (self, _) => self | Raise _ => init end.

End Callbacks.

End AC4.

(** ** A sample exchange, for evaluating runs *)

(** Nothing below depends on the two values; they only fix the price printed
    on a hedge order when a run is evaluated. *)
Definition sample_limits : ExchangeLimits :=
  {| MINIMUM_BID := 1; MAXIMUM_ASK := 2147483647 |}.

(** A book update whose best bid and best ask are [bid] and [ask], with
    four empty levels behind them on either side. *)
Definition book (instrument : Instrument) (sequence_number bid ask : Z) : Event :=
  OrderBookUpdateMessage instrument sequence_number
    [ask; 0; 0; 0; 0] [1; 0; 0; 0; 0] [bid; 0; 0; 0; 0] [1; 0; 0; 0; 0].

(** The order ids a command list cancels, and the insertions in it. *)
Definition cancelled_ids (sent : list Command) : list Z :=
  omap (λ c, match c with send_cancel_order id => Some id | _ => None end) sent.

Definition insertions (sent : list Command) : list Command :=
  omap (λ c, match c with send_insert_order _ _ _ _ _ => Some c | _ => None end) sent.

(** ** The order-tracking invariant

    Ids are handed out in increasing order from 1, an id enters exactly one
    of the two sets, and a slot that is not empty holds an id of its own
    set.  Both files keep it, so it is stated on the five attributes it
    reads. *)
Record slots_wf (order_ids : Z) (bids asks : gset Z) (bid_id ask_id : Z)
    : Prop := {
  wf_order_ids : 1 ≤ order_ids;
  wf_bids_range : ∀ i, i ∈ bids → 1 ≤ i < order_ids;
  wf_asks_range : ∀ i, i ∈ asks → 1 ≤ i < order_ids;
  wf_disjoint : bids ## asks;
  wf_bid_slot : bid_id ≠ 0 → bid_id ∈ bids;
  wf_ask_slot : ask_id ≠ 0 → ask_id ∈ asks
}.

(** The invariant, read off a trader of either file. *)
Definition ac3_wf (self : AC3.AutoTrader) : Prop :=
  slots_wf (AC3.order_ids self) (AC3.bids self) (AC3.asks self)
    (AC3.bid_id self) (AC3.ask_id self).

Definition ac4_wf (self : AC4.AutoTrader) : Prop :=
  slots_wf (AC4.order_ids self) (AC4.bids self) (AC4.asks self)
    (AC4.bid_id self) (AC4.ask_id self).

(** The snapshot a book update records before anything else. *)
Definition ac3_recorded (self : AC3.AutoTrader) (i : Instrument) (b a : Z)
    : AC3.AutoTrader :=
  match i with
  | ETF => AC3.append_etf b a self
  | FUTURE => AC3.append_future b a self
  end.

Definition ac4_recorded (self : AC4.AutoTrader) (i : Instrument) (b a : Z)
    : AC4.AutoTrader :=
  match i with
  | ETF => AC4.append_etf b a self
  | FUTURE => AC4.append_future b a self
  end.

(** ** Sample runs *)

(** A run that leaves order 1 resting as a bid for 100 lots: the future at
    20000, then the ETF at 10000. *)
Definition resting_bid_run : list Event :=
  [book FUTURE 1 20000 20000; book ETF 1 10000 10000].

(** A run that leaves order 1 resting as an ask for 20 lots, with the
    future's next snapshot already in: the next ETF update is
    synchronized. *)
Definition resting_ask_run : list Event :=
  [book FUTURE 1 10000 10000; book ETF 1 10100 10100;
   book FUTURE 2 10000 10000].

(** A run that ends at position 85 with order 1 still in the bid slot and
    the future's next snapshot already in. *)
Definition position_85_run : list Event :=
  [book FUTURE 1 20000 20000; book ETF 1 10000 10000;
   OrderFilledMessage 1 10000 85; book FUTURE 2 20000 20000].

(** The run behind C1.  The future stands at 20000 and the ETF at 10000
    throughout, so every synchronized ETF update wants to buy.  The first
    one inserts order 1, a bid for 100 lots.  The second one cancels it and
    inserts order 2, again for 100 lots, the position still being 0.  Order
    1 was filled in full before the exchange saw the cancellation, and then
    order 2 is filled in full. *)
Definition limit_breach_run : list Event :=
  [book FUTURE 1 20000 20000; book ETF 1 10000 10000;
   book FUTURE 2 20000 20000; book ETF 2 10000 10000;
   OrderFilledMessage 1 10000 100;
   OrderFilledMessage 2 10000 100].

(** What [limit_breach_run] sends, in either file. *)
Definition limit_breach_sent : list Command :=
  [send_insert_order 1 BID 10000 100 GOOD_FOR_DAY;
   send_cancel_order 1;
   send_insert_order 2 BID 10000 100 GOOD_FOR_DAY;
   send_hedge_order 3 ASK 100 100;
   send_hedge_order 4 ASK 100 100].

(** The run behind C5.  With the future at 10050 and the ETF at 10000 the
    multiplier is 1, and the synchronized ETF update inserts order 1, a bid
    for 10 lots.  The order is filled in two halves; each fill message is
    followed by its status message, which carries the volume filled so far
    and the volume remaining. *)
Definition partial_fill_run : list Event :=
  [book FUTURE 1 10050 10050; book ETF 1 10000 10000;
   OrderFilledMessage 1 10000 5; OrderStatusMessage 1 5 5 0;
   OrderFilledMessage 1 10000 5; OrderStatusMessage 1 10 0 0].

(** The run behind C6: the future's book is empty on both sides, so its
    update carries zeros only; then the ETF reports 10000 bid, 10100 ask. *)
Definition empty_future_run : list Event :=
  [OrderBookUpdateMessage FUTURE 1
     [0; 0; 0; 0; 0] [0; 0; 0; 0; 0] [0; 0; 0; 0; 0] [0; 0; 0; 0; 0];
   book ETF 1 10000 10100].

(** ** Reading runs and command lists *)

(** A message as the exchange sends it: a book update reports at least the
    best level on either side (the docstring of the callback promises
    five), and the text of an error message is encoded in UTF-8. *)
Definition well_formed (ev : Event) : Prop :=
  match ev with
  | OrderBookUpdateMessage _ _ ask_prices _ bid_prices _ =>
      ask_prices ≠ [] ∧ bid_prices ≠ []
  | ErrorMessage _ error_message => utf8_well_formed error_message = true
  | _ => True
  end.

(** The ids taken from [order_ids] by a command list: those of its
    insertions and hedge orders, in the order sent. *)
Definition new_order_ids (sent : list Command) : list Z :=
  omap (λ c, match c with
             | send_insert_order id _ _ _ _ | send_hedge_order id _ _ _ => Some id
             | _ => None
             end) sent.

(** The hedge orders in a command list. *)
Definition hedge_orders (sent : list Command) : list Command :=
  omap (λ c, match c with send_hedge_order _ _ _ _ => Some c | _ => None end) sent.

(** The commands the two files have code for: everything but an amendment
    and an order that is not good for the day. *)
Definition in_repertoire (c : Command) : Prop :=
  match c with
  | send_amend_order _ _ => False
  | send_insert_order _ _ _ _ lifespan => lifespan = GOOD_FOR_DAY
  | _ => True
  end.

(** The lots a command list sells in the future, net of the lots it buys
    there. *)
Definition hedged_volume (sent : list Command) : Z :=
  foldr (λ c acc, match c with
                  | send_hedge_order _ ASK _ volume => volume + acc
                  | send_hedge_order _ BID _ volume => - volume + acc
                  | _ => acc
                  end) 0 sent.

(** The best bids and the best asks the book updates of a run report for
    one instrument, oldest first (0 stands in for a missing level, which
    makes the callback raise). *)
Definition best_bids (i : Instrument) (evs : list Event) : list Z :=
  omap (λ ev, match ev with
              | OrderBookUpdateMessage j _ _ _ bid_prices _ =>
                  if bool_decide (j = i) then Some (default 0 (head bid_prices))
                  else None
              | _ => None
              end) evs.

Definition best_asks (i : Instrument) (evs : list Event) : list Z :=
  omap (λ ev, match ev with
              | OrderBookUpdateMessage j _ ask_prices _ _ _ =>
                  if bool_decide (j = i) then Some (default 0 (head ask_prices))
                  else None
              | _ => None
              end) evs.

(** A trader of [autotrader_ac_4.py] without its [position_orders], as a
    trader of [autotrader_ac_3.py]. *)
Definition forget_position_orders (self : AC4.AutoTrader) : AC3.AutoTrader :=
  {| AC3.order_ids := AC4.order_ids self;
     AC3.bids := AC4.bids self;
     AC3.asks := AC4.asks self;
     AC3.ask_id := AC4.ask_id self;
     AC3.ask_price := AC4.ask_price self;
     AC3.bid_id := AC4.bid_id self;
     AC3.bid_price := AC4.bid_price self;
     AC3.position := AC4.position self;
     AC3.bid_price_history_of_etf := AC4.bid_price_history_of_etf self;
     AC3.ask_price_history_of_etf := AC4.ask_price_history_of_etf self;
     AC3.bid_price_history_of_future := AC4.bid_price_history_of_future self;
     AC3.ask_price_history_of_future := AC4.ask_price_history_of_future self |}.

(** * Properties *)

(** ** Reasoning about [result] *)

Lemma result_bind_Ok {A B} (m : result A) (f : A → result B) (b : B) :
  m ≫= f = Ok b ↔ ∃ a, m = Ok a ∧ f a = Ok b.
Proof.
  destruct m as [a|e]; simpl.
  - split; [eauto | by intros (? & [= ->] & ?)].
  - split; [done | by intros (? & ? & ?)].
Qed.

Lemma Ok_pair_fst {A B} (p : A * B) (a : A) (b : B) :
  Ok p = Ok (a, b) → a = p.1.
Proof. by intros [= ->]. Qed.

Lemma item_first_Ok l x : item_first l = Ok x ↔ ∃ l', l = x :: l'.
Proof.
  destruct l as [|y l]; simpl.
  - split; [done | by intros [? ?]].
  - split; [intros [= ->]; eauto | by intros [? [= -> _]]].
Qed.

Lemma item_last_Ok l x : item_last l = Ok x ↔ last l = Some x.
Proof.
  unfold item_last. destruct (last l); split; congruence.
Qed.

Lemma item_last_snoc l x : item_last (l ++ [x]) = Ok x.
Proof. unfold item_last. by rewrite last_snoc. Qed.

Lemma decode_Ok bs : decode bs = Ok () ↔ utf8_well_formed bs = true.
Proof. unfold decode. by destruct (utf8_well_formed bs). Qed.

(** An error message that returns was decodable, and did what the rest of
    the callback does. *)
Lemma ac3_error_Ok_inv self id msg r :
  AC3.on_error_message self id msg = Ok r ↔
  utf8_well_formed msg = true ∧
  r = if bool_decide (id ≠ 0)
         && (bool_decide (id ∈ AC3.bids self) || bool_decide (id ∈ AC3.asks self))
      then AC3.on_order_status_message self id 0 0 0 else (self, []).
Proof.
  unfold AC3.on_error_message, decode.
  destruct (utf8_well_formed msg); simpl; [|by split; [|intros []]].
  destruct (_ && _); simpl; unfold mret, result_ret.
  - split; [by intros [= <-] | by intros [_ ->]].
  - split; [by intros [= <-] | by intros [_ ->]].
Qed.

Lemma ac4_error_Ok_inv self id msg r :
  AC4.on_error_message self id msg = Ok r ↔
  utf8_well_formed msg = true ∧
  r = if bool_decide (id ≠ 0)
         && (bool_decide (id ∈ AC4.bids self) || bool_decide (id ∈ AC4.asks self))
      then AC4.on_order_status_message self id 0 0 0 else (self, []).
Proof.
  unfold AC4.on_error_message, decode.
  destruct (utf8_well_formed msg); simpl; [|by split; [|intros []]].
  destruct (_ && _); simpl; unfold mret, result_ret.
  - split; [by intros [= <-] | by intros [_ ->]].
  - split; [by intros [= <-] | by intros [_ ->]].
Qed.

Lemma ac3_error_undecodable self id msg :
  utf8_well_formed msg = false →
  AC3.on_error_message self id msg = Raise UnicodeDecodeError.
Proof. intros Hbad. unfold AC3.on_error_message, decode. by rewrite Hbad. Qed.


Create HintDb slots.

Lemma slots_wf_init : slots_wf 1 ∅ ∅ 0 0.
Proof. split; set_solver. Qed.

Lemma slots_wf_next n B A b a :
  slots_wf n B A b a → slots_wf (n + 1) B A b a.
Proof.
  intros [Hn HB HA HD Hb Ha]. split; try done; try lia.
  - intros i Hi. specialize (HB i Hi). lia.
  - intros i Hi. specialize (HA i Hi). lia.
Qed.

Lemma slots_wf_clear_bid n B A b a :
  slots_wf n B A b a → slots_wf n B A 0 a.
Proof. intros [Hn HB HA HD Hb Ha]. split; done. Qed.

Lemma slots_wf_clear_ask n B A b a :
  slots_wf n B A b a → slots_wf n B A b 0.
Proof. intros [Hn HB HA HD Hb Ha]. split; done. Qed.

Lemma slots_wf_place_bid n B A b a :
  slots_wf n B A b a → slots_wf (n + 1) (B ∪ {[n]}) A n a.
Proof.
  intros [Hn HB HA HD Hb Ha]. split; try done; try lia.
  - intros i [Hi | ->%elem_of_singleton]%elem_of_union; [|lia].
    specialize (HB i Hi). lia.
  - intros i Hi. specialize (HA i Hi). lia.
  - intros i [Hi | ->%elem_of_singleton]%elem_of_union Hi'.
    + by apply (HD i).
    + specialize (HA n Hi'). lia.
  - set_solver.
Qed.

Lemma slots_wf_place_ask n B A b a :
  slots_wf n B A b a → slots_wf (n + 1) B (A ∪ {[n]}) b n.
Proof.
  intros [Hn HB HA HD Hb Ha]. split; try done; try lia.
  - intros i Hi. specialize (HB i Hi). lia.
  - intros i [Hi | ->%elem_of_singleton]%elem_of_union; [|lia].
    specialize (HA i Hi). lia.
  - intros i Hi [Hi' | ->%elem_of_singleton]%elem_of_union.
    + by apply (HD i).
    + specialize (HB n Hi). lia.
  - set_solver.
Qed.

(** What a status message with no remaining volume does to the five
    attributes. *)
Lemma slots_wf_dead n B A b a i :
  slots_wf n B A b a →
  slots_wf n (B ∖ {[i]}) (A ∖ {[i]})
    (if bool_decide (i = b) then 0 else b)
    (if bool_decide (i = b) then a
     else if bool_decide (i = a) then 0 else a).
Proof.
  intros [Hn HB HA HD Hb Ha]. split; try done.
  - intros j Hj. apply HB. set_solver.
  - intros j Hj. apply HA. set_solver.
  - set_solver.
  - case_bool_decide; [done|]. intros Hb'. specialize (Hb Hb'). set_solver.
  - case_bool_decide as Hib.
    + intros Ha'. specialize (Ha Ha'). apply elem_of_difference. split; [done|].
      intros Hai%elem_of_singleton.
      assert (a = b) as Hab by congruence.
      apply (HD a); [rewrite Hab; apply Hb; congruence | done].
    + case_bool_decide; [done|]. intros Ha'. specialize (Ha Ha'). set_solver.
Qed.

(** In a well-formed trader the two slots hold different ids, unless both
    are empty. *)
Lemma slots_wf_distinct n B A b a :
  slots_wf n B A b a → b = a → b = 0.
Proof.
  intros [Hn HB HA HD Hb Ha] ->. destruct (decide (a = 0)) as [|Hne]; [done|].
  exfalso. apply (HD a); auto.
Qed.

(** ** The two quoting blocks of [autotrader_ac_3.py] in closed form *)

Lemma ac3_sell_etf_ETF self ask_prices multiplier is_positive_position :
  AC3.sell_etf self ETF ask_prices multiplier is_positive_position =
  let cancelled :=
    if bool_decide (AC3.ask_id self ≠ 0)
    then [send_cancel_order (AC3.ask_id self)] else [] in
  if bool_decide (AC3.position self > -90) then
    price ← item_first ask_prices;
    Ok (AC3.set_asks (AC3.asks self ∪ {[AC3.order_ids self]})
          (AC3.set_ask_id (AC3.order_ids self)
             (AC3.set_order_ids (AC3.order_ids self + 1) self)),
        cancelled ++
        [send_insert_order (AC3.order_ids self) ASK price
           (if bool_decide (AC3.position self - 10 * multiplier >= -100)
            then 10 * multiplier else 100 + AC3.position self)
           GOOD_FOR_DAY])
  else Ok (AC3.set_ask_id 0 self, cancelled).
Proof.
  destruct self; unfold AC3.sell_etf, LOT_SIZE, POSITION_LIMIT; simpl.
  destruct ask_prices, is_positive_position; simpl;
    repeat (case_bool_decide; simpl; try lia; try congruence);
    subst; reflexivity.
Qed.

Lemma ac3_buy_etf_ETF self bid_prices multiplier is_positive_position :
  AC3.buy_etf self ETF bid_prices multiplier is_positive_position =
  let cancelled :=
    if bool_decide (AC3.bid_id self ≠ 0)
    then [send_cancel_order (AC3.bid_id self)] else [] in
  if bool_decide (AC3.position self < 90) then
    price ← item_first bid_prices;
    Ok (AC3.set_bids (AC3.bids self ∪ {[AC3.order_ids self]})
          (AC3.set_bid_id (AC3.order_ids self)
             (AC3.set_order_ids (AC3.order_ids self + 1) self)),
        cancelled ++
        [send_insert_order (AC3.order_ids self) BID price
           (if bool_decide (AC3.position self + 10 * multiplier ≤ 100)
            then 10 * multiplier else 100 - AC3.position self)
           GOOD_FOR_DAY])
  else Ok (AC3.set_bid_id 0 self, cancelled).
Proof.
  destruct self; unfold AC3.buy_etf, LOT_SIZE, POSITION_LIMIT; simpl.
  destruct bid_prices, is_positive_position; simpl;
    repeat (case_bool_decide; simpl; try lia; try congruence);
    subst; reflexivity.
Qed.

(** ** A synchronized ETF update, in closed form

    The histories are synchronized when, once the update's own snapshot is
    recorded, the ETF has as many snapshots as the future.  [bf] and [af]
    are the future's latest best bid and ask, [b] and [a] the update's. *)

Lemma ac3_book_update_ETF_sync self n a ap av b bp bv bf af :
  S (length (AC3.bid_price_history_of_etf self))
    = length (AC3.bid_price_history_of_future self) →
  last (AC3.bid_price_history_of_future self) = Some bf →
  last (AC3.ask_price_history_of_future self) = Some af →
  let self1 := AC3.append_etf b a self in
  let midpoint_price_of_etf := (b + a) `div` 2 in
  let midpoint_price_of_future := (bf + af) `div` 2 in
  let multiplier :=
    Z.abs (midpoint_price_of_etf - midpoint_price_of_future) `div` 100 + 1 in
  let next_id := AC3.order_ids self in
  AC3.on_order_book_update_message self ETF n (a :: ap) av (b :: bp) bv =
  if bool_decide (midpoint_price_of_etf > midpoint_price_of_future) then
    let cancelled :=
      if bool_decide (AC3.ask_id self ≠ 0)
      then [send_cancel_order (AC3.ask_id self)] else [] in
    if bool_decide (AC3.position self > -90) then
      Ok (AC3.set_asks (AC3.asks self ∪ {[next_id]})
            (AC3.set_ask_id next_id (AC3.set_order_ids (next_id + 1) self1)),
          cancelled ++
          [send_insert_order next_id ASK a
             (if bool_decide (AC3.position self - 10 * multiplier >= -100)
              then 10 * multiplier else 100 + AC3.position self)
             GOOD_FOR_DAY])
    else Ok (AC3.set_ask_id 0 self1, cancelled)
  else if bool_decide (midpoint_price_of_etf < midpoint_price_of_future) then
    let cancelled :=
      if bool_decide (AC3.bid_id self ≠ 0)
      then [send_cancel_order (AC3.bid_id self)] else [] in
    if bool_decide (AC3.position self < 90) then
      Ok (AC3.set_bids (AC3.bids self ∪ {[next_id]})
            (AC3.set_bid_id next_id (AC3.set_order_ids (next_id + 1) self1)),
          cancelled ++
          [send_insert_order next_id BID b
             (if bool_decide (AC3.position self + 10 * multiplier ≤ 100)
              then 10 * multiplier else 100 - AC3.position self)
             GOOD_FOR_DAY])
    else Ok (AC3.set_bid_id 0 self1, cancelled)
  else Ok (self1, []).
Proof.
  intros Hsync Hbf Haf. unfold AC3.on_order_book_update_message.
  simpl. rewrite !item_last_snoc. simpl.
  rewrite (bool_decide_eq_true_2 (length _ = length _));
    [|rewrite length_app; simpl; lia].
  apply item_last_Ok in Hbf, Haf. rewrite Hbf, Haf. simpl.
  unfold TICK_SIZE_IN_CENTS.
  set (me := (b + a) `div` 2). set (mf := (bf + af) `div` 2).
  destruct (decide (me > mf)) as [Hgt|Hgt].
  - rewrite !(bool_decide_eq_true_2 (me > mf)) by done.
    rewrite (bool_decide_eq_false_2 (me < mf)) by lia.
    rewrite ac3_sell_etf_ETF. simpl.
    destruct (bool_decide (AC3.position self > -90)); simpl;
      by rewrite app_nil_r.
  - rewrite !(bool_decide_eq_false_2 (me > mf)) by done. simpl.
    destruct (decide (me < mf)) as [Hlt|Hlt].
    + rewrite !(bool_decide_eq_true_2 (me < mf)) by done.
      rewrite ac3_buy_etf_ETF. simpl.
      by destruct (bool_decide (AC3.position self < 90)).
    + by rewrite !(bool_decide_eq_false_2 (me < mf)) by done.
Qed.

Lemma ac4_book_update_ETF_sync self n a ap av b bp bv bf af :
  S (length (AC4.bid_price_history_of_etf self))
    = length (AC4.bid_price_history_of_future self) →
  last (AC4.bid_price_history_of_future self) = Some bf →
  last (AC4.ask_price_history_of_future self) = Some af →
  let self1 := AC4.append_etf b a self in
  let midpoint_price_of_etf := (b + a) `div` 2 in
  let midpoint_price_of_future := (bf + af) `div` 2 in
  let multiplier :=
    Z.abs (midpoint_price_of_etf - midpoint_price_of_future) `div` 100 + 1 in
  let next_id := AC4.order_ids self in
  let cancelled :=
    (if bool_decide (AC4.ask_id self ≠ 0)
     then [send_cancel_order (AC4.ask_id self)] else []) ++
    (if bool_decide (AC4.bid_id self ≠ 0)
     then [send_cancel_order (AC4.bid_id self)] else []) in
  AC4.on_order_book_update_message self ETF n (a :: ap) av (b :: bp) bv =
  _ ← AC4.adjusted_threshold_comparison midpoint_price_of_etf
        midpoint_price_of_future (AC4.position_orders self);
  if bool_decide (midpoint_price_of_etf > midpoint_price_of_future)
     && bool_decide (AC4.position self > -90) then
    Ok (AC4.set_asks (AC4.asks self ∪ {[next_id]})
          (AC4.set_ask_id next_id
             (AC4.set_order_ids (next_id + 1) (AC4.set_bid_id 0 self1))),
        cancelled ++
        [send_insert_order next_id ASK a
           (if bool_decide (AC4.position self - 10 * multiplier >= -100)
            then 10 * multiplier else 100 + AC4.position self)
           GOOD_FOR_DAY])
  else if bool_decide (midpoint_price_of_etf < midpoint_price_of_future)
     && bool_decide (AC4.position self < 90) then
    Ok (AC4.set_bids (AC4.bids self ∪ {[next_id]})
          (AC4.set_bid_id next_id
             (AC4.set_order_ids (next_id + 1) (AC4.set_ask_id 0 self1))),
        cancelled ++
        [send_insert_order next_id BID b
           (if bool_decide (AC4.position self + 10 * multiplier ≤ 100)
            then 10 * multiplier else 100 - AC4.position self)
           GOOD_FOR_DAY])
  else Ok (AC4.set_bid_id 0 (AC4.set_ask_id 0 self1), cancelled).
Proof.
  intros Hsync Hbf Haf. unfold AC4.on_order_book_update_message.
  simpl. rewrite !item_last_snoc. simpl.
  rewrite (bool_decide_eq_true_2 (length _ = length _));
    [|rewrite length_app; simpl; lia].
  apply item_last_Ok in Hbf, Haf. rewrite Hbf, Haf. simpl.
  unfold TICK_SIZE_IN_CENTS, LOT_SIZE, POSITION_LIMIT.
  set (me := (b + a) `div` 2). set (mf := (bf + af) `div` 2).
  set (check := AC4.adjusted_threshold_comparison me mf _).
  assert (∀ k : result (AC4.AutoTrader * list Command),
    ((if bool_decide (AC4.position_orders self >= 0) then check else mret ())
       ≫= λ _, (if bool_decide (AC4.position_orders self < 0)
                then check else mret ()) ≫= λ _, k) = check ≫= λ _, k) as ->.
  { intros k. destruct (decide (AC4.position_orders self >= 0)).
    - rewrite (bool_decide_eq_true_2 (_ >= 0)) by done.
      rewrite (bool_decide_eq_false_2 (_ < 0)) by lia. by destruct check as [[]|].
    - rewrite (bool_decide_eq_false_2 (_ >= 0)) by done.
      rewrite (bool_decide_eq_true_2 (_ < 0)) by lia. by destruct check as [[]|]. }
  destruct check as [[]|]; [simpl|done].
  destruct self; simpl in *.
  destruct (decide (ask_id = 0)) as [->|Hask], (decide (bid_id = 0)) as [->|Hbid];
  rewrite ?(bool_decide_eq_false_2 (0 ≠ 0)) by (by intros []);
  rewrite ?(bool_decide_eq_true_2 (ask_id ≠ 0)) by done;
  rewrite ?(bool_decide_eq_true_2 (bid_id ≠ 0)) by done; simpl;
  (destruct (decide (me > mf)) as [Hgt|Hgt];
   [ rewrite !(bool_decide_eq_true_2 (me > mf)) by done;
     rewrite !(bool_decide_eq_false_2 (me < mf)) by lia
   | rewrite !(bool_decide_eq_false_2 (me > mf)) by done;
     destruct (decide (me < mf)) as [Hlt|Hlt];
     [ rewrite !(bool_decide_eq_true_2 (me < mf)) by done
     | rewrite !(bool_decide_eq_false_2 (me < mf)) by done ] ]);
  simpl;
  repeat (case_bool_decide; simpl in *; rewrite ?item_last_snoc; simpl;
          try lia);
  reflexivity.
Qed.

(** Taking a successful run of a callback apart. *)
Ltac inv_result :=
  repeat match goal with
  | H : _ ≫= _ = Ok _ |- _ => apply result_bind_Ok in H as (? & ? & H)
  | H : mret _ = Ok _ |- _ => unfold mret, result_ret in H
  | H : Ok _ = Ok _ |- _ => injection H as H; subst
  | H : Raise _ = Ok _ |- _ => discriminate H
  | H : (_, _) = (_, _) |- _ => injection H as ? ?; subst
  | H : (let '(_, _) := ?p in _) = Ok _ |- _ => destruct p
  | H : (if ?b then _ else _) = Ok _ |- _ => destruct b eqn:?
  end.

(** ** The invariant in [autotrader_ac_3.py] *)

#[local] Hint Resolve slots_wf_init slots_wf_next slots_wf_clear_bid
  slots_wf_clear_ask slots_wf_place_bid slots_wf_place_ask : slots.

Section AC3Invariant.
Context `{ExchangeLimits}.

Lemma ac3_wf_status self id fill_volume remaining_volume fees :
  ac3_wf self →
  ac3_wf (AC3.on_order_status_message self id fill_volume remaining_volume fees).1.
Proof.
  unfold ac3_wf, AC3.on_order_status_message. intros Hwf.
  case_bool_decide; [|done].
  pose proof (slots_wf_dead _ _ _ _ _ id Hwf) as Hdead.
  repeat case_bool_decide; simpl; done.
Qed.

Lemma ac3_wf_error self id msg self' sent :
  ac3_wf self → AC3.on_error_message self id msg = Ok (self', sent) →
  ac3_wf self'.
Proof.
  intros Hwf [_ Heq]%ac3_error_Ok_inv.
  destruct (_ && _).
  - pose proof (ac3_wf_status self id 0 0 0 Hwf) as Hwf'.
    by rewrite <- Heq in Hwf'.
  - by injection Heq as -> ->.
Qed.

Lemma ac3_wf_filled self id price volume :
  ac3_wf self → ac3_wf (AC3.on_order_filled_message self id price volume).1.
Proof.
  unfold ac3_wf, AC3.on_order_filled_message. intros Hwf.
  repeat case_bool_decide; simpl; auto with slots.
Qed.

Lemma ac3_wf_sell self instrument ask_prices multiplier pos self' sent :
  ac3_wf self →
  AC3.sell_etf self instrument ask_prices multiplier pos = Ok (self', sent) →
  ac3_wf self'.
Proof.
  unfold ac3_wf. intros Hwf Hrun. destruct instrument.
  - unfold AC3.sell_etf in Hrun. simpl in Hrun. by inv_result.
  - rewrite ac3_sell_etf_ETF in Hrun. simpl in Hrun.
    inv_result; simpl; eauto with slots.
Qed.

Lemma ac3_wf_buy self instrument bid_prices multiplier pos self' sent :
  ac3_wf self →
  AC3.buy_etf self instrument bid_prices multiplier pos = Ok (self', sent) →
  ac3_wf self'.
Proof.
  unfold ac3_wf. intros Hwf Hrun. destruct instrument.
  - unfold AC3.buy_etf in Hrun. simpl in Hrun. by inv_result.
  - rewrite ac3_buy_etf_ETF in Hrun. simpl in Hrun.
    inv_result; simpl; eauto with slots.
Qed.

Lemma ac3_wf_book_update self i n ap av bp bv self' sent :
  ac3_wf self →
  AC3.on_order_book_update_message self i n ap av bp bv = Ok (self', sent) →
  ac3_wf self'.
Proof.
  unfold AC3.on_order_book_update_message. intros Hwf Hrun.
  apply result_bind_Ok in Hrun as (self1 & Hetf & Hrun).
  apply result_bind_Ok in Hrun as (self2 & Hfut & Hrun).
  assert (ac3_wf self1) as Hwf1 by (by inv_result).
  assert (ac3_wf self2) as Hwf2 by (by inv_result).
  clear Hetf Hfut Hwf Hwf1.
  destruct (bool_decide (length _ = length _)); [|by inv_result].
  do 4 apply result_bind_Ok in Hrun as (? & _ & Hrun).
  apply result_bind_Ok in Hrun as ([self3 sent3] & Hsell & Hrun).
  apply result_bind_Ok in Hrun as ([self4 sent4] & Hbuy & Hrun).
  assert (ac3_wf self3) as Hwf3.
  { destruct (bool_decide (_ > _)); [by eapply ac3_wf_sell | by inv_result]. }
  assert (ac3_wf self4) as Hwf4.
  { destruct (bool_decide (_ < _)); [by eapply ac3_wf_buy | by inv_result]. }
  by inv_result.
Qed.

Lemma ac3_wf_handle self ev self' sent :
  ac3_wf self → AC3.handle self ev = Ok (self', sent) → ac3_wf self'.
Proof.
  intros Hwf Hrun. destruct ev; simpl in Hrun;
    try (apply Ok_pair_fst in Hrun as ->).
  - by eapply ac3_wf_error.
  - done.
  - by apply ac3_wf_filled.
  - by apply ac3_wf_status.
  - done.
  - by eapply ac3_wf_book_update.
Qed.

Lemma ac3_reachable_wf self : AC3.reachable self → ac3_wf self.
Proof.
  induction 1 as [|self ev self' sent _ IH Hrun].
  - apply slots_wf_init.
  - by eapply ac3_wf_handle.
Qed.

End AC3Invariant.

(** ** The invariant in [autotrader_ac_4.py] *)

Section AC4Invariant.
Context `{ExchangeLimits}.

Lemma ac4_wf_status self id fill_volume remaining_volume fees :
  ac4_wf self →
  ac4_wf (AC4.on_order_status_message self id fill_volume remaining_volume fees).1.
Proof.
  unfold ac4_wf, AC4.on_order_status_message. intros Hwf.
  pose proof (slots_wf_dead _ _ _ _ _ id Hwf) as Hdead.
  repeat (case_bool_decide; simpl in * ); done.
Qed.

Lemma ac4_wf_error self id msg self' sent :
  ac4_wf self → AC4.on_error_message self id msg = Ok (self', sent) →
  ac4_wf self'.
Proof.
  intros Hwf [_ Heq]%ac4_error_Ok_inv.
  destruct (_ && _).
  - pose proof (ac4_wf_status self id 0 0 0 Hwf) as Hwf'.
    by rewrite <- Heq in Hwf'.
  - by injection Heq as -> ->.
Qed.

Lemma ac4_wf_filled self id price volume :
  ac4_wf self → ac4_wf (AC4.on_order_filled_message self id price volume).1.
Proof.
  unfold ac4_wf, AC4.on_order_filled_message. intros Hwf.
  repeat case_bool_decide; simpl; auto with slots.
Qed.

Lemma ac4_wf_book_update self i n ap av bp bv self' sent :
  ac4_wf self →
  AC4.on_order_book_update_message self i n ap av bp bv = Ok (self', sent) →
  ac4_wf self'.
Proof.
  unfold AC4.on_order_book_update_message. intros Hwf Hrun.
  apply result_bind_Ok in Hrun as (self1 & Hetf & Hrun).
  apply result_bind_Ok in Hrun as (self2 & Hfut & Hrun).
  assert (ac4_wf self1) as Hwf1 by (by inv_result).
  assert (ac4_wf self2) as Hwf2 by (by inv_result).
  clear Hetf Hfut Hwf Hwf1.
  destruct (bool_decide (i = FUTURE)); [by inv_result|].
  destruct (negb _); [by inv_result|].
  do 6 apply result_bind_Ok in Hrun as (? & _ & Hrun).
  unfold ac4_wf in *.
  destruct (bool_decide (AC4.ask_id self2 ≠ 0)),
    (bool_decide (AC4.bid_id self2 ≠ 0)); simpl in Hrun;
    inv_result; simpl; eauto 6 with slots.
Qed.

Lemma ac4_wf_handle self ev self' sent :
  ac4_wf self → AC4.handle self ev = Ok (self', sent) → ac4_wf self'.
Proof.
  intros Hwf Hrun. destruct ev; simpl in Hrun;
    try (apply Ok_pair_fst in Hrun as ->).
  - by eapply ac4_wf_error.
  - done.
  - by apply ac4_wf_filled.
  - by apply ac4_wf_status.
  - done.
  - by eapply ac4_wf_book_update.
Qed.

Lemma ac4_reachable_wf self : AC4.reachable self → ac4_wf self.
Proof.
  induction 1 as [|self ev self' sent _ IH Hrun].
  - apply slots_wf_init.
  - by eapply ac4_wf_handle.
Qed.

End AC4Invariant.

(** ** Runs stay among the reachable traders *)

Section Runs.
Context `{ExchangeLimits}.

Lemma ac3_run_reachable evs self self' sent :
  AC3.reachable self → AC3.run self evs = Ok (self', sent) →
  AC3.reachable self'.
Proof.
  revert self sent. induction evs as [|ev evs IH]; intros self sent Hr Hrun.
  - simpl in Hrun. by inv_result.
  - simpl in Hrun.
    apply result_bind_Ok in Hrun as ([self1 sent1] & Hev & Hrun).
    apply result_bind_Ok in Hrun as ([self2 sent2] & Hevs & Hrun).
    inv_result. eapply IH; [|done]. by eapply AC3.reachable_step.
Qed.

Lemma ac3_after_reachable evs : AC3.reachable (AC3.after evs).
Proof.
  unfold AC3.after. destruct (AC3.run AC3.init evs) as [[self sent]|] eqn:Hrun.
  - eapply ac3_run_reachable; [apply AC3.reachable_init | done].
  - apply AC3.reachable_init.
Qed.

Lemma ac4_run_reachable evs self self' sent :
  AC4.reachable self → AC4.run self evs = Ok (self', sent) →
  AC4.reachable self'.
Proof.
  revert self sent. induction evs as [|ev evs IH]; intros self sent Hr Hrun.
  - simpl in Hrun. by inv_result.
  - simpl in Hrun.
    apply result_bind_Ok in Hrun as ([self1 sent1] & Hev & Hrun).
    apply result_bind_Ok in Hrun as ([self2 sent2] & Hevs & Hrun).
    inv_result. eapply IH; [|done]. by eapply AC4.reachable_step.
Qed.

Lemma ac4_after_reachable evs : AC4.reachable (AC4.after evs).
Proof.
  unfold AC4.after. destruct (AC4.run AC4.init evs) as [[self sent]|] eqn:Hrun.
  - eapply ac4_run_reachable; [apply AC4.reachable_init | done].
  - apply AC4.reachable_init.
Qed.

End Runs.

(** ** Updates that place nothing *)

Lemma ac3_book_update_unsync self i n a ap av b bp bv :
  length (AC3.bid_price_history_of_etf (ac3_recorded self i b a))
    ≠ length (AC3.bid_price_history_of_future (ac3_recorded self i b a)) →
  AC3.on_order_book_update_message self i n (a :: ap) av (b :: bp) bv
    = Ok (ac3_recorded self i b a, []).
Proof.
  intros Hne. unfold AC3.on_order_book_update_message.
  destruct i; simpl in *; by rewrite bool_decide_eq_false_2.
Qed.

Lemma ac4_book_update_unsync self i n a ap av b bp bv :
  i = FUTURE ∨
  length (AC4.bid_price_history_of_etf (ac4_recorded self i b a))
    ≠ length (AC4.bid_price_history_of_future (ac4_recorded self i b a)) →
  AC4.on_order_book_update_message self i n (a :: ap) av (b :: bp) bv
    = Ok (ac4_recorded self i b a, []).
Proof.
  intros Hne. unfold AC4.on_order_book_update_message.
  destruct i; simpl in *; [done|].
  destruct Hne as [|Hne]; [done|]. by rewrite bool_decide_eq_false_2.
Qed.

(** A future update never places or cancels anything in
    [autotrader_ac_3.py] either. *)
Lemma ac3_book_update_FUTURE self n ap av bp bv self' sent :
  AC3.on_order_book_update_message self FUTURE n ap av bp bv
    = Ok (self', sent) →
  sent = [].
Proof.
  unfold AC3.on_order_book_update_message. simpl. intros Hrun.
  apply result_bind_Ok in Hrun as (self1 & _ & Hrun).
  destruct (bool_decide (length _ = length _)); [|by inv_result].
  do 4 apply result_bind_Ok in Hrun as (? & _ & Hrun).
  unfold AC3.sell_etf, AC3.buy_etf in Hrun. simpl in Hrun.
  by destruct (bool_decide (_ > _)), (bool_decide (_ < _)); inv_result.
Qed.

(** What a book update that returns must have looked like. *)
Lemma ac3_book_update_Ok_inv self i n ap av bp bv self' sent :
  AC3.on_order_book_update_message self i n ap av bp bv = Ok (self', sent) →
  ∃ b a bp' ap', bp = b :: bp' ∧ ap = a :: ap' ∧
    (sent = [] ∨
     i = ETF ∧
     S (length (AC3.bid_price_history_of_etf self))
       = length (AC3.bid_price_history_of_future self) ∧
     ∃ bf af, last (AC3.bid_price_history_of_future self) = Some bf ∧
              last (AC3.ask_price_history_of_future self) = Some af).
Proof.
  intros Hrun.
  assert (∃ b a bp' ap', bp = b :: bp' ∧ ap = a :: ap') as (b & a & bp' & ap' & -> & ->).
  { unfold AC3.on_order_book_update_message in Hrun.
    apply result_bind_Ok in Hrun as (self1 & Hetf & Hrun).
    apply result_bind_Ok in Hrun as (self2 & Hfut & _).
    destruct i; simpl in *;
      [ apply result_bind_Ok in Hfut as (b & [bp' ->]%item_first_Ok & Hfut);
        apply result_bind_Ok in Hfut as (a & [ap' ->]%item_first_Ok & _)
      | apply result_bind_Ok in Hetf as (b & [bp' ->]%item_first_Ok & Hetf);
        apply result_bind_Ok in Hetf as (a & [ap' ->]%item_first_Ok & _) ];
      by exists b, a, bp', ap'. }
  exists b, a, bp', ap'. split_and!; [done..|].
  destruct i.
  { left. by eapply ac3_book_update_FUTURE. }
  destruct (decide (S (length (AC3.bid_price_history_of_etf self))
                    = length (AC3.bid_price_history_of_future self)))
    as [Hsync|Hsync].
  - right. split_and!; [done..|].
    unfold AC3.on_order_book_update_message in Hrun. simpl in Hrun.
    rewrite (bool_decide_eq_true_2 (length _ = length _)) in Hrun;
      [|rewrite length_app; simpl; lia].
    do 2 apply result_bind_Ok in Hrun as (? & _ & Hrun).
    apply result_bind_Ok in Hrun as (bf & Hbf%item_last_Ok & Hrun).
    apply result_bind_Ok in Hrun as (af & Haf%item_last_Ok & Hrun).
    eauto.
  - left. rewrite ac3_book_update_unsync in Hrun; [by inv_result|].
    simpl. rewrite length_app. simpl. lia.
Qed.

Lemma ac4_book_update_Ok_inv self i n ap av bp bv self' sent :
  AC4.on_order_book_update_message self i n ap av bp bv = Ok (self', sent) →
  ∃ b a bp' ap', bp = b :: bp' ∧ ap = a :: ap' ∧
    (sent = [] ∨
     i = ETF ∧
     S (length (AC4.bid_price_history_of_etf self))
       = length (AC4.bid_price_history_of_future self) ∧
     ∃ bf af, last (AC4.bid_price_history_of_future self) = Some bf ∧
              last (AC4.ask_price_history_of_future self) = Some af).
Proof.
  intros Hrun.
  assert (∃ b a bp' ap', bp = b :: bp' ∧ ap = a :: ap') as (b & a & bp' & ap' & -> & ->).
  { unfold AC4.on_order_book_update_message in Hrun.
    apply result_bind_Ok in Hrun as (self1 & Hetf & Hrun).
    apply result_bind_Ok in Hrun as (self2 & Hfut & _).
    destruct i; simpl in *;
      [ apply result_bind_Ok in Hfut as (b & [bp' ->]%item_first_Ok & Hfut);
        apply result_bind_Ok in Hfut as (a & [ap' ->]%item_first_Ok & _)
      | apply result_bind_Ok in Hetf as (b & [bp' ->]%item_first_Ok & Hetf);
        apply result_bind_Ok in Hetf as (a & [ap' ->]%item_first_Ok & _) ];
      by exists b, a, bp', ap'. }
  exists b, a, bp', ap'. split_and!; [done..|].
  destruct i.
  { left. rewrite ac4_book_update_unsync in Hrun; [by inv_result | by left]. }
  destruct (decide (S (length (AC4.bid_price_history_of_etf self))
                    = length (AC4.bid_price_history_of_future self)))
    as [Hsync|Hsync].
  - right. split_and!; [done..|].
    unfold AC4.on_order_book_update_message in Hrun. simpl in Hrun.
    rewrite (bool_decide_eq_true_2 (length _ = length _)) in Hrun;
      [|rewrite length_app; simpl; lia].
    simpl in Hrun.
    do 2 apply result_bind_Ok in Hrun as (? & _ & Hrun).
    apply result_bind_Ok in Hrun as (bf & Hbf%item_last_Ok & Hrun).
    apply result_bind_Ok in Hrun as (af & Haf%item_last_Ok & Hrun).
    eauto.
  - left. rewrite ac4_book_update_unsync in Hrun; [by inv_result|].
    right. simpl. rewrite length_app. simpl. lia.
Qed.

(** * Main results *)

(** ** C2: the hedge law of the fill callback *)

Section Fills.
Context `{ExchangeLimits}.

Lemma ac3_filled_bid self id price volume :
  id ∈ AC3.bids self →
  AC3.on_order_filled_message self id price volume =
  (AC3.set_order_ids (AC3.order_ids self + 1)
     (AC3.set_position (AC3.position self + volume) self),
   [send_hedge_order (AC3.order_ids self) ASK MIN_BID_NEAREST_TICK volume]).
Proof.
  intros Hin. unfold AC3.on_order_filled_message.
  by rewrite bool_decide_eq_true_2.
Qed.

Lemma ac3_filled_ask self id price volume :
  id ∉ AC3.bids self → id ∈ AC3.asks self →
  AC3.on_order_filled_message self id price volume =
  (AC3.set_order_ids (AC3.order_ids self + 1)
     (AC3.set_position (AC3.position self - volume) self),
   [send_hedge_order (AC3.order_ids self) BID MAX_ASK_NEAREST_TICK volume]).
Proof.
  intros Hbid Hask. unfold AC3.on_order_filled_message.
  rewrite bool_decide_eq_false_2 by done. by rewrite bool_decide_eq_true_2.
Qed.

Lemma ac3_filled_unknown self id price volume :
  id ∉ AC3.bids self → id ∉ AC3.asks self →
  AC3.on_order_filled_message self id price volume = (self, []).
Proof.
  intros Hbid Hask. unfold AC3.on_order_filled_message.
  by rewrite !bool_decide_eq_false_2.
Qed.

Lemma ac4_filled_bid self id price volume :
  id ∈ AC4.bids self →
  AC4.on_order_filled_message self id price volume =
  (AC4.set_order_ids (AC4.order_ids self + 1)
     (AC4.set_position_orders (AC4.position_orders self - volume)
        (AC4.set_position (AC4.position self + volume) self)),
   [send_hedge_order (AC4.order_ids self) ASK MIN_BID_NEAREST_TICK volume]).
Proof.
  intros Hin. unfold AC4.on_order_filled_message.
  by rewrite bool_decide_eq_true_2.
Qed.

Lemma ac4_filled_ask self id price volume :
  id ∉ AC4.bids self → id ∈ AC4.asks self →
  AC4.on_order_filled_message self id price volume =
  (AC4.set_order_ids (AC4.order_ids self + 1)
     (AC4.set_position_orders (AC4.position_orders self + volume)
        (AC4.set_position (AC4.position self - volume) self)),
   [send_hedge_order (AC4.order_ids self) BID MAX_ASK_NEAREST_TICK volume]).
Proof.
  intros Hbid Hask. unfold AC4.on_order_filled_message.
  rewrite bool_decide_eq_false_2 by done. by rewrite bool_decide_eq_true_2.
Qed.

Lemma ac4_filled_unknown self id price volume :
  id ∉ AC4.bids self → id ∉ AC4.asks self →
  AC4.on_order_filled_message self id price volume = (self, []).
Proof.
  intros Hbid Hask. unfold AC4.on_order_filled_message.
  by rewrite !bool_decide_eq_false_2.
Qed.

(** C2.  In either file and in every trader the exchange can bring about,
    a fill for an id of the bid set sends exactly one hedge order, on
    [Side.ASK] at [MIN_BID_NEAREST_TICK] for the filled volume, and adds the
    volume to [position]; a fill for an id of the ask set sends exactly one
    hedge order, on [Side.BID] at [MAX_ASK_NEAREST_TICK] for the filled
    volume, and takes the volume off [position]; a fill for an id of neither
    set sends nothing and leaves the trader as it was. *)
Theorem C2_fill_hedge_law (self3 : AC3.AutoTrader) (self4 : AC4.AutoTrader)
    (id price volume : Z) :
  AC3.reachable self3 → AC4.reachable self4 →
  let filled3 := AC3.on_order_filled_message self3 id price volume in
  let filled4 := AC4.on_order_filled_message self4 id price volume in
  (id ∈ AC3.bids self3 →
     filled3.2 = [send_hedge_order (AC3.order_ids self3) ASK
                    MIN_BID_NEAREST_TICK volume]
     ∧ AC3.position filled3.1 = AC3.position self3 + volume) ∧
  (id ∈ AC3.asks self3 →
     filled3.2 = [send_hedge_order (AC3.order_ids self3) BID
                    MAX_ASK_NEAREST_TICK volume]
     ∧ AC3.position filled3.1 = AC3.position self3 - volume) ∧
  (id ∉ AC3.bids self3 → id ∉ AC3.asks self3 → filled3 = (self3, [])) ∧
  (id ∈ AC4.bids self4 →
     filled4.2 = [send_hedge_order (AC4.order_ids self4) ASK
                    MIN_BID_NEAREST_TICK volume]
     ∧ AC4.position filled4.1 = AC4.position self4 + volume) ∧
  (id ∈ AC4.asks self4 →
     filled4.2 = [send_hedge_order (AC4.order_ids self4) BID
                    MAX_ASK_NEAREST_TICK volume]
     ∧ AC4.position filled4.1 = AC4.position self4 - volume) ∧
  (id ∉ AC4.bids self4 → id ∉ AC4.asks self4 → filled4 = (self4, [])).
Proof.
  intros Hr3%ac3_reachable_wf Hr4%ac4_reachable_wf. simpl.
  pose proof (wf_disjoint _ _ _ _ _ Hr3 id) as Hd3.
  pose proof (wf_disjoint _ _ _ _ _ Hr4 id) as Hd4.
  split_and!.
  - intros Hin. by rewrite ac3_filled_bid.
  - intros Hin. rewrite ac3_filled_ask; [done | intros Hb; exact (Hd3 Hb Hin) | done].
  - apply ac3_filled_unknown.
  - intros Hin. by rewrite ac4_filled_bid.
  - intros Hin. rewrite ac4_filled_ask; [done | intros Hb; exact (Hd4 Hb Hin) | done].
  - apply ac4_filled_unknown.
Qed.

End Fills.

Lemma C2_fill_hedge_law_witness :
  let self3 := @AC3.after sample_limits resting_bid_run in
  let self4 := @AC4.after sample_limits resting_bid_run in
  (1 ∈ AC3.bids self3 ∧ 1 ∈ AC4.bids self4) ∧
  (@AC3.on_order_filled_message sample_limits self3 1 10000 40).2
    = [send_hedge_order 2 ASK 100 40] ∧
  AC3.position (@AC3.on_order_filled_message sample_limits self3 1 10000 40).1
    = 40 ∧
  (@AC4.on_order_filled_message sample_limits self4 1 10000 40).2
    = [send_hedge_order 2 ASK 100 40] ∧
  AC4.position (@AC4.on_order_filled_message sample_limits self4 1 10000 40).1
    = 40.
Proof.
  intros self3 self4.
  assert (1 ∈ AC3.bids self3) as Hin3
    by (apply (bool_decide_unpack _); vm_compute; exact I).
  assert (1 ∈ AC4.bids self4) as Hin4
    by (apply (bool_decide_unpack _); vm_compute; exact I).
  destruct (@C2_fill_hedge_law sample_limits self3 self4 1 10000 40
              (ac3_after_reachable _) (ac4_after_reachable _))
    as (Hbid3 & _ & _ & Hbid4 & _ & _).
  destruct (Hbid3 Hin3) as [Hsent3 Hpos3], (Hbid4 Hin4) as [Hsent4 Hpos4].
  split; [done|].
  rewrite Hsent3, Hpos3, Hsent4, Hpos4.
  vm_compute. done.
Defined.

(** ** C7: an update that finds the histories out of step is only recorded *)

Section Deferral.
Context `{ExchangeLimits}.

(** C7.  A book update with best bid [b] and best ask [a] first records its
    snapshot.  If the ETF and the future then hold unequal numbers of
    snapshots (in [autotrader_ac_4.py] also whenever the update is for the
    future) the callback returns without an exception and has sent nothing,
    and the trader differs from the one before only in the recorded
    snapshot: the id counter, both id sets, both slots and the position
    (and [position_orders]) are as they were. *)
Theorem C7_unsynchronized_update_defers
    (self3 : AC3.AutoTrader) (self4 : AC4.AutoTrader) (i : Instrument)
    (n b a : Z) (ap av bp bv : list Z) :
  let self3' := ac3_recorded self3 i b a in
  let self4' := ac4_recorded self4 i b a in
  (length (AC3.bid_price_history_of_etf self3')
     ≠ length (AC3.bid_price_history_of_future self3') →
   AC3.on_order_book_update_message self3 i n (a :: ap) av (b :: bp) bv
     = Ok (self3', [])) ∧
  (i = FUTURE ∨
   length (AC4.bid_price_history_of_etf self4')
     ≠ length (AC4.bid_price_history_of_future self4') →
   AC4.on_order_book_update_message self4 i n (a :: ap) av (b :: bp) bv
     = Ok (self4', [])) ∧
  (AC3.order_ids self3', AC3.bids self3', AC3.asks self3',
   AC3.bid_id self3', AC3.ask_id self3', AC3.position self3')
  = (AC3.order_ids self3, AC3.bids self3, AC3.asks self3,
     AC3.bid_id self3, AC3.ask_id self3, AC3.position self3) ∧
  (AC4.order_ids self4', AC4.bids self4', AC4.asks self4',
   AC4.bid_id self4', AC4.ask_id self4', AC4.position self4',
   AC4.position_orders self4')
  = (AC4.order_ids self4, AC4.bids self4, AC4.asks self4,
     AC4.bid_id self4, AC4.ask_id self4, AC4.position self4,
     AC4.position_orders self4).
Proof.
  simpl. split_and!.
  - apply ac3_book_update_unsync.
  - apply ac4_book_update_unsync.
  - by destruct i.
  - by destruct i.
Qed.

End Deferral.

(** ** C8: status messages for dead and for unknown orders *)

Section DeadOrders.
Context `{ExchangeLimits}.

Lemma ac3_status_unknown self id fill_volume remaining_volume fees :
  id ∉ AC3.bids self → id ∉ AC3.asks self →
  id ≠ AC3.bid_id self → id ≠ AC3.ask_id self →
  AC3.on_order_status_message self id fill_volume remaining_volume fees
    = (self, []).
Proof.
  intros Hb Ha Hbid Hask. unfold AC3.on_order_status_message.
  destruct self; simpl in *. case_bool_decide; [|done].
  rewrite !bool_decide_eq_false_2 by done.
  unfold AC3.set_asks, AC3.set_bids; simpl. f_equal; f_equal; set_solver.
Qed.

Lemma ac4_status_unknown self id fill_volume remaining_volume fees :
  id ∉ AC4.bids self → id ∉ AC4.asks self →
  id ≠ AC4.bid_id self → id ≠ AC4.ask_id self →
  AC4.on_order_status_message self id fill_volume remaining_volume fees
    = (self, []).
Proof.
  intros Hb Ha Hbid Hask. unfold AC4.on_order_status_message.
  destruct self; simpl in *.
  repeat (case_bool_decide; simpl in *; try congruence).
  unfold AC4.set_asks, AC4.set_bids; simpl. f_equal; f_equal; set_solver.
Qed.

(** Once a status message with no remaining volume is handled, its id is in
    neither set, and no slot holds it unless the id is 0. *)
Lemma ac3_status_dead self id fill_volume fees :
  ac3_wf self →
  let self' := (AC3.on_order_status_message self id fill_volume 0 fees).1 in
  (id ∉ AC3.bids self') ∧ (id ∉ AC3.asks self') ∧
  (id ≠ 0 → id ≠ AC3.bid_id self' ∧ id ≠ AC3.ask_id self').
Proof.
  intros Hwf. pose proof (slots_wf_distinct _ _ _ _ _ Hwf) as Hdistinct.
  unfold AC3.on_order_status_message. simpl.
  repeat case_bool_decide; simpl; (split_and!; [set_solver..|]);
    lia.
Qed.

Lemma ac4_status_dead self id fill_volume fees :
  ac4_wf self →
  let self' := (AC4.on_order_status_message self id fill_volume 0 fees).1 in
  (id ∉ AC4.bids self') ∧ (id ∉ AC4.asks self') ∧
  (id ≠ 0 → id ≠ AC4.bid_id self' ∧ id ≠ AC4.ask_id self').
Proof.
  intros Hwf. pose proof (slots_wf_distinct _ _ _ _ _ Hwf) as Hdistinct.
  unfold AC4.on_order_status_message. simpl.
  repeat (case_bool_decide; simpl in * ); (split_and!; [set_solver..|]);
    lia.
Qed.

Lemma ac3_status_zero_id self fill_volume fees :
  0 ∉ AC3.bids self → 0 ∉ AC3.asks self →
  AC3.on_order_status_message self 0 fill_volume 0 fees = (self, []).
Proof.
  intros Hb Ha. unfold AC3.on_order_status_message.
  destruct self; simpl in *.
  repeat (case_bool_decide; simpl in *; subst; try done);
    unfold AC3.set_asks, AC3.set_bids, AC3.set_bid_id, AC3.set_ask_id; simpl;
    f_equal; f_equal; set_solver.
Qed.

Lemma ac3_status_dead_twice self id f1 fees1 f2 fees2 :
  ac3_wf self →
  let once := (AC3.on_order_status_message self id f1 0 fees1).1 in
  AC3.on_order_status_message once id f2 0 fees2 = (once, []).
Proof.
  intros Hwf once.
  destruct (ac3_status_dead self id f1 fees1 Hwf) as (Hb & Ha & Hslots).
  destruct (decide (id = 0)) as [->|Hid].
  - by apply ac3_status_zero_id.
  - destruct (Hslots Hid). by apply ac3_status_unknown.
Qed.

Lemma ac4_status_dead_twice self id f1 fees1 f2 fees2 :
  ac4_wf self → id ≠ 0 →
  let once := (AC4.on_order_status_message self id f1 0 fees1).1 in
  AC4.on_order_status_message once id f2 0 fees2 = (once, []).
Proof.
  intros Hwf Hid once.
  destruct (ac4_status_dead self id f1 fees1 Hwf) as (Hb & Ha & Hslots).
  destruct (Hslots Hid). by apply ac4_status_unknown.
Qed.

(** C8.  In a trader the exchange can bring about, a second status message
    with no remaining volume for the same order id (order ids are never 0)
    sends nothing and leaves the trader exactly as the first one left it,
    whatever fill volume and fees the two messages carry.  And in any
    trader, a status message for an id that is in neither set and in
    neither slot sends nothing and changes nothing. *)
Theorem C8_dead_status_idempotent
    (self3 : AC3.AutoTrader) (self4 : AC4.AutoTrader)
    (id f1 fees1 f2 fees2 : Z) :
  let once3 := (AC3.on_order_status_message self3 id f1 0 fees1).1 in
  let once4 := (AC4.on_order_status_message self4 id f1 0 fees1).1 in
  (AC3.reachable self3 →
   AC3.on_order_status_message once3 id f2 0 fees2 = (once3, [])) ∧
  (AC4.reachable self4 → id ≠ 0 →
   AC4.on_order_status_message once4 id f2 0 fees2 = (once4, [])) ∧
  (∀ fill_volume remaining_volume fees,
     id ∉ AC3.bids self3 → id ∉ AC3.asks self3 →
     id ≠ AC3.bid_id self3 → id ≠ AC3.ask_id self3 →
     AC3.on_order_status_message self3 id fill_volume remaining_volume fees
       = (self3, [])) ∧
  (∀ fill_volume remaining_volume fees,
     id ∉ AC4.bids self4 → id ∉ AC4.asks self4 →
     id ≠ AC4.bid_id self4 → id ≠ AC4.ask_id self4 →
     AC4.on_order_status_message self4 id fill_volume remaining_volume fees
       = (self4, [])).
Proof.
  intros once3 once4. split_and!.
  - intros Hr%ac3_reachable_wf.
    exact (ac3_status_dead_twice self3 id f1 fees1 f2 fees2 Hr).
  - intros Hr%ac4_reachable_wf Hid.
    exact (ac4_status_dead_twice self4 id f1 fees1 f2 fees2 Hr Hid).
  - intros. by apply ac3_status_unknown.
  - intros. by apply ac4_status_unknown.
Qed.

(** The side condition on the id is needed in [autotrader_ac_4.py]: with
    both slots empty, id 0 equals [bid_id], and every status message for it
    takes its fill volume off [position_orders] once more. *)
Lemma ac4_status_zero_id_repeats :
  let once := (AC4.on_order_status_message AC4.init 0 5 0 0).1 in
  AC4.position_orders once = -5 ∧
  AC4.position_orders (AC4.on_order_status_message once 0 5 0 0).1 = -10.
Proof. by vm_compute. Qed.

End DeadOrders.

(** ** C9: an error message for a tracked order *)

Section Errors.
Context `{ExchangeLimits}.


End Errors.

(** ** C10: the price on an inserted order *)

Section Prices.
Context `{ExchangeLimits}.

(** C10.  Whenever the book-update callback of [autotrader_ac_4.py] returns
    and has inserted an order, the order's price, which the callback reads
    from the end of the ETF ask history (for [Side.ASK]) or bid history (for
    [Side.BID]), is the update's own [ask_prices[0]] or [bid_prices[0]];
    and that is the price [autotrader_ac_3.py] puts on the orders it
    inserts. *)
Theorem C10_insert_price_is_event_best
    (self4 : AC4.AutoTrader) (self3 : AC3.AutoTrader) (i : Instrument)
    (n : Z) (ap av bp bv : list Z) :
  (∀ self' sent id side price volume lifespan,
     AC4.on_order_book_update_message self4 i n ap av bp bv
       = Ok (self', sent) →
     send_insert_order id side price volume lifespan ∈ sent →
     item_last (match side with
                | ASK => AC4.ask_price_history_of_etf self'
                | BID => AC4.bid_price_history_of_etf self'
                end) = Ok price
     ∧ item_first (match side with ASK => ap | BID => bp end) = Ok price) ∧
  (∀ self' sent id side price volume lifespan,
     AC3.on_order_book_update_message self3 i n ap av bp bv
       = Ok (self', sent) →
     send_insert_order id side price volume lifespan ∈ sent →
     item_first (match side with ASK => ap | BID => bp end) = Ok price).
Proof.
  split.
  - intros self' sent id side price volume lifespan Hrun Hin.
    destruct (ac4_book_update_Ok_inv _ _ _ _ _ _ _ _ _ Hrun)
      as (b & a & bp' & ap' & -> & -> & [->|(-> & Hsync & bf & af & Hbf & Haf)]).
    { by apply elem_of_nil in Hin. }
    rewrite (ac4_book_update_ETF_sync _ _ _ _ _ _ _ _ _ _ Hsync Hbf Haf) in Hrun.
    apply result_bind_Ok in Hrun as (_ & _ & Hrun).
    destruct (bool_decide (AC4.ask_id self4 ≠ 0)),
      (bool_decide (AC4.bid_id self4 ≠ 0));
      inv_result; simpl in *; set_unfold in Hin;
      destruct_or?; simplify_eq; simpl; rewrite ?item_last_snoc; by split.
  - intros self' sent id side price volume lifespan Hrun Hin.
    destruct (ac3_book_update_Ok_inv _ _ _ _ _ _ _ _ _ Hrun)
      as (b & a & bp' & ap' & -> & -> & [->|(-> & Hsync & bf & af & Hbf & Haf)]).
    { by apply elem_of_nil in Hin. }
    rewrite (ac3_book_update_ETF_sync _ _ _ _ _ _ _ _ _ _ Hsync Hbf Haf) in Hrun.
    cbv zeta in Hrun.
    destruct (bool_decide (AC3.ask_id self3 ≠ 0)),
      (bool_decide (AC3.bid_id self3 ≠ 0));
      inv_result; simpl in *; set_unfold in Hin;
      destruct_or?; by simplify_eq.
Qed.

End Prices.

(** ** C3: which resting quotes a synchronized ETF update cancels *)

Section Cancels.
Context `{ExchangeLimits}.

(** C3, as amended.  On a synchronized ETF update that returns,
    [autotrader_ac_4.py] cancels every resting quote, the ask first and then
    the bid, whatever the two midpoints are.  [autotrader_ac_3.py] always
    returns and cancels only the side it is about to quote again: the
    resting ask when the ETF midpoint is above the future's, the resting bid
    when it is below, and nothing when the two are equal.  In both files the
    cancellations are sent before the insertion, and nothing else is
    sent. *)
Theorem C3_cancels_on_synchronized_update
    (self3 : AC3.AutoTrader) (self4 : AC4.AutoTrader)
    (n a b bf af : Z) (ap av bp bv : list Z) :
  let midpoint_price_of_etf := (b + a) `div` 2 in
  let midpoint_price_of_future := (bf + af) `div` 2 in
  let resting (id : Z) := if bool_decide (id ≠ 0) then [id] else [] in
  (S (length (AC3.bid_price_history_of_etf self3))
     = length (AC3.bid_price_history_of_future self3) →
   last (AC3.bid_price_history_of_future self3) = Some bf →
   last (AC3.ask_price_history_of_future self3) = Some af →
   ∃ self' sent,
     AC3.on_order_book_update_message self3 ETF n (a :: ap) av (b :: bp) bv
       = Ok (self', sent) ∧
     cancelled_ids sent =
       (if bool_decide (midpoint_price_of_etf > midpoint_price_of_future)
        then resting (AC3.ask_id self3)
        else if bool_decide (midpoint_price_of_etf < midpoint_price_of_future)
        then resting (AC3.bid_id self3)
        else []) ∧
     sent = (send_cancel_order <$> cancelled_ids sent) ++ insertions sent) ∧
  (S (length (AC4.bid_price_history_of_etf self4))
     = length (AC4.bid_price_history_of_future self4) →
   ∀ self' sent,
     AC4.on_order_book_update_message self4 ETF n (a :: ap) av (b :: bp) bv
       = Ok (self', sent) →
     cancelled_ids sent
       = resting (AC4.ask_id self4) ++ resting (AC4.bid_id self4) ∧
     sent = (send_cancel_order <$> cancelled_ids sent) ++ insertions sent).
Proof.
  intros me mf resting. subst resting. split.
  - intros Hsync Hbf Haf.
    rewrite (ac3_book_update_ETF_sync _ _ _ _ _ _ _ _ _ _ Hsync Hbf Haf).
    cbv zeta. fold me mf.
    destruct (bool_decide (me > mf)); [|destruct (bool_decide (me < mf))];
      [destruct (bool_decide (AC3.position self3 > -90)),
         (bool_decide (AC3.ask_id self3 ≠ 0))
      |destruct (bool_decide (AC3.position self3 < 90)),
         (bool_decide (AC3.bid_id self3 ≠ 0))
      |]; by eexists _, _.
  - intros Hsync self' sent Hrun.
    destruct (ac4_book_update_Ok_inv _ _ _ _ _ _ _ _ _ Hrun)
      as (b' & a' & bp' & ap' & [= <- <-] & [= <- <-] & Hshape).
    assert (∃ bf' af',
      last (AC4.bid_price_history_of_future self4) = Some bf' ∧
      last (AC4.ask_price_history_of_future self4) = Some af')
      as (bf' & af' & Hbf & Haf).
    { destruct Hshape as [->|(_ & _ & Hlast)]; [|done].
      unfold AC4.on_order_book_update_message in Hrun. simpl in Hrun.
      rewrite (bool_decide_eq_true_2 (length _ = length _)) in Hrun;
        [|rewrite length_app; simpl; lia].
      simpl in Hrun.
      do 2 apply result_bind_Ok in Hrun as (? & _ & Hrun).
      apply result_bind_Ok in Hrun as (bf' & Hbf%item_last_Ok & Hrun).
      apply result_bind_Ok in Hrun as (af' & Haf%item_last_Ok & Hrun).
      eauto. }
    rewrite (ac4_book_update_ETF_sync _ _ _ _ _ _ _ _ _ _ Hsync Hbf Haf) in Hrun.
    cbv zeta in Hrun.
    apply result_bind_Ok in Hrun as (_ & _ & Hrun).
    destruct (bool_decide (AC4.ask_id self4 ≠ 0)),
      (bool_decide (AC4.bid_id self4 ≠ 0)); by inv_result.
Qed.

End Cancels.

(** C3 as first stated fails in [autotrader_ac_3.py]: after the future at
    10000 and the ETF at 10100 order 1 rests as an ask; the next pair of
    updates has both midpoints at 10100, and the ETF update of that pair
    sends nothing and leaves order 1 in the ask slot. *)
Lemma C3_counterexample :
  let self := @AC3.after sample_limits
    [book FUTURE 1 10000 10000; book ETF 1 10100 10100;
     book FUTURE 2 10100 10100] in
  AC3.ask_id self = 1 ∧
  S (length (AC3.bid_price_history_of_etf self))
    = length (AC3.bid_price_history_of_future self) ∧
  ∃ self',
    AC3.on_order_book_update_message self ETF 2
      [10100; 0; 0; 0; 0] [1; 0; 0; 0; 0] [10100; 0; 0; 0; 0] [1; 0; 0; 0; 0]
      = Ok (self', []) ∧
    AC3.ask_id self' = 1.
Proof.
  intros self. split_and!; [by vm_compute..|].
  exists (AC3.append_etf 10100 10100 self). by vm_compute.
Qed.

(** ** C4: the size of a buy order near the limit *)

Section Sizing.
Context `{ExchangeLimits}.

(** C4, as amended.  On a synchronized ETF update whose ETF midpoint is
    below the future's, a buy order is inserted only while
    [position < POSITION_LIMIT - LOT_SIZE = 90]; its size is
    [10 * multiplier] when [position + 10 * multiplier <= 100] and
    [100 - position] otherwise, so it is shrunk to reach the limit exactly.
    From position 90 on, and so at position 95, no order is inserted.
    [autotrader_ac_3.py] always returns here; for [autotrader_ac_4.py] the
    statement is about the updates on which it returns. *)
Theorem C4_buy_size_on_underpricing
    (self3 : AC3.AutoTrader) (self4 : AC4.AutoTrader)
    (n a b bf af : Z) (ap av bp bv : list Z) :
  let midpoint_price_of_etf := (b + a) `div` 2 in
  let midpoint_price_of_future := (bf + af) `div` 2 in
  let multiplier :=
    Z.abs (midpoint_price_of_etf - midpoint_price_of_future) `div` 100 + 1 in
  let buy (next_id position : Z) :=
    if bool_decide (position < 90) then
      [send_insert_order next_id BID b
         (if bool_decide (position + 10 * multiplier ≤ 100)
          then 10 * multiplier else 100 - position)
         GOOD_FOR_DAY]
    else [] in
  midpoint_price_of_etf < midpoint_price_of_future →
  (S (length (AC3.bid_price_history_of_etf self3))
     = length (AC3.bid_price_history_of_future self3) →
   last (AC3.bid_price_history_of_future self3) = Some bf →
   last (AC3.ask_price_history_of_future self3) = Some af →
   ∃ self' sent,
     AC3.on_order_book_update_message self3 ETF n (a :: ap) av (b :: bp) bv
       = Ok (self', sent) ∧
     insertions sent = buy (AC3.order_ids self3) (AC3.position self3) ∧
     (AC3.position self3 = 95 → insertions sent = [])) ∧
  (S (length (AC4.bid_price_history_of_etf self4))
     = length (AC4.bid_price_history_of_future self4) →
   last (AC4.bid_price_history_of_future self4) = Some bf →
   last (AC4.ask_price_history_of_future self4) = Some af →
   ∀ self' sent,
     AC4.on_order_book_update_message self4 ETF n (a :: ap) av (b :: bp) bv
       = Ok (self', sent) →
     insertions sent = buy (AC4.order_ids self4) (AC4.position self4) ∧
     (AC4.position self4 = 95 → insertions sent = [])).
Proof.
  intros me mf multiplier buy Hlt. subst buy. split.
  - intros Hsync Hbf Haf.
    rewrite (ac3_book_update_ETF_sync _ _ _ _ _ _ _ _ _ _ Hsync Hbf Haf).
    cbv zeta. fold me mf. fold multiplier.
    rewrite (bool_decide_eq_false_2 (me > mf)) by lia.
    rewrite (bool_decide_eq_true_2 (me < mf)) by done.
    destruct (decide (AC3.position self3 < 90)) as [Hpos|Hpos].
    + rewrite !(bool_decide_eq_true_2 (_ < 90)) by done.
      eexists _, _. split; [done|].
      destruct (bool_decide (AC3.bid_id self3 ≠ 0)); simpl;
        (split; [done | lia]).
    + rewrite !(bool_decide_eq_false_2 (_ < 90)) by done.
      eexists _, _. split; [done|].
      by destruct (bool_decide (AC3.bid_id self3 ≠ 0)).
  - intros Hsync Hbf Haf self' sent Hrun.
    rewrite (ac4_book_update_ETF_sync _ _ _ _ _ _ _ _ _ _ Hsync Hbf Haf) in Hrun.
    cbv zeta in Hrun. fold me mf in Hrun. fold multiplier in Hrun.
    apply result_bind_Ok in Hrun as (_ & _ & Hrun).
    rewrite (bool_decide_eq_false_2 (me > mf)) in Hrun by lia.
    rewrite (bool_decide_eq_true_2 (me < mf)) in Hrun by done.
    simpl in Hrun.
    destruct (decide (AC4.position self4 < 90)) as [Hpos|Hpos].
    + rewrite !(bool_decide_eq_true_2 (_ < 90)) in Hrun by done.
      rewrite !(bool_decide_eq_true_2 (_ < 90)) by done.
      destruct (bool_decide (AC4.ask_id self4 ≠ 0)),
        (bool_decide (AC4.bid_id self4 ≠ 0)); inv_result; simpl;
        (split; [done | lia]).
    + rewrite !(bool_decide_eq_false_2 (_ < 90)) in Hrun by done.
      rewrite !(bool_decide_eq_false_2 (_ < 90)) by done.
      by destruct (bool_decide (AC4.ask_id self4 ≠ 0)),
        (bool_decide (AC4.bid_id self4 ≠ 0)); inv_result.
Qed.

End Sizing.

(** C4 as first stated fails in both files: order 1, a bid for 100 lots, is
    filled for 95, so the position is 95; the next synchronized ETF update
    has the ETF below the future, yet all it sends is the cancellation of
    order 1, and no order of any size is inserted. *)
Lemma C4_counterexample :
  let evs := [book FUTURE 1 20000 20000; book ETF 1 10000 10000;
              OrderFilledMessage 1 10000 95; book FUTURE 2 20000 20000] in
  let self3 := @AC3.after sample_limits evs in
  let self4 := @AC4.after sample_limits evs in
  (AC3.position self3 = 95 ∧ AC4.position self4 = 95) ∧
  (∃ self',
     AC3.on_order_book_update_message self3 ETF 2
       [10000; 0; 0; 0; 0] [1; 0; 0; 0; 0] [10000; 0; 0; 0; 0] [1; 0; 0; 0; 0]
       = Ok (self', [send_cancel_order 1])) ∧
  (∃ self',
     AC4.on_order_book_update_message self4 ETF 2
       [10000; 0; 0; 0; 0] [1; 0; 0; 0; 0] [10000; 0; 0; 0; 0] [1; 0; 0; 0; 0]
       = Ok (self', [send_cancel_order 1])).
Proof.
  intros evs self3 self4. split_and!; [by vm_compute..| |].
  - exists (AC3.set_bid_id 0 (AC3.append_etf 10000 10000 self3)).
    by vm_compute.
  - exists (AC4.set_bid_id 0 (AC4.append_etf 10000 10000 self4)).
    by vm_compute.
Qed.

(** ** C1: the position limit *)

(** C1 fails on the code: both files reach position 200 on
    [limit_breach_run].
    Each of the two fills stays within the volume of its order. *)
Theorem C1_position_limit_breached :
  @AC3.run sample_limits AC3.init limit_breach_run
    = Ok (@AC3.after sample_limits limit_breach_run,
          [send_insert_order 1 BID 10000 100 GOOD_FOR_DAY;
           send_cancel_order 1;
           send_insert_order 2 BID 10000 100 GOOD_FOR_DAY;
           send_hedge_order 3 ASK 100 100;
           send_hedge_order 4 ASK 100 100]) ∧
  AC3.position (@AC3.after sample_limits limit_breach_run) = 200 ∧
  @AC4.run sample_limits AC4.init limit_breach_run
    = Ok (@AC4.after sample_limits limit_breach_run,
          [send_insert_order 1 BID 10000 100 GOOD_FOR_DAY;
           send_cancel_order 1;
           send_insert_order 2 BID 10000 100 GOOD_FOR_DAY;
           send_hedge_order 3 ASK 100 100;
           send_hedge_order 4 ASK 100 100]) ∧
  AC4.position (@AC4.after sample_limits limit_breach_run) = 200 ∧
  @AC3.reachable sample_limits (@AC3.after sample_limits limit_breach_run) ∧
  @AC4.reachable sample_limits (@AC4.after sample_limits limit_breach_run).
Proof.
  split_and!; [by vm_compute..| |].
  - apply ac3_after_reachable.
  - apply ac4_after_reachable.
Qed.

(** What the sizing does guarantee: an order inserted by a book update would,
    filled in full and alone, leave a position within the limit that was
    within the limit before. *)
Lemma ac4_insert_within_limit_alone self i n ap av bp bv self' sent
    id side price volume lifespan :
  AC4.on_order_book_update_message self i n ap av bp bv = Ok (self', sent) →
  send_insert_order id side price volume lifespan ∈ sent →
  -100 ≤ AC4.position self ≤ 100 →
  match side with
  | BID => 0 < volume ∧ AC4.position self + volume ≤ 100
  | ASK => 0 < volume ∧ -100 ≤ AC4.position self - volume
  end.
Proof.
  intros Hrun Hin Hpos.
  destruct (ac4_book_update_Ok_inv _ _ _ _ _ _ _ _ _ Hrun)
    as (b & a & bp' & ap' & -> & -> & [->|(-> & Hsync & bf & af & Hbf & Haf)]).
  { by apply elem_of_nil in Hin. }
  rewrite (ac4_book_update_ETF_sync _ _ _ _ _ _ _ _ _ _ Hsync Hbf Haf) in Hrun.
  cbv zeta in Hrun. apply result_bind_Ok in Hrun as (_ & _ & Hrun).
  set (m := Z.abs _ `div` 100) in *.
  assert (0 ≤ m) by (apply Z.div_pos; lia).
  destruct (bool_decide (AC4.ask_id self ≠ 0)),
    (bool_decide (AC4.bid_id self ≠ 0));
    inv_result; simpl in *; set_unfold in Hin;
    destruct_or?; simplify_eq;
    repeat match goal with
    | H : _ && _ = true |- _ => apply andb_true_iff in H as [? ?]
    | H : bool_decide _ = true |- _ => apply bool_decide_eq_true_1 in H
    end;
    repeat case_bool_decide; lia.
Qed.

(** ** C5: a partially filled order *)

(** C5 fails on [autotrader_ac_4.py].  What holds: the status message
    [(1, 5, 5, 0)] leaves order 1 in the bid slot and in the bid set, and
    over the whole run the 10 filled lots are added to [position] once.
    What fails: [position_orders] is lowered by every fill message and again
    by every status message, which carries the running total; the 10 lots
    lower it by 5, 5, 5 and 10, to -25, where the claim allows -10. *)
Theorem C5_fill_volume_applied_again :
  let after_insert := @AC4.after sample_limits (take 2 partial_fill_run) in
  let after_fill := @AC4.after sample_limits (take 3 partial_fill_run) in
  let after_status := @AC4.after sample_limits (take 4 partial_fill_run) in
  let after_all := @AC4.after sample_limits partial_fill_run in
  (AC4.bid_id after_insert = 1 ∧ AC4.bids after_insert = {[1]} ∧
   AC4.position after_insert = 0 ∧ AC4.position_orders after_insert = 0) ∧
  (AC4.position after_fill = 5 ∧ AC4.position_orders after_fill = -5) ∧
  AC4.on_order_status_message after_fill 1 5 5 0 = (after_status, []) ∧
  (AC4.bid_id after_status = 1 ∧ AC4.bids after_status = {[1]} ∧
   AC4.asks after_status = ∅ ∧
   AC4.position after_status = 5 ∧ AC4.position_orders after_status = -10) ∧
  (AC4.bid_id after_all = 0 ∧ AC4.bids after_all = ∅ ∧
   AC4.position after_all = 10 ∧ AC4.position_orders after_all = -25) ∧
  (∃ sent, @AC4.run sample_limits AC4.init partial_fill_run
             = Ok (after_all, sent)).
Proof.
  intros after_insert after_fill after_status after_all.
  split_and!; try by vm_compute.
  eexists. by vm_compute.
Qed.

(** ** C6: an update against an empty future book *)

Section EmptyBook.
Context `{ExchangeLimits}.

(** Whenever the future's latest midpoint is 0, a synchronized ETF update
    raises [ZeroDivisionError] in [autotrader_ac_4.py]: one of the two
    comparisons that nothing reads is evaluated, whatever the sign of
    [position_orders], and divides by the midpoint. *)
Lemma ac4_zero_future_midpoint_raises self n a ap av b bp bv bf af :
  S (length (AC4.bid_price_history_of_etf self))
    = length (AC4.bid_price_history_of_future self) →
  last (AC4.bid_price_history_of_future self) = Some bf →
  last (AC4.ask_price_history_of_future self) = Some af →
  (bf + af) `div` 2 = 0 →
  AC4.on_order_book_update_message self ETF n (a :: ap) av (b :: bp) bv
    = Raise ZeroDivisionError.
Proof.
  intros Hsync Hbf Haf Hzero.
  rewrite (ac4_book_update_ETF_sync _ _ _ _ _ _ _ _ _ _ Hsync Hbf Haf).
  cbv zeta. rewrite Hzero. unfold AC4.adjusted_threshold_comparison.
  assert (∀ x, true_divide x 0 = Raise ZeroDivisionError) as ->; [|done].
  intros x. unfold true_divide. by rewrite (bool_decide_eq_true_2 (0 = 0)).
Qed.

End EmptyBook.

(** C6 fails on [autotrader_ac_4.py]: the first update is handled, and the
    ETF update that follows raises [ZeroDivisionError].  The same run goes
    through in [autotrader_ac_3.py], which has no such division. *)
Theorem C6_empty_future_book_raises :
  (∃ self sent,
     @AC4.run sample_limits AC4.init (take 1 empty_future_run)
       = Ok (self, sent) ∧
     AC4.on_order_book_update_message self ETF 1
       [10100; 0; 0; 0; 0] [1; 0; 0; 0; 0] [10000; 0; 0; 0; 0] [1; 0; 0; 0; 0]
       = Raise ZeroDivisionError) ∧
  @AC4.run sample_limits AC4.init empty_future_run = Raise ZeroDivisionError ∧
  @AC3.run sample_limits AC3.init empty_future_run
    = Ok (@AC3.after sample_limits empty_future_run,
          [send_insert_order 1 ASK 10100 100 GOOD_FOR_DAY]).
Proof.
  split_and!; [|by vm_compute..].
  eexists _, _. split; by vm_compute.
Qed.

(** * The theorems at concrete traders *)

Lemma C3_cancels_on_synchronized_update_witness :
  let self3 := @AC3.after sample_limits resting_ask_run in
  let self4 := @AC4.after sample_limits resting_ask_run in
  let ap := [10100; 0; 0; 0; 0] in
  (∃ self' sent,
     AC3.on_order_book_update_message self3 ETF 2 ap [] ap []
       = Ok (self', sent) ∧
     cancelled_ids sent = [1] ∧
     sent = (send_cancel_order <$> cancelled_ids sent) ++ insertions sent) ∧
  (∀ self' sent,
     AC4.on_order_book_update_message self4 ETF 2 ap [] ap []
       = Ok (self', sent) →
     cancelled_ids sent = [1] ∧
     sent = (send_cancel_order <$> cancelled_ids sent) ++ insertions sent).
Proof.
  intros self3 self4 ap.
  destruct (C3_cancels_on_synchronized_update self3 self4
              2 10100 10100 10000 10000 [0; 0; 0; 0] [] [0; 0; 0; 0] [])
    as [H3 H4].
  split.
  - apply H3; by vm_compute.
  - apply H4. by vm_compute.
Defined.

Lemma C4_buy_size_on_underpricing_witness :
  let self3 := @AC3.after sample_limits position_85_run in
  let self4 := @AC4.after sample_limits position_85_run in
  let ap := [10000; 0; 0; 0; 0] in
  (AC3.position self3 = 85 ∧ AC4.position self4 = 85) ∧
  (∃ self' sent,
     AC3.on_order_book_update_message self3 ETF 2 ap [] ap []
       = Ok (self', sent) ∧
     insertions sent = [send_insert_order 3 BID 10000 15 GOOD_FOR_DAY]) ∧
  (∀ self' sent,
     AC4.on_order_book_update_message self4 ETF 2 ap [] ap []
       = Ok (self', sent) →
     insertions sent = [send_insert_order 3 BID 10000 15 GOOD_FOR_DAY]).
Proof.
  intros self3 self4 ap.
  assert ((10000 + 10000) `div` 2 < (20000 + 20000) `div` 2) as Hlt
    by (by vm_compute).
  destruct (C4_buy_size_on_underpricing self3 self4
              2 10000 10000 20000 20000 [0; 0; 0; 0] [] [0; 0; 0; 0] [] Hlt)
    as [H3 H4].
  split_and!; [by vm_compute..| |].
  - destruct H3 as (self' & sent & Hrun & Hbuy & _); [by vm_compute..|].
    exists self', sent. split; [done|]. rewrite Hbuy. by vm_compute.
  - intros self' sent Hrun.
    destruct (H4 ltac:(by vm_compute) ltac:(by vm_compute)
                 ltac:(by vm_compute) self' sent Hrun) as [Hbuy _].
    rewrite Hbuy. by vm_compute.
Defined.

Lemma C7_unsynchronized_update_defers_witness :
  let ap := [10100; 0; 0; 0; 0] in
  let bp := [10000; 0; 0; 0; 0] in
  AC3.on_order_book_update_message AC3.init ETF 1 ap [] bp []
    = Ok (AC3.append_etf 10000 10100 AC3.init, []) ∧
  AC4.on_order_book_update_message AC4.init ETF 1 ap [] bp []
    = Ok (AC4.append_etf 10000 10100 AC4.init, []).
Proof.
  intros ap bp.
  destruct (C7_unsynchronized_update_defers AC3.init AC4.init ETF
              1 10000 10100 [0; 0; 0; 0] [] [0; 0; 0; 0] [])
    as (H3 & H4 & _).
  split.
  - apply H3. simpl. lia.
  - apply H4. right. simpl. lia.
Defined.

Lemma C8_dead_status_idempotent_witness :
  let self3 := @AC3.after sample_limits resting_bid_run in
  let self4 := @AC4.after sample_limits resting_bid_run in
  let once3 := (AC3.on_order_status_message self3 1 40 0 0).1 in
  let once4 := (AC4.on_order_status_message self4 1 40 0 0).1 in
  (AC3.bid_id self3 = 1 ∧ AC4.bid_id self4 = 1) ∧
  (AC3.bid_id once3 = 0 ∧ AC4.bid_id once4 = 0) ∧
  AC3.on_order_status_message once3 1 40 0 0 = (once3, []) ∧
  AC4.on_order_status_message once4 1 40 0 0 = (once4, []).
Proof.
  intros self3 self4 once3 once4.
  destruct (@C8_dead_status_idempotent sample_limits self3 self4 1 40 0 40 0)
    as (H3 & H4 & _).
  split_and!; [by vm_compute..| |].
  - apply H3. apply ac3_after_reachable.
  - apply H4; [apply ac4_after_reachable | done].
Defined.



Lemma C10_insert_price_is_event_best_witness :
  let self4 := @AC4.after sample_limits [book FUTURE 1 20000 20000] in
  let self3 := @AC3.after sample_limits [book FUTURE 1 20000 20000] in
  let ap := [10050; 0; 0; 0; 0] in
  let bp := [10000; 0; 0; 0; 0] in
  AC4.on_order_book_update_message self4 ETF 1 ap [] bp []
    = Ok (AC4.set_bids {[1]}
            (AC4.set_bid_id 1
               (AC4.set_order_ids 2 (AC4.append_etf 10000 10050 self4))),
          [send_insert_order 1 BID 10000 100 GOOD_FOR_DAY]) ∧
  item_first bp = Ok 10000.
Proof.
  intros self4 self3 ap bp.
  destruct (C10_insert_price_is_event_best self4 self3 ETF 1 ap [] bp [])
    as [H4 _].
  assert (AC4.on_order_book_update_message self4 ETF 1 ap [] bp []
    = Ok (AC4.set_bids {[1]}
            (AC4.set_bid_id 1
               (AC4.set_order_ids 2 (AC4.append_etf 10000 10050 self4))),
          [send_insert_order 1 BID 10000 100 GOOD_FOR_DAY])) as Hrun
    by (by vm_compute).
  split; [done|].
  by destruct (H4 _ _ 1 BID 10000 100 GOOD_FOR_DAY Hrun
                 ltac:(by constructor)) as [_ Hfirst].
Defined.

(** * Further properties of the two files *)

(** ** What every reachable trader satisfies *)

Section Reachable.
Context `{ExchangeLimits}.

(** X1.  In every trader the exchange can bring about, in either file: the
    id counter is at least 1, every id in the bid set or the ask set was
    handed out by the counter (it lies between 1 and the counter,
    exclusive), no id is in both sets, and a slot that is not empty holds an
    id that is in the set of its side; so the two slots never hold the same
    order. *)
Theorem X1_reachable_slots_invariant
    (self3 : AC3.AutoTrader) (self4 : AC4.AutoTrader) :
  AC3.reachable self3 → AC4.reachable self4 →
  (1 ≤ AC3.order_ids self3 ∧
   (∀ i, i ∈ AC3.bids self3 ∪ AC3.asks self3 → 1 ≤ i < AC3.order_ids self3) ∧
   AC3.bids self3 ∩ AC3.asks self3 = ∅ ∧
   (AC3.bid_id self3 ≠ 0 → AC3.bid_id self3 ∈ AC3.bids self3) ∧
   (AC3.ask_id self3 ≠ 0 → AC3.ask_id self3 ∈ AC3.asks self3) ∧
   (AC3.bid_id self3 = AC3.ask_id self3 → AC3.bid_id self3 = 0)) ∧
  (1 ≤ AC4.order_ids self4 ∧
   (∀ i, i ∈ AC4.bids self4 ∪ AC4.asks self4 → 1 ≤ i < AC4.order_ids self4) ∧
   AC4.bids self4 ∩ AC4.asks self4 = ∅ ∧
   (AC4.bid_id self4 ≠ 0 → AC4.bid_id self4 ∈ AC4.bids self4) ∧
   (AC4.ask_id self4 ≠ 0 → AC4.ask_id self4 ∈ AC4.asks self4) ∧
   (AC4.bid_id self4 = AC4.ask_id self4 → AC4.bid_id self4 = 0)).
Proof.
  intros Hwf3%ac3_reachable_wf Hwf4%ac4_reachable_wf.
  pose proof (slots_wf_distinct _ _ _ _ _ Hwf3) as Hd3.
  pose proof (slots_wf_distinct _ _ _ _ _ Hwf4) as Hd4.
  destruct Hwf3 as [Hn3 HB3 HA3 HD3 Hb3 Ha3].
  destruct Hwf4 as [Hn4 HB4 HA4 HD4 Hb4 Ha4].
  split; split_and!; try done.
  - intros i [Hi|Hi]%elem_of_union; auto.
  - set_solver.
  - intros i [Hi|Hi]%elem_of_union; auto.
  - set_solver.
Qed.

End Reachable.

Lemma X1_reachable_slots_invariant_witness :
  let self3 := @AC3.after sample_limits limit_breach_run in
  let self4 := @AC4.after sample_limits limit_breach_run in
  (AC3.order_ids self3 = 5 ∧ AC3.bids self3 = {[1; 2]} ∧ AC3.bid_id self3 = 2) ∧
  (∀ i, i ∈ AC3.bids self3 ∪ AC3.asks self3 → 1 ≤ i < AC3.order_ids self3) ∧
  (∀ i, i ∈ AC4.bids self4 ∪ AC4.asks self4 → 1 ≤ i < AC4.order_ids self4).
Proof.
  intros self3 self4.
  destruct (@X1_reachable_slots_invariant sample_limits self3 self4
              (ac3_after_reachable _) (ac4_after_reachable _))
    as [(_ & H3 & _) (_ & H4 & _)].
  split_and!; try done; by vm_compute.
Defined.

(** ** Every way a book update can return *)

Lemma ac3_book_update_Ok_cases self i n ap av bp bv self' sent :
  AC3.on_order_book_update_message self i n ap av bp bv = Ok (self', sent) →
  ∃ b a bp' ap', bp = b :: bp' ∧ ap = a :: ap' ∧
    ((self' = ac3_recorded self i b a ∧ sent = []) ∨
     i = ETF ∧
     S (length (AC3.bid_price_history_of_etf self))
       = length (AC3.bid_price_history_of_future self) ∧
     ∃ bf af, last (AC3.bid_price_history_of_future self) = Some bf ∧
              last (AC3.ask_price_history_of_future self) = Some af).
Proof.
  intros Hrun.
  destruct (ac3_book_update_Ok_inv _ _ _ _ _ _ _ _ _ Hrun)
    as (b & a & bp' & ap' & -> & -> & Hshape).
  exists b, a, bp', ap'. split_and!; [done..|].
  destruct i.
  - left. clear Hshape.
    unfold AC3.on_order_book_update_message in Hrun. simpl in Hrun.
    destruct (bool_decide (length _ = length _)); [|by inv_result].
    do 4 apply result_bind_Ok in Hrun as (? & _ & Hrun).
    unfold AC3.sell_etf, AC3.buy_etf in Hrun. simpl in Hrun.
    by destruct (bool_decide (_ > _)), (bool_decide (_ < _)); inv_result.
  - destruct Hshape as [->|Hsync]; [|by right].
    destruct (decide (S (length (AC3.bid_price_history_of_etf self))
                      = length (AC3.bid_price_history_of_future self)))
      as [Hsync|Hsync].
    + right. split_and!; [done..|].
      unfold AC3.on_order_book_update_message in Hrun. simpl in Hrun.
      rewrite (bool_decide_eq_true_2 (length _ = length _)) in Hrun;
        [|rewrite length_app; simpl; lia].
      do 2 apply result_bind_Ok in Hrun as (? & _ & Hrun).
      apply result_bind_Ok in Hrun as (bf & Hbf%item_last_Ok & Hrun).
      apply result_bind_Ok in Hrun as (af & Haf%item_last_Ok & Hrun).
      eauto.
    + left. rewrite ac3_book_update_unsync in Hrun; [by inv_result|].
      simpl. rewrite length_app. simpl. lia.
Qed.

Lemma ac4_book_update_Ok_cases self i n ap av bp bv self' sent :
  AC4.on_order_book_update_message self i n ap av bp bv = Ok (self', sent) →
  ∃ b a bp' ap', bp = b :: bp' ∧ ap = a :: ap' ∧
    ((self' = ac4_recorded self i b a ∧ sent = []) ∨
     i = ETF ∧
     S (length (AC4.bid_price_history_of_etf self))
       = length (AC4.bid_price_history_of_future self) ∧
     ∃ bf af, last (AC4.bid_price_history_of_future self) = Some bf ∧
              last (AC4.ask_price_history_of_future self) = Some af).
Proof.
  intros Hrun.
  destruct (ac4_book_update_Ok_inv _ _ _ _ _ _ _ _ _ Hrun)
    as (b & a & bp' & ap' & -> & -> & Hshape).
  exists b, a, bp', ap'. split_and!; [done..|].
  destruct i.
  - left. rewrite ac4_book_update_unsync in Hrun; [by inv_result | by left].
  - destruct Hshape as [->|Hsync]; [|by right].
    destruct (decide (S (length (AC4.bid_price_history_of_etf self))
                      = length (AC4.bid_price_history_of_future self)))
      as [Hsync|Hsync].
    + right. split_and!; [done..|].
      unfold AC4.on_order_book_update_message in Hrun. simpl in Hrun.
      rewrite (bool_decide_eq_true_2 (length _ = length _)) in Hrun;
        [|rewrite length_app; simpl; lia].
      simpl in Hrun.
      do 2 apply result_bind_Ok in Hrun as (? & _ & Hrun).
      apply result_bind_Ok in Hrun as (bf & Hbf%item_last_Ok & Hrun).
      apply result_bind_Ok in Hrun as (af & Haf%item_last_Ok & Hrun).
      eauto.
    + left. rewrite ac4_book_update_unsync in Hrun; [by inv_result|].
      right. simpl. rewrite length_app. simpl. lia.
Qed.

(** Splitting a returned book update into its cases: nothing but the
    snapshot recorded, or one of the outcomes of a synchronized ETF update,
    each with the trader and the commands spelled out. *)
Ltac ac3_book_cases Hrun :=
  let Hsync := fresh "Hsync" in
  let Hbf := fresh "Hbf" in
  let Haf := fresh "Haf" in
  destruct (ac3_book_update_Ok_cases _ _ _ _ _ _ _ _ _ Hrun)
    as (? & ? & ? & ? & -> & -> & [[-> ->]|(-> & Hsync & ? & ? & Hbf & Haf)]);
  [| rewrite (ac3_book_update_ETF_sync _ _ _ _ _ _ _ _ _ _ Hsync Hbf Haf) in Hrun;
     cbv zeta in Hrun;
     repeat match type of Hrun with
            | context [bool_decide ?P] => destruct (decide P);
                [rewrite !(bool_decide_eq_true_2 P) in Hrun by done
                |rewrite !(bool_decide_eq_false_2 P) in Hrun by done]
            end;
     inv_result ].

Ltac ac4_book_cases Hrun :=
  let Hsync := fresh "Hsync" in
  let Hbf := fresh "Hbf" in
  let Haf := fresh "Haf" in
  destruct (ac4_book_update_Ok_cases _ _ _ _ _ _ _ _ _ Hrun)
    as (? & ? & ? & ? & -> & -> & [[-> ->]|(-> & Hsync & ? & ? & Hbf & Haf)]);
  [| rewrite (ac4_book_update_ETF_sync _ _ _ _ _ _ _ _ _ _ Hsync Hbf Haf) in Hrun;
     cbv zeta in Hrun;
     apply result_bind_Ok in Hrun as (_ & _ & Hrun);
     repeat match type of Hrun with
            | context [bool_decide ?P] => destruct (decide P);
                [rewrite !(bool_decide_eq_true_2 P) in Hrun by done
                |rewrite !(bool_decide_eq_false_2 P) in Hrun by done]
            end;
     simpl in Hrun; inv_result ].

(** ** One message at a time *)

Ltac norm_ids :=
  repeat match goal with
         | |- context [?x + 1 - ?x] => replace (x + 1 - x) with 1 by lia
         end;
  rewrite ?Z.sub_diag, ?app_nil_r.

Section Steps.
Context `{ExchangeLimits}.

(** A message that is no book update always returns; these are the four
    outcomes. *)
Lemma ac3_status_cases self id fill_volume remaining_volume fees :
  ∃ self', AC3.on_order_status_message self id fill_volume remaining_volume fees
             = (self', []) ∧
    AC3.order_ids self' = AC3.order_ids self ∧
    AC3.position self' = AC3.position self ∧
    AC3.bid_price_history_of_etf self' = AC3.bid_price_history_of_etf self ∧
    AC3.ask_price_history_of_etf self' = AC3.ask_price_history_of_etf self ∧
    AC3.bid_price_history_of_future self' = AC3.bid_price_history_of_future self ∧
    AC3.ask_price_history_of_future self' = AC3.ask_price_history_of_future self.
Proof.
  unfold AC3.on_order_status_message.
  repeat case_bool_decide; eexists; (split; [reflexivity|]); by simpl.
Qed.

Lemma ac4_status_cases self id fill_volume remaining_volume fees :
  ∃ self', AC4.on_order_status_message self id fill_volume remaining_volume fees
             = (self', []) ∧
    AC4.order_ids self' = AC4.order_ids self ∧
    AC4.position self' = AC4.position self ∧
    AC4.bid_price_history_of_etf self' = AC4.bid_price_history_of_etf self ∧
    AC4.ask_price_history_of_etf self' = AC4.ask_price_history_of_etf self ∧
    AC4.bid_price_history_of_future self' = AC4.bid_price_history_of_future self ∧
    AC4.ask_price_history_of_future self' = AC4.ask_price_history_of_future self.
Proof.
  unfold AC4.on_order_status_message.
  repeat (case_bool_decide; simpl);
    eexists; (split; [reflexivity|]); by simpl.
Qed.

Lemma ac3_error_cases self id msg r :
  AC3.on_error_message self id msg = Ok r →
  ∃ self', r = (self', []) ∧
    AC3.order_ids self' = AC3.order_ids self ∧
    AC3.position self' = AC3.position self ∧
    AC3.bid_price_history_of_etf self' = AC3.bid_price_history_of_etf self ∧
    AC3.ask_price_history_of_etf self' = AC3.ask_price_history_of_etf self ∧
    AC3.bid_price_history_of_future self' = AC3.bid_price_history_of_future self ∧
    AC3.ask_price_history_of_future self' = AC3.ask_price_history_of_future self.
Proof.
  intros [_ ->]%ac3_error_Ok_inv.
  destruct (_ && _); [apply ac3_status_cases | by eexists].
Qed.

Lemma ac4_error_cases self id msg r :
  AC4.on_error_message self id msg = Ok r →
  ∃ self', r = (self', []) ∧
    AC4.order_ids self' = AC4.order_ids self ∧
    AC4.position self' = AC4.position self ∧
    AC4.bid_price_history_of_etf self' = AC4.bid_price_history_of_etf self ∧
    AC4.ask_price_history_of_etf self' = AC4.ask_price_history_of_etf self ∧
    AC4.bid_price_history_of_future self' = AC4.bid_price_history_of_future self ∧
    AC4.ask_price_history_of_future self' = AC4.ask_price_history_of_future self.
Proof.
  intros [_ ->]%ac4_error_Ok_inv.
  destruct (_ && _); [apply ac4_status_cases | by eexists].
Qed.

(** What one message does to the position, the id counter and the
    histories, and what it sends, in [autotrader_ac_3.py]. *)
Lemma ac3_handle_summary self ev self' sent :
  AC3.handle self ev = Ok (self', sent) →
  AC3.position self' = AC3.position self + hedged_volume sent ∧
  new_order_ids sent
    = seqZ (AC3.order_ids self) (AC3.order_ids self' - AC3.order_ids self) ∧
  AC3.order_ids self ≤ AC3.order_ids self' ∧
  AC3.bid_price_history_of_etf self'
    = AC3.bid_price_history_of_etf self ++ best_bids ETF [ev] ∧
  AC3.ask_price_history_of_etf self'
    = AC3.ask_price_history_of_etf self ++ best_asks ETF [ev] ∧
  AC3.bid_price_history_of_future self'
    = AC3.bid_price_history_of_future self ++ best_bids FUTURE [ev] ∧
  AC3.ask_price_history_of_future self'
    = AC3.ask_price_history_of_future self ++ best_asks FUTURE [ev].
Proof.
  intros Hrun. destruct ev; simpl in Hrun.
  - destruct (ac3_error_cases _ _ _ _ Hrun)
      as (s & Heq & Hn & Hp & Hh1 & Hh2 & Hh3 & Hh4).
    inv_result. simpl.
    rewrite Hn, Hp, Hh1, Hh2, Hh3, Hh4, Z.sub_diag, !app_nil_r.
    split_and!; try done; lia.
  - unfold AC3.on_hedge_filled_message in Hrun. inv_result. simpl.
    rewrite Z.sub_diag, !app_nil_r. split_and!; try done; lia.
  - unfold AC3.on_order_filled_message in Hrun.
    repeat case_bool_decide; inv_result; simpl; norm_ids;
      split_and!; try done; lia.
  - destruct (ac3_status_cases self client_order_id fill_volume
                remaining_volume fees)
      as (s & Heq & Hn & Hp & Hh1 & Hh2 & Hh3 & Hh4).
    rewrite Heq in Hrun. inv_result. simpl.
    rewrite Hn, Hp, Hh1, Hh2, Hh3, Hh4, Z.sub_diag, !app_nil_r.
    split_and!; try done; lia.
  - unfold AC3.on_trade_ticks_message in Hrun. inv_result. simpl.
    rewrite Z.sub_diag, !app_nil_r. split_and!; try done; lia.
  - ac3_book_cases Hrun; simpl; norm_ids;
      try (destruct instrument; simpl; norm_ids);
      split_and!; try done; lia.
Qed.

(** The same in [autotrader_ac_4.py]. *)
Lemma ac4_handle_summary self ev self' sent :
  AC4.handle self ev = Ok (self', sent) →
  AC4.position self' = AC4.position self + hedged_volume sent ∧
  new_order_ids sent
    = seqZ (AC4.order_ids self) (AC4.order_ids self' - AC4.order_ids self) ∧
  AC4.order_ids self ≤ AC4.order_ids self' ∧
  AC4.bid_price_history_of_etf self'
    = AC4.bid_price_history_of_etf self ++ best_bids ETF [ev] ∧
  AC4.ask_price_history_of_etf self'
    = AC4.ask_price_history_of_etf self ++ best_asks ETF [ev] ∧
  AC4.bid_price_history_of_future self'
    = AC4.bid_price_history_of_future self ++ best_bids FUTURE [ev] ∧
  AC4.ask_price_history_of_future self'
    = AC4.ask_price_history_of_future self ++ best_asks FUTURE [ev].
Proof.
  intros Hrun. destruct ev; simpl in Hrun.
  - destruct (ac4_error_cases _ _ _ _ Hrun)
      as (s & Heq & Hn & Hp & Hh1 & Hh2 & Hh3 & Hh4).
    inv_result. simpl.
    rewrite Hn, Hp, Hh1, Hh2, Hh3, Hh4, Z.sub_diag, !app_nil_r.
    split_and!; try done; lia.
  - unfold AC4.on_hedge_filled_message in Hrun. inv_result. simpl.
    rewrite Z.sub_diag, !app_nil_r. split_and!; try done; lia.
  - unfold AC4.on_order_filled_message in Hrun.
    repeat case_bool_decide; inv_result; simpl; norm_ids;
      split_and!; try done; lia.
  - destruct (ac4_status_cases self client_order_id fill_volume
                remaining_volume fees)
      as (s & Heq & Hn & Hp & Hh1 & Hh2 & Hh3 & Hh4).
    rewrite Heq in Hrun. inv_result. simpl.
    rewrite Hn, Hp, Hh1, Hh2, Hh3, Hh4, Z.sub_diag, !app_nil_r.
    split_and!; try done; lia.
  - unfold AC4.on_trade_ticks_message in Hrun. inv_result. simpl.
    rewrite Z.sub_diag, !app_nil_r. split_and!; try done; lia.
  - ac4_book_cases Hrun; simpl; norm_ids;
      try (destruct instrument; simpl; norm_ids);
      split_and!; try done; lia.
Qed.

Lemma hedged_volume_app sent sent' :
  hedged_volume (sent ++ sent') = hedged_volume sent + hedged_volume sent'.
Proof.
  induction sent as [|c sent IH]; simpl; [lia|].
  destruct c as [| | ? [] ? ? |]; lia.
Qed.

Lemma new_order_ids_app sent sent' :
  new_order_ids (sent ++ sent') = new_order_ids sent ++ new_order_ids sent'.
Proof. apply omap_app. Qed.

Lemma best_bids_cons i ev evs :
  best_bids i (ev :: evs) = best_bids i [ev] ++ best_bids i evs.
Proof. apply (omap_app _ [ev] evs). Qed.

Lemma best_asks_cons i ev evs :
  best_asks i (ev :: evs) = best_asks i [ev] ++ best_asks i evs.
Proof. apply (omap_app _ [ev] evs). Qed.

Lemma seqZ_glue m n p :
  m ≤ n → n ≤ p → seqZ m (n - m) ++ seqZ n (p - n) = seqZ m (p - m).
Proof.
  intros Hmn Hnp. replace (p - m) with ((n - m) + (p - n)) by lia.
  rewrite seqZ_app by lia. by replace (m + (n - m)) with n by lia.
Qed.

(** The summary of one message, carried along a run. *)
Lemma ac3_run_summary evs self self' sent :
  AC3.run self evs = Ok (self', sent) →
  AC3.position self' = AC3.position self + hedged_volume sent ∧
  new_order_ids sent
    = seqZ (AC3.order_ids self) (AC3.order_ids self' - AC3.order_ids self) ∧
  AC3.order_ids self ≤ AC3.order_ids self' ∧
  AC3.bid_price_history_of_etf self'
    = AC3.bid_price_history_of_etf self ++ best_bids ETF evs ∧
  AC3.ask_price_history_of_etf self'
    = AC3.ask_price_history_of_etf self ++ best_asks ETF evs ∧
  AC3.bid_price_history_of_future self'
    = AC3.bid_price_history_of_future self ++ best_bids FUTURE evs ∧
  AC3.ask_price_history_of_future self'
    = AC3.ask_price_history_of_future self ++ best_asks FUTURE evs.
Proof.
  revert self sent. induction evs as [|ev evs IH]; intros self sent Hrun.
  - simpl in Hrun. inv_result. simpl. norm_ids. split_and!; try done; lia.
  - simpl in Hrun.
    apply result_bind_Ok in Hrun as ([self1 sent1] & Hev & Hrun).
    apply result_bind_Ok in Hrun as ([self2 sent2] & Hevs & Hrun).
    inv_result.
    destruct (ac3_handle_summary _ _ _ _ Hev)
      as (Hp & Hids & Hle & Hh1 & Hh2 & Hh3 & Hh4).
    destruct (IH _ _ Hevs) as (Hp' & Hids' & Hle' & Hh1' & Hh2' & Hh3' & Hh4').
    rewrite hedged_volume_app, new_order_ids_app, Hids, Hids'.
    rewrite seqZ_glue by done.
    rewrite (best_bids_cons ETF), (best_asks_cons ETF),
      (best_bids_cons FUTURE), (best_asks_cons FUTURE), !app_assoc.
    rewrite Hh1', Hh2', Hh3', Hh4', Hh1, Hh2, Hh3, Hh4.
    split_and!; try done; lia.
Qed.

Lemma ac4_run_summary evs self self' sent :
  AC4.run self evs = Ok (self', sent) →
  AC4.position self' = AC4.position self + hedged_volume sent ∧
  new_order_ids sent
    = seqZ (AC4.order_ids self) (AC4.order_ids self' - AC4.order_ids self) ∧
  AC4.order_ids self ≤ AC4.order_ids self' ∧
  AC4.bid_price_history_of_etf self'
    = AC4.bid_price_history_of_etf self ++ best_bids ETF evs ∧
  AC4.ask_price_history_of_etf self'
    = AC4.ask_price_history_of_etf self ++ best_asks ETF evs ∧
  AC4.bid_price_history_of_future self'
    = AC4.bid_price_history_of_future self ++ best_bids FUTURE evs ∧
  AC4.ask_price_history_of_future self'
    = AC4.ask_price_history_of_future self ++ best_asks FUTURE evs.
Proof.
  revert self sent. induction evs as [|ev evs IH]; intros self sent Hrun.
  - simpl in Hrun. inv_result. simpl. norm_ids. split_and!; try done; lia.
  - simpl in Hrun.
    apply result_bind_Ok in Hrun as ([self1 sent1] & Hev & Hrun).
    apply result_bind_Ok in Hrun as ([self2 sent2] & Hevs & Hrun).
    inv_result.
    destruct (ac4_handle_summary _ _ _ _ Hev)
      as (Hp & Hids & Hle & Hh1 & Hh2 & Hh3 & Hh4).
    destruct (IH _ _ Hevs) as (Hp' & Hids' & Hle' & Hh1' & Hh2' & Hh3' & Hh4').
    rewrite hedged_volume_app, new_order_ids_app, Hids, Hids'.
    rewrite seqZ_glue by done.
    rewrite (best_bids_cons ETF), (best_asks_cons ETF),
      (best_bids_cons FUTURE), (best_asks_cons FUTURE), !app_assoc.
    rewrite Hh1', Hh2', Hh3', Hh4', Hh1, Hh2, Hh3, Hh4.
    split_and!; try done; lia.
Qed.

End Steps.

(** ** Whole runs *)

Section WholeRuns.
Context `{ExchangeLimits}.

(** X2.  Over any run from the initial trader that returns, in either file,
    the position equals the lots the run's hedge orders sell in the future
    net of the lots they buy there: every lot of position is matched by a
    hedged lot. *)
Theorem X2_position_is_hedged (evs : list Event)
    (self3 : AC3.AutoTrader) (sent3 : list Command)
    (self4 : AC4.AutoTrader) (sent4 : list Command) :
  (AC3.run AC3.init evs = Ok (self3, sent3) →
   AC3.position self3 = hedged_volume sent3) ∧
  (AC4.run AC4.init evs = Ok (self4, sent4) →
   AC4.position self4 = hedged_volume sent4).
Proof.
  split; intros Hrun.
  - destruct (ac3_run_summary _ _ _ _ Hrun) as (Hp & _). by rewrite Hp.
  - destruct (ac4_run_summary _ _ _ _ Hrun) as (Hp & _). by rewrite Hp.
Qed.

(** X3.  Over any run from the initial trader that returns, in either file,
    the ids on the inserted orders and hedge orders are 1, 2, 3, ... in the
    order sent, up to the id counter: no id is used twice and none is
    skipped. *)
Theorem X3_order_ids_consecutive (evs : list Event)
    (self3 : AC3.AutoTrader) (sent3 : list Command)
    (self4 : AC4.AutoTrader) (sent4 : list Command) :
  (AC3.run AC3.init evs = Ok (self3, sent3) →
   new_order_ids sent3 = seqZ 1 (AC3.order_ids self3 - 1) ∧
   NoDup (new_order_ids sent3)) ∧
  (AC4.run AC4.init evs = Ok (self4, sent4) →
   new_order_ids sent4 = seqZ 1 (AC4.order_ids self4 - 1) ∧
   NoDup (new_order_ids sent4)).
Proof.
  split; intros Hrun.
  - destruct (ac3_run_summary _ _ _ _ Hrun) as (_ & Hids & _).
    rewrite Hids. split; [done | apply NoDup_seqZ].
  - destruct (ac4_run_summary _ _ _ _ Hrun) as (_ & Hids & _).
    rewrite Hids. split; [done | apply NoDup_seqZ].
Qed.

(** X4.  Over any run from the initial trader that returns, in either file,
    the four price histories are exactly the best bids and best asks of the
    run's ETF updates and of its future updates, oldest first; so the bid
    and the ask history of an instrument always have the same length, the
    number of its updates. *)
Theorem X4_histories_record_best_prices (evs : list Event)
    (self3 : AC3.AutoTrader) (sent3 : list Command)
    (self4 : AC4.AutoTrader) (sent4 : list Command) :
  (AC3.run AC3.init evs = Ok (self3, sent3) →
   AC3.bid_price_history_of_etf self3 = best_bids ETF evs ∧
   AC3.ask_price_history_of_etf self3 = best_asks ETF evs ∧
   AC3.bid_price_history_of_future self3 = best_bids FUTURE evs ∧
   AC3.ask_price_history_of_future self3 = best_asks FUTURE evs) ∧
  (AC4.run AC4.init evs = Ok (self4, sent4) →
   AC4.bid_price_history_of_etf self4 = best_bids ETF evs ∧
   AC4.ask_price_history_of_etf self4 = best_asks ETF evs ∧
   AC4.bid_price_history_of_future self4 = best_bids FUTURE evs ∧
   AC4.ask_price_history_of_future self4 = best_asks FUTURE evs) ∧
  length (best_bids ETF evs) = length (best_asks ETF evs) ∧
  length (best_bids FUTURE evs) = length (best_asks FUTURE evs).
Proof.
  split_and!.
  - intros Hrun.
    by destruct (ac3_run_summary _ _ _ _ Hrun) as (_ & _ & _ & ? & ? & ? & ?).
  - intros Hrun.
    by destruct (ac4_run_summary _ _ _ _ Hrun) as (_ & _ & _ & ? & ? & ? & ?).
  - induction evs as [|[] evs IH]; simpl; try done.
    unfold best_bids, best_asks in *. simpl. case_bool_decide; simpl; lia.
  - induction evs as [|[] evs IH]; simpl; try done.
    unfold best_bids, best_asks in *. simpl. case_bool_decide; simpl; lia.
Qed.

End WholeRuns.

Lemma X2_position_is_hedged_witness :
  let self3 := @AC3.after sample_limits limit_breach_run in
  let self4 := @AC4.after sample_limits limit_breach_run in
  @AC3.run sample_limits AC3.init limit_breach_run
    = Ok (self3, limit_breach_sent) ∧
  @AC4.run sample_limits AC4.init limit_breach_run
    = Ok (self4, limit_breach_sent) ∧
  AC3.position self3 = hedged_volume limit_breach_sent ∧
  AC4.position self4 = hedged_volume limit_breach_sent ∧
  hedged_volume limit_breach_sent = 200.
Proof.
  intros self3 self4.
  assert (@AC3.run sample_limits AC3.init limit_breach_run
            = Ok (self3, limit_breach_sent)) as H3 by (by vm_compute).
  assert (@AC4.run sample_limits AC4.init limit_breach_run
            = Ok (self4, limit_breach_sent)) as H4 by (by vm_compute).
  destruct (@X2_position_is_hedged sample_limits limit_breach_run
              self3 limit_breach_sent self4 limit_breach_sent) as [Hp3 Hp4].
  split_and!; [exact H3 | exact H4 | exact (Hp3 H3) | exact (Hp4 H4)
              | by vm_compute].
Defined.

Lemma X3_order_ids_consecutive_witness :
  let self3 := @AC3.after sample_limits limit_breach_run in
  let self4 := @AC4.after sample_limits limit_breach_run in
  new_order_ids limit_breach_sent = [1; 2; 3; 4] ∧
  new_order_ids limit_breach_sent = seqZ 1 (AC3.order_ids self3 - 1) ∧
  new_order_ids limit_breach_sent = seqZ 1 (AC4.order_ids self4 - 1) ∧
  NoDup (new_order_ids limit_breach_sent).
Proof.
  intros self3 self4.
  assert (@AC3.run sample_limits AC3.init limit_breach_run
            = Ok (self3, limit_breach_sent)) as H3 by (by vm_compute).
  assert (@AC4.run sample_limits AC4.init limit_breach_run
            = Ok (self4, limit_breach_sent)) as H4 by (by vm_compute).
  destruct (@X3_order_ids_consecutive sample_limits limit_breach_run
              self3 limit_breach_sent self4 limit_breach_sent) as [Hp3 Hp4].
  destruct (Hp3 H3) as [Hids3 Hnodup], (Hp4 H4) as [Hids4 _].
  split_and!; [by vm_compute | done..].
Defined.

Lemma X4_histories_record_best_prices_witness :
  let self3 := @AC3.after sample_limits limit_breach_run in
  let self4 := @AC4.after sample_limits limit_breach_run in
  AC3.bid_price_history_of_etf self3 = best_bids ETF limit_breach_run ∧
  AC4.ask_price_history_of_future self4 = best_asks FUTURE limit_breach_run ∧
  best_bids ETF limit_breach_run = [10000; 10000] ∧
  best_asks FUTURE limit_breach_run = [20000; 20000].
Proof.
  intros self3 self4.
  assert (@AC3.run sample_limits AC3.init limit_breach_run
            = Ok (self3, limit_breach_sent)) as H3 by (by vm_compute).
  assert (@AC4.run sample_limits AC4.init limit_breach_run
            = Ok (self4, limit_breach_sent)) as H4 by (by vm_compute).
  destruct (@X4_histories_record_best_prices sample_limits limit_breach_run
              self3 limit_breach_sent self4 limit_breach_sent)
    as (Hp3 & Hp4 & _).
  destruct (Hp3 H3) as (Hh & _), (Hp4 H4) as (_ & _ & _ & Hh').
  split_and!; [done | done | by vm_compute..].
Defined.

(** ** Which messages raise *)

Section Raising.
Context `{ExchangeLimits}.

Lemma best_bids_asks_length i ev :
  length (best_bids i [ev]) = length (best_asks i [ev]).
Proof.
  destruct ev; simpl; try done.
  unfold best_bids, best_asks. simpl. by case_bool_decide.
Qed.

(** In a reachable trader the bid and the ask history of an instrument have
    the same length. *)
Lemma ac3_reachable_histories self :
  AC3.reachable self →
  length (AC3.bid_price_history_of_etf self)
    = length (AC3.ask_price_history_of_etf self) ∧
  length (AC3.bid_price_history_of_future self)
    = length (AC3.ask_price_history_of_future self).
Proof.
  induction 1 as [|self ev self' sent _ [IHe IHf] Hrun]; [done|].
  destruct (ac3_handle_summary _ _ _ _ Hrun)
    as (_ & _ & _ & -> & -> & -> & ->).
  rewrite !length_app, IHe, IHf.
  by rewrite (best_bids_asks_length ETF), (best_bids_asks_length FUTURE).
Qed.

Lemma ac4_reachable_histories self :
  AC4.reachable self →
  length (AC4.bid_price_history_of_etf self)
    = length (AC4.ask_price_history_of_etf self) ∧
  length (AC4.bid_price_history_of_future self)
    = length (AC4.ask_price_history_of_future self).
Proof.
  induction 1 as [|self ev self' sent _ [IHe IHf] Hrun]; [done|].
  destruct (ac4_handle_summary _ _ _ _ Hrun)
    as (_ & _ & _ & -> & -> & -> & ->).
  rewrite !length_app, IHe, IHf.
  by rewrite (best_bids_asks_length ETF), (best_bids_asks_length FUTURE).
Qed.

Lemma last_of_nonempty (l : list Z) : (0 < length l)%nat → ∃ x, last l = Some x.
Proof.
  intros Hlen. destruct (last l) as [x|] eqn:Hlast; [eauto|].
  apply last_None in Hlast. subst. simpl in Hlen. lia.
Qed.

(** A future update in [autotrader_ac_3.py] goes through the whole callback
    when the histories are synchronized, and still only records its
    snapshot. *)
Lemma ac3_book_update_FUTURE_returns self n a ap av b bp bv :
  length (AC3.bid_price_history_of_etf self)
    = length (AC3.ask_price_history_of_etf self) →
  AC3.on_order_book_update_message self FUTURE n (a :: ap) av (b :: bp) bv
    = Ok (AC3.append_future b a self, []).
Proof.
  intros Hlen. unfold AC3.on_order_book_update_message. simpl.
  case_bool_decide as Hsync; [|done].
  rewrite length_app in Hsync. simpl in Hsync.
  destruct (last_of_nonempty (AC3.bid_price_history_of_etf self))
    as [be Hbe%item_last_Ok]; [lia|].
  destruct (last_of_nonempty (AC3.ask_price_history_of_etf self))
    as [ae Hae%item_last_Ok]; [lia|].
  rewrite Hbe, Hae, !item_last_snoc. simpl.
  unfold AC3.sell_etf, AC3.buy_etf. simpl.
  by destruct (bool_decide (_ > _)), (bool_decide (_ < _)).
Qed.

Lemma ac3_book_update_returns self i n a ap av b bp bv :
  AC3.reachable self →
  ∃ self' sent,
    AC3.on_order_book_update_message self i n (a :: ap) av (b :: bp) bv
      = Ok (self', sent).
Proof.
  intros [Hetf Hfut]%ac3_reachable_histories. destruct i.
  - rewrite ac3_book_update_FUTURE_returns by done. eauto.
  - destruct (decide (S (length (AC3.bid_price_history_of_etf self))
                      = length (AC3.bid_price_history_of_future self)))
      as [Hsync|Hsync].
    + destruct (last_of_nonempty (AC3.bid_price_history_of_future self))
        as [bf Hbf]; [lia|].
      destruct (last_of_nonempty (AC3.ask_price_history_of_future self))
        as [af Haf]; [lia|].
      rewrite (ac3_book_update_ETF_sync _ _ _ _ _ _ _ _ _ _ Hsync Hbf Haf).
      cbv zeta. repeat case_bool_decide; eauto.
    + rewrite ac3_book_update_unsync; [eauto|].
      simpl. rewrite length_app. simpl. lia.
Qed.

Lemma book_update_empty_raises3 self i n ap av bp bv :
  ap = [] ∨ bp = [] →
  AC3.on_order_book_update_message self i n ap av bp bv = Raise IndexError.
Proof.
  unfold AC3.on_order_book_update_message.
  intros [-> | ->]; destruct i; simpl; try done; by destruct bp.
Qed.

Lemma book_update_empty_raises4 self i n ap av bp bv :
  ap = [] ∨ bp = [] →
  AC4.on_order_book_update_message self i n ap av bp bv = Raise IndexError.
Proof.
  unfold AC4.on_order_book_update_message.
  intros [-> | ->]; destruct i; simpl; try done; by destruct bp.
Qed.

Lemma ac3_handle_returns self ev :
  AC3.reachable self → well_formed ev →
  ∃ self' sent, AC3.handle self ev = Ok (self', sent).
Proof.
  intros Hr Hwf. destruct ev; simpl;
    try (eexists _, _; f_equal; apply surjective_pairing).
  - simpl in Hwf.
    destruct (if bool_decide (client_order_id ≠ 0)
                 && (bool_decide (client_order_id ∈ AC3.bids self)
                     || bool_decide (client_order_id ∈ AC3.asks self))
              then AC3.on_order_status_message self client_order_id 0 0 0
              else (self, [])) as [self' sent] eqn:Hret.
    exists self', sent. apply ac3_error_Ok_inv. by rewrite Hret.
  - destruct Hwf as [Hap Hbp].
    destruct ask_prices as [|a ap], bid_prices as [|b bp]; try done.
    by apply ac3_book_update_returns.
Qed.

Lemma ac3_run_returns evs self :
  AC3.reachable self → Forall well_formed evs →
  ∃ self' sent, AC3.run self evs = Ok (self', sent).
Proof.
  revert self. induction evs as [|ev evs IH]; intros self Hr Hwf.
  - by eexists _, _.
  - apply Forall_cons in Hwf as [Hev Hevs].
    destruct (ac3_handle_returns self ev Hr Hev) as (self1 & sent1 & Hrun1).
    destruct (IH self1) as (self2 & sent2 & Hrun2);
      [by eapply AC3.reachable_step | done |].
    simpl. rewrite Hrun1. simpl. rewrite Hrun2. by eexists _, _.
Qed.

(** X5.  [autotrader_ac_3.py] raises on no message the exchange sends: in a
    trader the exchange can bring about a message is handled without an
    exception exactly when it is well formed; a message that is not raises
    [UnicodeDecodeError] when it is an error message (its text does not
    decode) and [IndexError] when it is a book update (it reports no price
    on one side); and every run of well-formed messages from the initial
    trader returns. *)
Theorem X5_ac3_raises_on_malformed_message_only
    (self : AC3.AutoTrader) (ev : Event) (evs : list Event) :
  (AC3.reachable self →
   (well_formed ev ↔ ∃ self' sent, AC3.handle self ev = Ok (self', sent))) ∧
  (¬ well_formed ev →
   AC3.handle self ev
     = Raise match ev with
             | ErrorMessage _ _ => UnicodeDecodeError
             | _ => IndexError
             end) ∧
  (Forall well_formed evs →
   ∃ self' sent, AC3.run AC3.init evs = Ok (self', sent)).
Proof.
  assert (¬ well_formed ev →
          ∃ e, AC3.handle self ev = Raise e ∧
               e = match ev with
                   | ErrorMessage _ _ => UnicodeDecodeError
                   | _ => IndexError
                   end) as Hbad.
  { intros Hwf. destruct ev; simpl in *; try done.
    - eexists. split; [|done]. apply ac3_error_undecodable.
      by destruct (utf8_well_formed error_message).
    - eexists. split; [|done]. apply book_update_empty_raises3.
      destruct ask_prices, bid_prices; auto. by destruct Hwf. }
  split_and!.
  - intros Hr. split; [by apply ac3_handle_returns|].
    intros (self' & sent & Hrun). clear Hbad.
    destruct ev; simpl in *; try done.
    + by apply ac3_error_Ok_inv in Hrun as [? _].
    + destruct ask_prices, bid_prices; try done;
        rewrite book_update_empty_raises3 in Hrun by auto; done.
  - intros Hno. by destruct (Hbad Hno) as (e & -> & ->).
  - apply ac3_run_returns, AC3.reachable_init.
Qed.

Lemma true_divide_cases a b :
  true_divide a b = Ok () ∨
  (true_divide a b = Raise ZeroDivisionError ∧ b = 0) ∨
  (true_divide a b = Raise OverflowError ∧ b ≠ 0).
Proof. unfold true_divide. repeat case_bool_decide; auto. Qed.

Lemma ac4_handle_raise_inv
    (self : AC4.AutoTrader) (ev : Event) (e : Exception) :
  AC4.reachable self → well_formed ev → AC4.handle self ev = Raise e →
  ∃ n a ap av b bp bv bf af,
    ev = OrderBookUpdateMessage ETF n (a :: ap) av (b :: bp) bv ∧
    S (length (AC4.bid_price_history_of_etf self))
      = length (AC4.bid_price_history_of_future self) ∧
    last (AC4.bid_price_history_of_future self) = Some bf ∧
    last (AC4.ask_price_history_of_future self) = Some af ∧
    AC4.adjusted_threshold_comparison ((b + a) `div` 2) ((bf + af) `div` 2)
      (AC4.position_orders self) = Raise e ∧
    (e = ZeroDivisionError ∧ (bf + af) `div` 2 = 0 ∨
     e = OverflowError ∧ (bf + af) `div` 2 ≠ 0).
Proof.
  intros [Hetf Hfut]%ac4_reachable_histories Hwf Hrun.
  destruct ev; simpl in Hrun; try done.
  { simpl in Hwf.
    assert (AC4.on_error_message self client_order_id error_message
              = Ok (if bool_decide (client_order_id ≠ 0)
                       && (bool_decide (client_order_id ∈ AC4.bids self)
                           || bool_decide (client_order_id ∈ AC4.asks self))
                    then AC4.on_order_status_message self client_order_id 0 0 0
                    else (self, []))) as Hret
      by (by apply ac4_error_Ok_inv).
    congruence. }
  destruct Hwf as [Hap Hbp].
  destruct ask_prices as [|a ap], bid_prices as [|b bp]; try done.
  destruct instrument.
  { rewrite ac4_book_update_unsync in Hrun; [done | by left]. }
  destruct (decide (S (length (AC4.bid_price_history_of_etf self))
                    = length (AC4.bid_price_history_of_future self)))
    as [Hsync|Hsync].
  2:{ rewrite ac4_book_update_unsync in Hrun; [done|].
      right. simpl. rewrite length_app. simpl. lia. }
  destruct (last_of_nonempty (AC4.bid_price_history_of_future self))
    as [bf Hbf]; [lia|].
  destruct (last_of_nonempty (AC4.ask_price_history_of_future self))
    as [af Haf]; [lia|].
  exists sequence_number, a, ap, ask_volumes, b, bp, bid_volumes, bf, af.
  split_and!; [done..| |];
    rewrite (ac4_book_update_ETF_sync _ _ _ _ _ _ _ _ _ _ Hsync Hbf Haf) in Hrun;
    cbv zeta in Hrun;
    destruct (AC4.adjusted_threshold_comparison _ _ _) as [[]|e'] eqn:Hcheck;
    simpl in Hrun;
    try (by repeat case_bool_decide; simpl in Hrun);
    injection Hrun as ->; [done|].
  unfold AC4.adjusted_threshold_comparison in Hcheck.
  destruct (true_divide_cases ((b + a) `div` 2) ((bf + af) `div` 2))
    as [Hd|[[Hd Hz]|[Hd Hz]]]; rewrite Hd in Hcheck; simpl in Hcheck.
  - destruct (true_divide_cases (AC4.position_orders self) 100)
      as [Hd'|[[Hd' Hz']|[Hd' Hz']]]; rewrite Hd' in Hcheck;
      simpl in Hcheck; [done | done |].
    injection Hcheck as <-.
    right. split; [done|]. intros Hzero.
    unfold true_divide in Hd. by rewrite bool_decide_eq_true_2 in Hd.
  - injection Hcheck as <-. by left.
  - injection Hcheck as <-. by right.
Qed.

(** X6.  In [autotrader_ac_4.py], in a trader the exchange can bring about,
    a well-formed message (an error message whose text decodes, a book
    update with a price on either side, any other message) raises only in
    one place: it is a synchronized ETF update, and the exception comes out
    of the comparison against the adjusted threshold, which nothing reads;
    it is [ZeroDivisionError] when the future's latest midpoint is 0 and
    [OverflowError] otherwise.  No well-formed message raises [IndexError]
    or [UnicodeDecodeError]. *)
Theorem X6_ac4_raises_in_division_only
    (self : AC4.AutoTrader) (ev : Event) (e : Exception) :
  AC4.reachable self → well_formed ev → AC4.handle self ev = Raise e →
  ∃ n a ap av b bp bv bf af,
    ev = OrderBookUpdateMessage ETF n (a :: ap) av (b :: bp) bv ∧
    S (length (AC4.bid_price_history_of_etf self))
      = length (AC4.bid_price_history_of_future self) ∧
    last (AC4.bid_price_history_of_future self) = Some bf ∧
    last (AC4.ask_price_history_of_future self) = Some af ∧
    AC4.adjusted_threshold_comparison ((b + a) `div` 2) ((bf + af) `div` 2)
      (AC4.position_orders self) = Raise e ∧
    (e = ZeroDivisionError ∧ (bf + af) `div` 2 = 0 ∨
     e = OverflowError ∧ (bf + af) `div` 2 ≠ 0).
Proof. apply ac4_handle_raise_inv. Qed.

(** X7.  In [autotrader_ac_4.py], in a trader the exchange can bring about,
    an ETF update returns whenever the future's latest midpoint is not 0 and
    the update's own midpoint and [position_orders] are below the float
    range in size. *)
Theorem X7_ac4_returns_off_zero_midpoint
    (self : AC4.AutoTrader) (n a b : Z) (ap av bp bv : list Z) :
  AC4.reachable self →
  (∀ bf af, last (AC4.bid_price_history_of_future self) = Some bf →
            last (AC4.ask_price_history_of_future self) = Some af →
            (bf + af) `div` 2 ≠ 0) →
  Z.abs ((b + a) `div` 2) < FLOAT_OVERFLOW →
  Z.abs (AC4.position_orders self) < FLOAT_OVERFLOW →
  ∃ self' sent,
    AC4.on_order_book_update_message self ETF n (a :: ap) av (b :: bp) bv
      = Ok (self', sent).
Proof.
  intros Hr Hmid Hme Hpo.
  destruct (AC4.on_order_book_update_message self ETF n (a :: ap) av
              (b :: bp) bv) as [[self' sent]|e] eqn:Hrun; [eauto|].
  exfalso.
  destruct (ac4_handle_raise_inv self
              (OrderBookUpdateMessage ETF n (a :: ap) av (b :: bp) bv) e Hr)
    as (n' & a' & ap' & av' & b' & bp' & bv' & bf & af & Hev & _ & Hbf & Haf
        & Hcheck & He); [by split | done |].
  injection Hev as <- <- <- <- <- <-.
  specialize (Hmid bf af Hbf Haf).
  destruct He as [[_ Hzero]|[-> _]]; [done|].
  unfold AC4.adjusted_threshold_comparison, true_divide in Hcheck.
  set (me := (b + a) `div` 2) in *. set (mf := (bf + af) `div` 2) in *.
  rewrite (bool_decide_eq_false_2 (mf = 0)) in Hcheck by done.
  rewrite (bool_decide_eq_false_2 (FLOAT_OVERFLOW * Z.abs mf ≤ Z.abs me))
    in Hcheck by nia.
  simpl in Hcheck. repeat case_bool_decide; try done; lia.
Qed.

End Raising.

Lemma X5_ac3_raises_on_malformed_message_only_witness :
  (∃ self' sent,
     @AC3.handle sample_limits (@AC3.after sample_limits resting_bid_run)
       (book ETF 2 10000 10000) = Ok (self', sent)) ∧
  (∃ self' sent,
     @AC3.run sample_limits AC3.init empty_future_run = Ok (self', sent)).
Proof.
  destruct (@X5_ac3_raises_on_malformed_message_only sample_limits
              (@AC3.after sample_limits resting_bid_run)
              (book ETF 2 10000 10000) empty_future_run)
    as (Hiff & _ & Hrun).
  split.
  - apply Hiff; [apply ac3_after_reachable | by split].
  - apply Hrun. by repeat constructor.
Defined.

Lemma X6_ac4_raises_in_division_only_witness :
  let self := @AC4.after sample_limits (take 1 empty_future_run) in
  @AC4.handle sample_limits self (book ETF 1 10000 10100)
    = Raise ZeroDivisionError ∧
  ∃ bf af,
    last (AC4.bid_price_history_of_future self) = Some bf ∧
    last (AC4.ask_price_history_of_future self) = Some af ∧
    (bf + af) `div` 2 = 0.
Proof.
  intros self.
  assert (@AC4.handle sample_limits self (book ETF 1 10000 10100)
            = Raise ZeroDivisionError) as Hrun by (by vm_compute).
  split; [done|].
  destruct (@X6_ac4_raises_in_division_only sample_limits self
              (book ETF 1 10000 10100) ZeroDivisionError
              (ac4_after_reachable _))
    as (n & a & ap & av & b & bp & bv & bf & af & _ & _ & Hbf & Haf & _ & He);
    [by split | done |].
  exists bf, af. by destruct He as [[_ Hzero]|[? _]].
Defined.

Lemma X7_ac4_returns_off_zero_midpoint_witness :
  ∃ self' sent,
    AC4.on_order_book_update_message
      (@AC4.after sample_limits [book FUTURE 1 20000 20000]) ETF 1
      [10100; 0; 0; 0; 0] [] [10000; 0; 0; 0; 0] [] = Ok (self', sent).
Proof.
  apply (@X7_ac4_returns_off_zero_midpoint sample_limits).
  - apply ac4_after_reachable.
  - intros bf af Hbf Haf. vm_compute in Hbf, Haf.
    injection Hbf as <-. injection Haf as <-. by vm_compute.
  - by vm_compute.
  - by vm_compute.
Defined.

(** ** What each kind of message sends *)

Section Commands.
Context `{ExchangeLimits}.

Lemma ac3_handle_commands self ev self' sent :
  AC3.handle self ev = Ok (self', sent) →
  Forall in_repertoire sent ∧
  match ev with
  | OrderFilledMessage _ _ _ =>
      cancelled_ids sent = [] ∧ insertions sent = [] ∧
      (length sent ≤ 1)%nat
  | OrderBookUpdateMessage _ _ _ _ _ _ =>
      hedge_orders sent = [] ∧ AC3.position self' = AC3.position self ∧
      (length (insertions sent) ≤ 1)%nat ∧
      (length (cancelled_ids sent) ≤ 1)%nat
  | _ => sent = [] ∧ AC3.position self' = AC3.position self
  end.
Proof.
  intros Hrun. destruct ev; simpl in Hrun.
  - destruct (ac3_error_cases _ _ _ _ Hrun)
      as (s & Heq & _ & Hp & _).
    by inv_result.
  - unfold AC3.on_hedge_filled_message in Hrun. by inv_result.
  - unfold AC3.on_order_filled_message in Hrun.
    repeat case_bool_decide; inv_result; simpl;
      split_and!; try done; try lia; by repeat constructor.
  - destruct (ac3_status_cases self client_order_id fill_volume
                remaining_volume fees) as (s & Heq & _ & Hp & _).
    rewrite Heq in Hrun. by inv_result.
  - unfold AC3.on_trade_ticks_message in Hrun. by inv_result.
  - ac3_book_cases Hrun; simpl;
      try (destruct instrument; simpl);
      split_and!; try done; try lia; by repeat constructor.
Qed.

Lemma ac4_handle_commands self ev self' sent :
  AC4.handle self ev = Ok (self', sent) →
  Forall in_repertoire sent ∧
  match ev with
  | OrderFilledMessage _ _ _ =>
      cancelled_ids sent = [] ∧ insertions sent = [] ∧
      (length sent ≤ 1)%nat
  | OrderBookUpdateMessage _ _ _ _ _ _ =>
      hedge_orders sent = [] ∧ AC4.position self' = AC4.position self ∧
      (length (insertions sent) ≤ 1)%nat ∧
      (length (cancelled_ids sent) ≤ 2)%nat
  | _ => sent = [] ∧ AC4.position self' = AC4.position self
  end.
Proof.
  intros Hrun. destruct ev; simpl in Hrun.
  - destruct (ac4_error_cases _ _ _ _ Hrun)
      as (s & Heq & _ & Hp & _).
    by inv_result.
  - unfold AC4.on_hedge_filled_message in Hrun. by inv_result.
  - unfold AC4.on_order_filled_message in Hrun.
    repeat case_bool_decide; inv_result; simpl;
      split_and!; try done; try lia; by repeat constructor.
  - destruct (ac4_status_cases self client_order_id fill_volume
                remaining_volume fees) as (s & Heq & _ & Hp & _).
    rewrite Heq in Hrun. by inv_result.
  - unfold AC4.on_trade_ticks_message in Hrun. by inv_result.
  - ac4_book_cases Hrun; simpl;
      try (destruct instrument; simpl);
      split_and!; try done; try lia; by repeat constructor.
Qed.

(** X8.  What each kind of message can send, in either file, when its
    callback returns.  A fill message sends at most one command, never a
    cancellation or an insertion.  A book update sends no hedge order,
    leaves the position as it is, and inserts at most one order, after at
    most one cancellation in [autotrader_ac_3.py] and at most two in
    [autotrader_ac_4.py].  Every other message sends nothing and leaves the
    position as it is. *)
Theorem X8_commands_by_message_kind
    (self3 self3' : AC3.AutoTrader) (self4 self4' : AC4.AutoTrader)
    (ev : Event) (sent3 sent4 : list Command) :
  (AC3.handle self3 ev = Ok (self3', sent3) →
   match ev with
   | OrderFilledMessage _ _ _ =>
       cancelled_ids sent3 = [] ∧ insertions sent3 = [] ∧
       (length sent3 ≤ 1)%nat
   | OrderBookUpdateMessage _ _ _ _ _ _ =>
       hedge_orders sent3 = [] ∧ AC3.position self3' = AC3.position self3 ∧
       (length (insertions sent3) ≤ 1)%nat ∧
       (length (cancelled_ids sent3) ≤ 1)%nat
   | _ => sent3 = [] ∧ AC3.position self3' = AC3.position self3
   end) ∧
  (AC4.handle self4 ev = Ok (self4', sent4) →
   match ev with
   | OrderFilledMessage _ _ _ =>
       cancelled_ids sent4 = [] ∧ insertions sent4 = [] ∧
       (length sent4 ≤ 1)%nat
   | OrderBookUpdateMessage _ _ _ _ _ _ =>
       hedge_orders sent4 = [] ∧ AC4.position self4' = AC4.position self4 ∧
       (length (insertions sent4) ≤ 1)%nat ∧
       (length (cancelled_ids sent4) ≤ 2)%nat
   | _ => sent4 = [] ∧ AC4.position self4' = AC4.position self4
   end).
Proof.
  split; intros Hrun.
  - by destruct (ac3_handle_commands _ _ _ _ Hrun).
  - by destruct (ac4_handle_commands _ _ _ _ Hrun).
Qed.

(** X9.  Over any run that returns, from any trader, neither file ever
    sends an amendment, and every order either file inserts is good for the
    day. *)
Theorem X9_no_amendment_ever (evs : list Event)
    (self3 self3' : AC3.AutoTrader) (self4 self4' : AC4.AutoTrader)
    (sent3 sent4 : list Command) :
  (AC3.run self3 evs = Ok (self3', sent3) → Forall in_repertoire sent3) ∧
  (AC4.run self4 evs = Ok (self4', sent4) → Forall in_repertoire sent4).
Proof.
  split.
  - revert self3 sent3. induction evs as [|ev evs IH]; intros self sent Hrun;
      simpl in Hrun.
    + inv_result. constructor.
    + apply result_bind_Ok in Hrun as ([self1 sent1] & Hev & Hrun).
      apply result_bind_Ok in Hrun as ([self2 sent2] & Hevs & Hrun).
      inv_result. apply Forall_app. split; [|by eapply IH].
      by destruct (ac3_handle_commands _ _ _ _ Hev).
  - revert self4 sent4. induction evs as [|ev evs IH]; intros self sent Hrun;
      simpl in Hrun.
    + inv_result. constructor.
    + apply result_bind_Ok in Hrun as ([self1 sent1] & Hev & Hrun).
      apply result_bind_Ok in Hrun as ([self2 sent2] & Hevs & Hrun).
      inv_result. apply Forall_app. split; [|by eapply IH].
      by destruct (ac4_handle_commands _ _ _ _ Hev).
Qed.

End Commands.

Lemma X8_commands_by_message_kind_witness :
  let self3 := @AC3.after sample_limits resting_bid_run in
  let self4 := @AC4.after sample_limits resting_bid_run in
  let filled3 := @AC3.on_order_filled_message sample_limits self3 1 10000 40 in
  let filled4 := @AC4.on_order_filled_message sample_limits self4 1 10000 40 in
  (cancelled_ids filled3.2 = [] ∧ insertions filled3.2 = [] ∧
   (length filled3.2 ≤ 1)%nat) ∧
  (cancelled_ids filled4.2 = [] ∧ insertions filled4.2 = [] ∧
   (length filled4.2 ≤ 1)%nat).
Proof.
  intros self3 self4 filled3 filled4.
  destruct (@X8_commands_by_message_kind sample_limits
              self3 filled3.1 self4 filled4.1 (OrderFilledMessage 1 10000 40)
              filled3.2 filled4.2) as [H3 H4].
  split.
  - apply H3. exact (f_equal Ok (surjective_pairing filled3)).
  - apply H4. exact (f_equal Ok (surjective_pairing filled4)).
Defined.

Lemma X9_no_amendment_ever_witness :
  Forall in_repertoire limit_breach_sent.
Proof.
  assert (@AC3.run sample_limits AC3.init limit_breach_run
            = Ok (@AC3.after sample_limits limit_breach_run, limit_breach_sent))
    as H3 by (by vm_compute).
  destruct (@X9_no_amendment_ever sample_limits limit_breach_run
              AC3.init (@AC3.after sample_limits limit_breach_run)
              AC4.init AC4.init limit_breach_sent []) as [Hrun _].
  exact (Hrun H3).
Defined.

(** ** How a synchronized ETF update sizes its order *)

Section Quoting.
Context `{ExchangeLimits}.

Lemma ac3_insert_within_limit_alone self i n ap av bp bv self' sent
    id side price volume lifespan :
  AC3.on_order_book_update_message self i n ap av bp bv = Ok (self', sent) →
  send_insert_order id side price volume lifespan ∈ sent →
  -100 ≤ AC3.position self ≤ 100 →
  match side with
  | BID => 0 < volume ∧ AC3.position self + volume ≤ 100
  | ASK => 0 < volume ∧ -100 ≤ AC3.position self - volume
  end.
Proof.
  intros Hrun Hin Hpos.
  ac3_book_cases Hrun; [by apply elem_of_nil in Hin|..];
    simpl in *; set_unfold in Hin; destruct_or?; simplify_eq;
    try match goal with
        | |- context [Z.abs ?d `div` 100] =>
            assert (0 ≤ Z.abs d `div` 100) by (apply Z.div_pos; lia)
        end;
    lia.
Qed.

Lemma ac3_insert_volume_positive self i n ap av bp bv self' sent
    id side price volume lifespan :
  AC3.on_order_book_update_message self i n ap av bp bv = Ok (self', sent) →
  send_insert_order id side price volume lifespan ∈ sent →
  0 < volume.
Proof.
  intros Hrun Hin.
  ac3_book_cases Hrun; [by apply elem_of_nil in Hin|..];
    simpl in *; set_unfold in Hin; destruct_or?; simplify_eq;
    try match goal with
        | |- context [Z.abs ?d `div` 100] =>
            assert (0 ≤ Z.abs d `div` 100) by (apply Z.div_pos; lia)
        end;
    lia.
Qed.

Lemma ac4_insert_volume_positive self i n ap av bp bv self' sent
    id side price volume lifespan :
  AC4.on_order_book_update_message self i n ap av bp bv = Ok (self', sent) →
  send_insert_order id side price volume lifespan ∈ sent →
  0 < volume.
Proof.
  intros Hrun Hin.
  destruct (ac4_book_update_Ok_inv _ _ _ _ _ _ _ _ _ Hrun)
    as (b & a & bp' & ap' & -> & -> & [->|(-> & Hsync & bf & af & Hbf & Haf)]).
  { by apply elem_of_nil in Hin. }
  rewrite (ac4_book_update_ETF_sync _ _ _ _ _ _ _ _ _ _ Hsync Hbf Haf) in Hrun.
  cbv zeta in Hrun. apply result_bind_Ok in Hrun as (_ & _ & Hrun).
  set (m := Z.abs _ `div` 100) in *.
  assert (0 ≤ m) by (apply Z.div_pos; lia).
  destruct (bool_decide (AC4.ask_id self ≠ 0)),
    (bool_decide (AC4.bid_id self ≠ 0));
    inv_result; simpl in *; set_unfold in Hin;
    destruct_or?; simplify_eq;
    repeat match goal with
    | H : _ && _ = true |- _ => apply andb_true_iff in H as [? ?]
    | H : bool_decide _ = true |- _ => apply bool_decide_eq_true_1 in H
    end;
    repeat case_bool_decide; lia.
Qed.

(** X10.  In either file, every order inserted by a book update has a
    positive volume, whatever the position; and if the position is within
    [-100, 100] when the update arrives, the position would still be within
    [-100, 100] after the order alone is filled in full: a bid never asks
    for more than [100 - position] lots, an ask never for more than
    [100 + position]. *)
Theorem X10_inserted_order_fits_limit
    (self3 self3' : AC3.AutoTrader) (self4 self4' : AC4.AutoTrader)
    (i : Instrument) (n : Z) (ap av bp bv : list Z)
    (sent3 sent4 : list Command)
    (id : Z) (side : Side) (price volume : Z) (lifespan : Lifespan) :
  (AC3.on_order_book_update_message self3 i n ap av bp bv
     = Ok (self3', sent3) →
   send_insert_order id side price volume lifespan ∈ sent3 →
   0 < volume ∧
   (-100 ≤ AC3.position self3 ≤ 100 →
    -100 ≤ AC3.position self3 + (if side is BID then volume else - volume)
         ≤ 100)) ∧
  (AC4.on_order_book_update_message self4 i n ap av bp bv
     = Ok (self4', sent4) →
   send_insert_order id side price volume lifespan ∈ sent4 →
   0 < volume ∧
   (-100 ≤ AC4.position self4 ≤ 100 →
    -100 ≤ AC4.position self4 + (if side is BID then volume else - volume)
         ≤ 100)).
Proof.
  split; intros Hrun Hin.
  - split; [by eapply ac3_insert_volume_positive|]. intros Hpos.
    pose proof (ac3_insert_within_limit_alone _ _ _ _ _ _ _ _ _ _ _ _ _ _
                  Hrun Hin Hpos) as Hfit.
    destruct side; lia.
  - split; [by eapply ac4_insert_volume_positive|]. intros Hpos.
    pose proof (ac4_insert_within_limit_alone _ _ _ _ _ _ _ _ _ _ _ _ _ _
                  Hrun Hin Hpos) as Hfit.
    destruct side; lia.
Qed.

(** X11.  What a synchronized ETF update inserts, in either file.  With the
    ETF midpoint above the future's it is one ask at the update's best ask,
    but only while [position > -90]; its size is [10 * multiplier] when
    [position - 10 * multiplier >= -100] and [100 + position] otherwise.
    With the ETF midpoint below the future's it is one bid at the update's
    best bid, but only while [position < 90]; its size is [10 * multiplier]
    when [position + 10 * multiplier <= 100] and [100 - position]
    otherwise.  With equal midpoints nothing is inserted.  The order takes
    the next id.  [autotrader_ac_3.py] always returns here; for
    [autotrader_ac_4.py] the statement is about the updates on which it
    returns. *)
Theorem X11_quote_of_synchronized_update
    (self3 : AC3.AutoTrader) (self4 : AC4.AutoTrader)
    (n a b bf af : Z) (ap av bp bv : list Z) :
  let midpoint_price_of_etf := (b + a) `div` 2 in
  let midpoint_price_of_future := (bf + af) `div` 2 in
  let multiplier :=
    Z.abs (midpoint_price_of_etf - midpoint_price_of_future) `div` 100 + 1 in
  let quote (next_id position : Z) :=
    if bool_decide (midpoint_price_of_etf > midpoint_price_of_future) then
      if bool_decide (position > -90) then
        [send_insert_order next_id ASK a
           (if bool_decide (position - 10 * multiplier >= -100)
            then 10 * multiplier else 100 + position)
           GOOD_FOR_DAY]
      else []
    else if bool_decide (midpoint_price_of_etf < midpoint_price_of_future) then
      if bool_decide (position < 90) then
        [send_insert_order next_id BID b
           (if bool_decide (position + 10 * multiplier ≤ 100)
            then 10 * multiplier else 100 - position)
           GOOD_FOR_DAY]
      else []
    else [] in
  (S (length (AC3.bid_price_history_of_etf self3))
     = length (AC3.bid_price_history_of_future self3) →
   last (AC3.bid_price_history_of_future self3) = Some bf →
   last (AC3.ask_price_history_of_future self3) = Some af →
   ∃ self' sent,
     AC3.on_order_book_update_message self3 ETF n (a :: ap) av (b :: bp) bv
       = Ok (self', sent) ∧
     insertions sent = quote (AC3.order_ids self3) (AC3.position self3)) ∧
  (S (length (AC4.bid_price_history_of_etf self4))
     = length (AC4.bid_price_history_of_future self4) →
   last (AC4.bid_price_history_of_future self4) = Some bf →
   last (AC4.ask_price_history_of_future self4) = Some af →
   ∀ self' sent,
     AC4.on_order_book_update_message self4 ETF n (a :: ap) av (b :: bp) bv
       = Ok (self', sent) →
     insertions sent = quote (AC4.order_ids self4) (AC4.position self4)).
Proof.
  intros me mf multiplier quote. subst quote. split.
  - intros Hsync Hbf Haf.
    rewrite (ac3_book_update_ETF_sync _ _ _ _ _ _ _ _ _ _ Hsync Hbf Haf).
    cbv zeta. fold me mf. fold multiplier.
    repeat case_bool_decide; try lia; by eexists _, _.
  - intros Hsync Hbf Haf self' sent Hrun.
    rewrite (ac4_book_update_ETF_sync _ _ _ _ _ _ _ _ _ _ Hsync Hbf Haf) in Hrun.
    cbv zeta in Hrun. fold me mf in Hrun. fold multiplier in Hrun.
    apply result_bind_Ok in Hrun as (_ & _ & Hrun).
    repeat (case_bool_decide; simpl in Hrun); try lia; by inv_result.
Qed.

End Quoting.

(** A trader at position 0 with the future's snapshot at 10000 in, and the
    ETF update of the spec's first scenario: its midpoint 10100 is one tick
    above the future's, the multiplier is 2, and it inserts an ask for 20
    lots at its best ask. *)
Lemma X11_quote_of_synchronized_update_witness :
  let self3 := @AC3.after sample_limits [book FUTURE 1 10000 10000] in
  let self4 := @AC4.after sample_limits [book FUTURE 1 10000 10000] in
  (∃ self' sent,
     AC3.on_order_book_update_message self3 ETF 1
       [10150; 0; 0; 0; 0] [] [10050; 0; 0; 0; 0] [] = Ok (self', sent) ∧
     insertions sent = [send_insert_order 1 ASK 10150 20 GOOD_FOR_DAY]) ∧
  (∀ self' sent,
     AC4.on_order_book_update_message self4 ETF 1
       [10150; 0; 0; 0; 0] [] [10050; 0; 0; 0; 0] [] = Ok (self', sent) →
     insertions sent = [send_insert_order 1 ASK 10150 20 GOOD_FOR_DAY]).
Proof.
  intros self3 self4.
  destruct (X11_quote_of_synchronized_update self3 self4 1 10150 10050
              10000 10000 [0; 0; 0; 0] [] [0; 0; 0; 0] []) as [H3 H4].
  split.
  - destruct H3 as (self' & sent & Hrun & Hquote); [by vm_compute..|].
    exists self', sent. split; [done|]. rewrite Hquote. by vm_compute.
  - intros self' sent Hrun.
    rewrite (H4 ltac:(by vm_compute) ltac:(by vm_compute)
                ltac:(by vm_compute) self' sent Hrun).
    by vm_compute.
Defined.

Lemma X10_inserted_order_fits_limit_witness :
  let self3 := @AC3.after sample_limits position_85_run in
  let self4 := @AC4.after sample_limits position_85_run in
  let ap := [10000; 0; 0; 0; 0] in
  (AC3.position self3 = 85 ∧ AC4.position self4 = 85) ∧
  (0 < 15 ∧ -100 ≤ AC3.position self3 + 15 ≤ 100) ∧
  (0 < 15 ∧ -100 ≤ AC4.position self4 + 15 ≤ 100).
Proof.
  intros self3 self4 ap.
  destruct (X10_inserted_order_fits_limit
              self3 (AC3.set_bids {[1; 3]}
                       (AC3.set_bid_id 3
                          (AC3.set_order_ids 4
                             (AC3.append_etf 10000 10000 self3))))
              self4 (AC4.set_bids {[1; 3]}
                       (AC4.set_bid_id 3
                          (AC4.set_order_ids 4
                             (AC4.append_etf 10000 10000 self4))))
              ETF 2 ap [] ap []
              [send_cancel_order 1;
               send_insert_order 3 BID 10000 15 GOOD_FOR_DAY]
              [send_cancel_order 1;
               send_insert_order 3 BID 10000 15 GOOD_FOR_DAY]
              3 BID 10000 15 GOOD_FOR_DAY) as [H3 H4].
  split; [by vm_compute|]. split.
  - destruct H3 as [Hvol Hfit]; [by vm_compute | by repeat constructor |].
    split; [done|]. apply Hfit. by vm_compute.
  - destruct H4 as [Hvol Hfit]; [by vm_compute | by repeat constructor |].
    split; [done|]. apply Hfit. by vm_compute.
Defined.

(** ** Cancelled orders *)

Section Stale.
Context `{ExchangeLimits}.

Lemma slots_wf_resting n B A b a :
  slots_wf n B A b a →
  (b ≠ 0 → b ∈ B ∧ b < n ∧ b ≠ a) ∧ (a ≠ 0 → a ∈ A ∧ a < n ∧ a ≠ b).
Proof.
  intros Hwf. pose proof (slots_wf_distinct _ _ _ _ _ Hwf) as Hd.
  destruct Hwf as [Hn HB HA HD Hb Ha].
  split; intros Hne.
  - specialize (Hb Hne). specialize (HB _ Hb). split_and!; [done | lia | lia].
  - specialize (Ha Hne). specialize (HA _ Ha). split_and!; [done | lia | lia].
Qed.

Lemma ac3_cancelled_stays_tracked self i n ap av bp bv self' sent id :
  AC3.reachable self →
  AC3.on_order_book_update_message self i n ap av bp bv = Ok (self', sent) →
  id ∈ cancelled_ids sent →
  id ≠ 0 ∧ (id = AC3.bid_id self ∨ id = AC3.ask_id self) ∧
  id ∈ AC3.bids self' ∪ AC3.asks self' ∧
  id ≠ AC3.bid_id self' ∧ id ≠ AC3.ask_id self'.
Proof.
  intros Hwf%ac3_reachable_wf Hrun Hin.
  destruct (slots_wf_resting _ _ _ _ _ Hwf) as [Hfb Hfa].
  ac3_book_cases Hrun; simpl in *; set_unfold in Hin;
    destruct_or?; simplify_eq; try done;
    try (destruct (Hfa ltac:(done)) as (? & ? & ?));
    try (destruct (Hfb ltac:(done)) as (? & ? & ?));
    split_and!; first [done | lia | set_solver | by left | by right].
Qed.

Lemma ac4_cancelled_stays_tracked self i n ap av bp bv self' sent id :
  AC4.reachable self →
  AC4.on_order_book_update_message self i n ap av bp bv = Ok (self', sent) →
  id ∈ cancelled_ids sent →
  id ≠ 0 ∧ (id = AC4.bid_id self ∨ id = AC4.ask_id self) ∧
  id ∈ AC4.bids self' ∪ AC4.asks self' ∧
  id ≠ AC4.bid_id self' ∧ id ≠ AC4.ask_id self'.
Proof.
  intros Hwf%ac4_reachable_wf Hrun Hin.
  destruct (slots_wf_resting _ _ _ _ _ Hwf) as [Hfb Hfa].
  destruct (ac4_book_update_Ok_cases _ _ _ _ _ _ _ _ _ Hrun)
    as (b & a & bp' & ap' & -> & -> &
        [[-> ->]|(-> & Hsync & bf & af & Hbf & Haf)]).
  { by apply elem_of_nil in Hin. }
  rewrite (ac4_book_update_ETF_sync _ _ _ _ _ _ _ _ _ _ Hsync Hbf Haf) in Hrun.
  cbv zeta in Hrun. apply result_bind_Ok in Hrun as (_ & _ & Hrun).
  assert (id ∈ (if bool_decide (AC4.ask_id self ≠ 0)
                then [AC4.ask_id self] else [])
               ++ (if bool_decide (AC4.bid_id self ≠ 0)
                   then [AC4.bid_id self] else [])) as Hid.
  { destruct (_ && _); [|destruct (_ && _)]; inv_result;
      unfold cancelled_ids in Hin; rewrite ?omap_app in Hin;
      simpl in Hin; rewrite ?app_nil_r in Hin;
      by do 2 case_bool_decide. }
  assert (AC4.bids self ⊆ AC4.bids self' ∧ AC4.asks self ⊆ AC4.asks self' ∧
          (AC4.bid_id self' = 0 ∨ AC4.bid_id self' = AC4.order_ids self) ∧
          (AC4.ask_id self' = 0 ∨ AC4.ask_id self' = AC4.order_ids self))
    as (HB & HA & Hb' & Ha').
  { destruct (_ && _); [|destruct (_ && _)]; inv_result; simpl;
      split_and!; first [set_solver | by left | by right]. }
  clear Hrun Hin.
  apply elem_of_app in Hid as [Hid|Hid]; case_bool_decide as Hne;
    try (by apply elem_of_nil in Hid);
    apply list_elem_of_singleton in Hid as ->.
  - destruct (Hfa Hne) as (Hin & Hlt & Hneq).
    split_and!; [done | by right | set_solver | lia | lia].
  - destruct (Hfb Hne) as (Hin & Hlt & Hneq).
    split_and!; [done | by left | set_solver | lia | lia].
Qed.

(** X12.  In either file, in a trader the exchange can bring about, every
    order a book update cancels was resting in a slot (so its id is not 0);
    after the update it is in neither slot, and its id is still in the id
    sets: the order stays tracked, and a fill that arrives for it later
    still moves the position and is hedged. *)
Theorem X12_cancelled_order_stays_tracked
    (self3 self3' : AC3.AutoTrader) (self4 self4' : AC4.AutoTrader)
    (i : Instrument) (n : Z) (ap av bp bv : list Z)
    (sent3 sent4 : list Command) (id : Z) :
  (AC3.reachable self3 →
   AC3.on_order_book_update_message self3 i n ap av bp bv
     = Ok (self3', sent3) →
   id ∈ cancelled_ids sent3 →
   id ≠ 0 ∧ (id = AC3.bid_id self3 ∨ id = AC3.ask_id self3) ∧
   id ∈ AC3.bids self3' ∪ AC3.asks self3' ∧
   id ≠ AC3.bid_id self3' ∧ id ≠ AC3.ask_id self3') ∧
  (AC4.reachable self4 →
   AC4.on_order_book_update_message self4 i n ap av bp bv
     = Ok (self4', sent4) →
   id ∈ cancelled_ids sent4 →
   id ≠ 0 ∧ (id = AC4.bid_id self4 ∨ id = AC4.ask_id self4) ∧
   id ∈ AC4.bids self4' ∪ AC4.asks self4' ∧
   id ≠ AC4.bid_id self4' ∧ id ≠ AC4.ask_id self4').
Proof.
  split.
  - apply ac3_cancelled_stays_tracked.
  - apply ac4_cancelled_stays_tracked.
Qed.

End Stale.

Lemma X12_cancelled_order_stays_tracked_witness :
  let evs := resting_bid_run ++ [book FUTURE 2 20000 20000] in
  let self3 := @AC3.after sample_limits evs in
  let self4 := @AC4.after sample_limits evs in
  let self3' := @AC3.after sample_limits (evs ++ [book ETF 2 10000 10000]) in
  let self4' := @AC4.after sample_limits (evs ++ [book ETF 2 10000 10000]) in
  (AC3.bid_id self3 = 1 ∧ AC4.bid_id self4 = 1) ∧
  (1 ∈ AC3.bids self3' ∪ AC3.asks self3' ∧ AC3.bid_id self3' = 2) ∧
  (1 ∈ AC4.bids self4' ∪ AC4.asks self4' ∧ AC4.bid_id self4' = 2).
Proof.
  intros evs self3 self4 self3' self4'.
  pose (sent := [send_cancel_order 1;
                 send_insert_order 2 BID 10000 100 GOOD_FOR_DAY]).
  destruct (@X12_cancelled_order_stays_tracked sample_limits
              self3 self3' self4 self4' ETF 2
              [10000; 0; 0; 0; 0] [1; 0; 0; 0; 0]
              [10000; 0; 0; 0; 0] [1; 0; 0; 0; 0] sent sent 1) as [H3 H4].
  destruct H3 as (_ & _ & Hin3 & _);
    [apply ac3_after_reachable | by vm_compute | by repeat constructor |].
  destruct H4 as (_ & _ & Hin4 & _);
    [apply ac4_after_reachable | by vm_compute | by repeat constructor |].
  split_and!; try done; by vm_compute.
Defined.

(** ** One file against the other *)

Section TwoFiles.
Context `{ExchangeLimits}.

Lemma forget_status self id fill_volume remaining_volume fees :
  AC3.on_order_status_message (forget_position_orders self) id fill_volume
    remaining_volume fees
  = (forget_position_orders
       (AC4.on_order_status_message self id fill_volume remaining_volume
          fees).1,
     (AC4.on_order_status_message self id fill_volume remaining_volume
        fees).2).
Proof.
  unfold AC3.on_order_status_message, AC4.on_order_status_message.
  destruct self; simpl.
  repeat (case_bool_decide; simpl); try done; congruence.
Qed.

Lemma forget_error self id msg self' sent :
  AC4.on_error_message self id msg = Ok (self', sent) →
  AC3.on_error_message (forget_position_orders self) id msg
  = Ok (forget_position_orders self', sent).
Proof.
  intros [Hdec Heq]%ac4_error_Ok_inv.
  apply ac3_error_Ok_inv. split; [done|]. simpl.
  destruct (_ && _).
  - rewrite forget_status. by rewrite <- Heq.
  - by injection Heq as -> ->.
Qed.

Lemma forget_filled self id price volume :
  AC3.on_order_filled_message (forget_position_orders self) id price volume
  = (forget_position_orders
       (AC4.on_order_filled_message self id price volume).1,
     (AC4.on_order_filled_message self id price volume).2).
Proof.
  unfold AC3.on_order_filled_message, AC4.on_order_filled_message. simpl.
  by repeat case_bool_decide.
Qed.

Lemma forget_book_update self i n ap av bp bv self' sent :
  AC4.reachable self → AC4.bid_id self = 0 → AC4.ask_id self = 0 →
  AC4.on_order_book_update_message self i n ap av bp bv = Ok (self', sent) →
  AC3.on_order_book_update_message (forget_position_orders self)
    i n ap av bp bv = Ok (forget_position_orders self', sent).
Proof.
  intros [Hetf Hfut]%ac4_reachable_histories Hb Ha Hrun.
  destruct (ac4_book_update_Ok_inv _ _ _ _ _ _ _ _ _ Hrun)
    as (b & a & bp' & ap' & -> & -> & _).
  destruct i.
  - rewrite ac4_book_update_unsync in Hrun by (by left). inv_result.
    by rewrite ac3_book_update_FUTURE_returns.
  - destruct (decide (S (length (AC4.bid_price_history_of_etf self))
                      = length (AC4.bid_price_history_of_future self)))
      as [Hsync|Hsync].
    + destruct (last_of_nonempty (AC4.bid_price_history_of_future self))
        as [bf Hbf]; [lia|].
      destruct (last_of_nonempty (AC4.ask_price_history_of_future self))
        as [af Haf]; [lia|].
      rewrite (ac4_book_update_ETF_sync _ _ _ _ _ _ _ _ _ _ Hsync Hbf Haf)
        in Hrun.
      rewrite (ac3_book_update_ETF_sync (forget_position_orders self)
                 _ _ _ _ _ _ _ bf af) by done.
      cbv zeta in *. apply result_bind_Ok in Hrun as (_ & _ & Hrun).
      destruct self; simpl in *; subst.
      repeat (case_bool_decide; simpl in * ); try lia; try done;
        inv_result; reflexivity.
    + rewrite ac4_book_update_unsync in Hrun.
      2:{ right. simpl. rewrite length_app. simpl. lia. }
      inv_result. rewrite ac3_book_update_unsync; [done|].
      simpl. rewrite length_app. simpl. lia.
Qed.

(** X13.  [autotrader_ac_4.py] without its [position_orders] behaves like
    [autotrader_ac_3.py]: on every message that is no book update the two
    files send the same commands and end in the same trader, and so they do
    on a book update that finds both slots empty and on which
    [autotrader_ac_4.py] returns.  (With a quote resting the two differ:
    see C3.) *)
Theorem X13_files_agree_without_resting_quote
    (self self' : AC4.AutoTrader) (ev : Event) (sent : list Command) :
  AC4.reachable self →
  AC4.handle self ev = Ok (self', sent) →
  match ev with
  | OrderBookUpdateMessage _ _ _ _ _ _ =>
      AC4.bid_id self = 0 ∧ AC4.ask_id self = 0
  | _ => True
  end →
  AC3.handle (forget_position_orders self) ev
    = Ok (forget_position_orders self', sent).
Proof.
  intros Hr Hrun Hslots. destruct ev; simpl in *.
  - by apply forget_error.
  - unfold AC4.on_hedge_filled_message in Hrun. by inv_result.
  - rewrite forget_filled. injection Hrun as Hrun. by rewrite Hrun.
  - rewrite forget_status. injection Hrun as Hrun. by rewrite Hrun.
  - unfold AC4.on_trade_ticks_message in Hrun. by inv_result.
  - destruct Hslots as [Hb Ha]. by apply forget_book_update.
Qed.

End TwoFiles.

Lemma X13_files_agree_without_resting_quote_witness :
  let self := @AC4.after sample_limits [book FUTURE 1 20000 20000] in
  let self' := @AC4.after sample_limits resting_bid_run in
  @AC3.handle sample_limits (forget_position_orders self)
    (book ETF 1 10000 10000)
  = Ok (forget_position_orders self',
        [send_insert_order 1 BID 10000 100 GOOD_FOR_DAY]).
Proof.
  intros self self'.
  apply (@X13_files_agree_without_resting_quote sample_limits).
  - apply ac4_after_reachable.
  - by vm_compute.
  - split; by vm_compute.
Defined.
